(** * PBCS_MCP: the fake PBCS job server and the Planning tool gateway

    A shallow embedding of [fake_pbcs_server.py] (the Job Lifecycle
    Simulator), [pbcs_copilot_mcp.py] (the stdio Tool Gateway with its
    dispatch loop) and [pbcs_copilot_mcp_fastmcp.py] (the FastMCP Tool
    Gateway), followed by the properties of the specification.

    Python dictionaries used as tables ([JOBS], [JOB_DETAILS]) are finite
    maps; JSON documents and the dictionaries built by the gateways are
    values of [json]; the clock, the request headers and the HTTP transport
    are inputs of the functions that read them. *)

From Stdlib Require Import ZArith String Ascii List Lia.
From stdpp Require Import base gmap list strings pretty.
Import ListNotations.

Local Open Scope string_scope.
Local Open Scope Z_scope.

(** ** Python values *)

Local Set Warnings "-register-all".

(** A JSON document as Python's [json] module decodes it.  [JObj] holds the
    items of a [dict] in insertion order, each key once.  Numbers are the
    integers; fractional numbers are outside the model. *)
Inductive json : Type :=
  | JNull
  | JBool (b : bool)
  | JNum (z : Z)
  | JStr (s : string)
  | JArr (items : list json)
  | JObj (fields : list (string * json)).

(** Python's truth test ([if v], [not v], [v or w]). *)
Definition truthy (v : json) : bool :=
  match v with
  | JNull => false
  | JBool b => b
  | JNum z => negb (z =? 0)
  | JStr s => negb (String.eqb s "")
  | JArr l => match l with [] => false | _ => true end
  | JObj kv => match kv with [] => false | _ => true end
  end.

(** [a or b]. *)
Definition py_or (a b : json) : json := if truthy a then a else b.

(** [d.get(k)] on the items of a dict: [None] when the key is missing. *)
Fixpoint dict_lookup (kv : list (string * json)) (k : string) : option json :=
  match kv with
  | [] => None
  | (k', v) :: rest => if String.eqb k' k then Some v else dict_lookup rest k
  end.

(** [d.get(k, dflt)]. *)
Definition dict_get_default (kv : list (string * json)) (k : string) (dflt : json) : json :=
  match dict_lookup kv k with
  | Some v => v
  | None => dflt
  end.

(** [d.get(k)], with Python's [None] as [JNull]. *)
Definition dict_get (kv : list (string * json)) (k : string) : json :=
  dict_get_default kv k JNull.

(** [str.lower()]: the letters A-Z become a-z and every other byte is kept,
    which decides the comparisons with the ASCII literals of the source as
    Python decides them. *)
Definition lower_ascii (c : ascii) : ascii :=
  let n := nat_of_ascii c in
  if (Nat.leb 65 n && Nat.leb n 90)%bool then ascii_of_nat (n + 32) else c.

Fixpoint lower (s : string) : string :=
  match s with
  | EmptyString => EmptyString
  | String c rest => String (lower_ascii c) (lower rest)
  end.

(** [x or ""] for an optional header or environment variable. *)
Definition or_empty (o : option string) : string :=
  match o with
  | Some s => s
  | None => ""
  end.

(** A raised Python exception: its class and [str(e)]. *)
Record exn : Type := Exn { exn_class : string; exn_message : string }.

(** The name Python prints for the type of a value. *)
Definition type_name (v : json) : string :=
  match v with
  | JNull => "NoneType"
  | JBool _ => "bool"
  | JNum _ => "int"
  | JStr _ => "str"
  | JArr _ => "list"
  | JObj _ => "dict"
  end.

(** The exception raised by [v.get(...)] when [v] is not a dict. *)
Definition no_get (v : json) : exn :=
  Exn "AttributeError" ("'" +:+ type_name v +:+ "' object has no attribute 'get'").

(** The two builtins whose text rules are not written out here: [repr] of a
    value (used by [str] and by f-strings on containers) and [int] on a
    text, which fails ([None], a [ValueError]) on a text that is no integer
    literal. *)
Class PyRuntime : Type := {
  py_repr : json -> string;
  py_int_text : string -> option Z
}.

Section Builtins.
Context `{PyRuntime}.

(** [str(v)], as an f-string formats [v]. *)
Definition py_str (v : json) : string :=
  match v with
  | JNull => "None"
  | JBool true => "True"
  | JBool false => "False"
  | JNum z => pretty z
  | JStr s => s
  | JArr _ | JObj _ => py_repr v
  end.

(** [int(v)]. *)
Definition py_int (v : json) : exn + Z :=
  match v with
  | JNum z => inr z
  | JBool b => inr (if b then 1 else 0)
  | JStr s =>
      match py_int_text s with
      | Some z => inr z
      | None =>
          inl (Exn "ValueError"
                 ("invalid literal for int() with base 10: " +:+ py_repr (JStr s)))
      end
  | _ =>
      inl (Exn "TypeError"
             ("int() argument must be a string, a bytes-like object or a real number, not '"
                +:+ type_name v +:+ "'"))
  end.

End Builtins.

(** [l[start:stop]]: a negative index counts from the end, and both ends are
    clamped to the list. *)
Definition slice_index (n i : Z) : Z :=
  if i <? 0 then Z.max 0 (i + n) else Z.min i n.

Definition py_slice {A : Type} (l : list A) (start stop : Z) : list A :=
  let n := Z.of_nat (length l) in
  let s := slice_index n start in
  let e := slice_index n stop in
  take (Z.to_nat (e - s)) (drop (Z.to_nat s) l).

(** ** The Job Lifecycle Simulator ([fake_pbcs_server.py]) *)

Module Simulator.

(** An entry of the static catalog. *)
Record JobDefinition : Type := {
  def_jobType : string;
  def_jobName : string;
  def_description : string
}.

Definition JOB_DEFS : list JobDefinition :=
  [ {| def_jobType := "RULES"; def_jobName := "RollupUSSales";
       def_description := "Aggregate US Sales" |};
    {| def_jobType := "IMPORT_DATA"; def_jobName := "Import_GL";
       def_description := "Import GL data file" |};
    {| def_jobType := "EXPORT_DATA"; def_jobName := "Export_GL";
       def_description := "Export GL data file" |};
    {| def_jobType := "REFRESH_CUBE"; def_jobName := "RefreshPlan1";
       def_description := "Refresh cube Plan1" |} ].

(** A value of [JOBS]: the job dictionary.  The key [endTime] is missing
    until the terminal transition writes it. *)
Record Job : Type := {
  jobId : string;
  jobType : json;
  jobName : json;
  status : string;
  descriptiveStatus : string;
  percentComplete : Z;
  startTime : string;
  endTime : option string;
  application : string;
  parameters : json
}.

(** An element of a [JOB_DETAILS] list; [row] is always [None]. *)
Record LogEntry : Type := {
  severity : string;
  type : string;
  row : option Z;
  message : string
}.

Definition log_message (sev msg : string) : LogEntry :=
  {| severity := sev; type := "MESSAGE"; row := None; message := msg |}.

(** The two module-level tables. *)
Record store : Type := {
  JOBS : gmap string Job;
  JOB_DETAILS : gmap string (list LogEntry)
}.

Definition empty_store : store := {| JOBS := ∅; JOB_DETAILS := ∅ |}.

(** What a request reads from its surroundings: the three simulation
    headers, and the clock ([int(time.time() * 1000)] and [now_iso()]). *)
Record headers : Type := {
  X_Auth_Mode : option string;
  X_RateLimit : option string;
  X_Fail_Job : option string
}.

Record clock : Type := {
  time_ms : Z;
  now_iso : string
}.

(** The JSON bodies the handlers build. *)
Inductive payload : Type :=
  | Message (text : string)
  | VersionItems
  | Definitions (items : list JobDefinition) (app : string)
  | Submitted (job_id st dst : string)
  | JobRecord (job : Job)
  | Details (items : list LogEntry) (offset limit count : Z) (hasMore : bool).

(** A handler returns a body with a status code (200 where the source gives
    none) or raises. *)
Inductive reply : Type :=
  | Reply (body : payload) (code : Z)
  | Raise (e : exn).

Definition reply_code (r : reply) : option Z :=
  match r with
  | Reply _ c => Some c
  | Raise _ => None
  end.

Definition require_auth (h : headers) : option reply :=
  let mode := lower (or_empty (X_Auth_Mode h)) in
  if String.eqb mode "failure401" then Some (Reply (Message "Unauthorized (simulated)") 401)
  else if String.eqb mode "failure403" then Some (Reply (Message "Forbidden (simulated)") 403)
  else None.

Definition versions (h : headers) : reply :=
  match require_auth h with
  | Some deny => deny
  | None => Reply VersionItems 200
  end.

Definition jobdefinitions (h : headers) (appname : string) : reply :=
  match require_auth h with
  | Some deny => deny
  | None => Reply (Definitions JOB_DEFS appname) 200
  end.

(** The rate-limit and job-failure signals, as the handlers test them. *)
Definition rate_limited (h : headers) : bool :=
  String.eqb (lower (or_empty (X_RateLimit h))) "429".

Definition fail_job (h : headers) : bool :=
  String.eqb (lower (or_empty (X_Fail_Job h))) "true".

Section Handlers.
Context `{PyRuntime}.

Definition new_job (job_id : string) (job_type job_name : json) (now : clock)
    (appname : string) (params : json) : Job :=
  {| jobId := job_id; jobType := job_type; jobName := job_name;
     status := "RUNNING"; descriptiveStatus := "RUNNING";
     percentComplete := 0; startTime := now_iso now; endTime := None;
     application := appname; parameters := params |}.

Definition initial_log (job_type job_name params : json) : list LogEntry :=
  [ log_message "INFO" ("Job " +:+ py_str job_name +:+ " started.");
    log_message "INFO"
      ("jobType=" +:+ py_str job_type +:+ " parameters=" +:+ py_str params) ].

(** [POST .../jobs].  [body] is what [request.get_json(force=True)]
    returned. *)
Definition execute_job (st : store) (now : clock) (h : headers)
    (appname : string) (body : json) : store * reply :=
  match require_auth h with
  | Some deny => (st, deny)
  | None =>
      match py_or body (JObj []) with
      | JObj kv =>
          let job_type := dict_get kv "jobType" in
          let job_name := dict_get kv "jobName" in
          let params := py_or (dict_get_default kv "parameters" (JObj [])) (JObj []) in
          if (negb (truthy job_type) || negb (truthy job_name))%bool then
            (st, Reply (Message "jobType and jobName are required") 400)
          else if rate_limited h then
            (st, Reply (Message "Too Many Requests (simulated)") 429)
          else
            let job_id := pretty (time_ms now) in
            ({| JOBS := <[job_id := new_job job_id job_type job_name now appname params]> (JOBS st);
                JOB_DETAILS := <[job_id := initial_log job_type job_name params]> (JOB_DETAILS st) |},
             Reply (Submitted job_id "RUNNING" "RUNNING") 201)
      | other => (st, Raise (no_get other))
      end
  end.

End Handlers.

Definition set_progress (job : Job) (pc : Z) : Job :=
  {| jobId := jobId job; jobType := jobType job; jobName := jobName job;
     status := status job; descriptiveStatus := descriptiveStatus job;
     percentComplete := pc; startTime := startTime job; endTime := endTime job;
     application := application job; parameters := parameters job |}.

Definition finish (job : Job) (outcome : string) (now : clock) : Job :=
  {| jobId := jobId job; jobType := jobType job; jobName := jobName job;
     status := outcome; descriptiveStatus := outcome;
     percentComplete := percentComplete job; startTime := startTime job;
     endTime := Some (now_iso now);
     application := application job; parameters := parameters job |}.

(** [JOB_DETAILS[job_id].append(entry)], after the job dictionary was
    updated in place: a missing list raises [KeyError] and leaves the
    update of the job behind. *)
Definition append_log (st : store) (job_id : string) (job : Job) (entry : LogEntry)
    : store * reply :=
  match JOB_DETAILS st !! job_id with
  | Some log =>
      ({| JOBS := <[job_id := job]> (JOBS st);
          JOB_DETAILS := <[job_id := (log ++ [entry])%list]> (JOB_DETAILS st) |},
       Reply (JobRecord job) 200)
  | None =>
      ({| JOBS := <[job_id := job]> (JOBS st); JOB_DETAILS := JOB_DETAILS st |},
       Raise (Exn "KeyError" ("'" +:+ job_id +:+ "'")))
  end.

(** [GET .../jobs/<job_id>]. *)
Definition job_status (st : store) (now : clock) (h : headers)
    (appname job_id : string) : store * reply :=
  match require_auth h with
  | Some deny => (st, deny)
  | None =>
      match JOBS st !! job_id with
      | None => (st, Reply (Message "Job not found") 404)
      | Some job =>
          if String.eqb (status job) "RUNNING" then
            let job1 := set_progress job (Z.min 100 (percentComplete job + 35)) in
            if (fail_job h && (70 <=? percentComplete job1))%bool then
              append_log st job_id (finish job1 "FAILED" now)
                (log_message "ERROR" "Simulated failure occurred.")
            else if 100 <=? percentComplete job1 then
              append_log st job_id (finish job1 "SUCCEEDED" now)
                (log_message "INFO" "Job completed successfully.")
            else
              ({| JOBS := <[job_id := job1]> (JOBS st); JOB_DETAILS := JOB_DETAILS st |},
               Reply (JobRecord job1) 200)
          else (st, Reply (JobRecord job) 200)
      end
  end.

(** The query string of a details request; a missing argument takes the
    default of [request.args.get]. *)
Record query : Type := {
  q_offset : option string;
  q_limit : option string
}.

Section Details.
Context `{PyRuntime}.

(** [int(request.args.get(name, dflt))]. *)
Definition int_arg (arg : option string) (dflt : Z) : exn + Z :=
  match arg with
  | Some text => py_int (JStr text)
  | None => py_int (JNum dflt)
  end.

(** [GET .../jobs/<job_id>/details]. *)
Definition job_details (st : store) (h : headers) (appname job_id : string)
    (q : query) : reply :=
  match require_auth h with
  | Some deny => deny
  | None =>
      match JOB_DETAILS st !! job_id with
      | None => Reply (Message "Job not found") 404
      | Some items =>
          match int_arg (q_offset q) 0 with
          | inl e => Raise e
          | inr offset =>
              match int_arg (q_limit q) 200 with
              | inl e => Raise e
              | inr limit =>
                  let page := py_slice items offset (offset + limit) in
                  Reply (Details page offset limit (Z.of_nat (length page))
                           (offset + limit <? Z.of_nat (length items))) 200
              end
          end
      end
  end.

(** The five routes of the application. *)
Inductive request : Type :=
  | GetVersions
  | GetJobDefinitions (appname : string)
  | PostJob (appname : string) (body : json)
  | GetJobStatus (appname job_id : string)
  | GetJobDetails (appname job_id : string) (q : query).

Definition handle (st : store) (now : clock) (h : headers) (r : request)
    : store * reply :=
  match r with
  | GetVersions => (st, versions h)
  | GetJobDefinitions appname => (st, jobdefinitions h appname)
  | PostJob appname body => execute_job st now h appname body
  | GetJobStatus appname job_id => job_status st now h appname job_id
  | GetJobDetails appname job_id q => (st, job_details st h appname job_id q)
  end.

(** A request with the clock reading and the headers it arrives with. *)
Record arrival : Type := {
  at_clock : clock;
  with_headers : headers;
  route : request
}.

(** The server handling a sequence of requests, one after the other. *)
Fixpoint serve (st : store) (rs : list arrival) : store * list reply :=
  match rs with
  | [] => (st, [])
  | a :: rest =>
      let '(st1, r) := handle st (at_clock a) (with_headers a) (route a) in
      let '(st2, replies) := serve st1 rest in
      (st2, r :: replies)
  end.

End Details.

End Simulator.

(** ** The HTTP transport, as the gateways consume it *)

Module Http.

(** The arguments of one [requests.request] call.  [data] is the body
    before [json.dumps]; [verify] is [None] where the caller leaves the
    library's default. *)
Record http_request : Type := {
  method : string;
  url : string;
  req_headers : list (string * string);
  req_params : option (list (string * json));
  data : option json;
  timeout : Z;
  verify : option bool
}.

(** What [r.content], [r.json()] and [r.text] give for a response: no
    bytes at all, a JSON document, or bytes on which [r.json()] raises
    [e]. *)
Inductive content : Type :=
  | NoContent
  | JsonContent (doc : json)
  | BadContent (text : string) (e : exn).

Record http_response : Type := {
  status_code : Z;
  body : content
}.

(** The transport answers or raises (connection refused, timeout, ...). *)
Inductive outcome : Type :=
  | Answered (r : http_response)
  | Failed (e : exn).

Definition transport : Type := http_request -> outcome.

(** A gateway computation: it reads the transport, appends the calls it
    issues to the list of calls made so far, and returns or raises. *)
Definition io (A : Type) : Type :=
  transport -> list http_request -> (exn + A) * list http_request.

#[export] Instance io_ret : MRet io := fun A x _ calls => (inr x, calls).

#[export] Instance io_bind : MBind io := fun A B k c t calls =>
  match c t calls with
  | (inr x, calls1) => k x t calls1
  | (inl e, calls1) => (inl e, calls1)
  end.

Definition raise {A : Type} (e : exn) : io A := fun _ calls => (inl e, calls).

Definition lift {A : Type} (r : exn + A) : io A := fun _ calls => (r, calls).

(** [try: c  except Exception as e: handler(e)]. *)
Definition try_except {A : Type} (c : io A) (handler : exn -> io A) : io A :=
  fun t calls =>
    match c t calls with
    | (inr x, calls1) => (inr x, calls1)
    | (inl e, calls1) => handler e t calls1
    end.

(** [requests.request(...)]: one remote call. *)
Definition request (rq : http_request) : io http_response :=
  fun t calls =>
    match t rq with
    | Answered r => (inr r, (calls ++ [rq])%list)
    | Failed e => (inl e, (calls ++ [rq])%list)
    end.

(** [r.json() if r.content else {}]. *)
Definition json_or_empty (r : http_response) : exn + json :=
  match body r with
  | NoContent => inr (JObj [])
  | JsonContent doc => inr doc
  | BadContent _ e => inl e
  end.

(** Running a computation from an empty list of calls. *)
Definition run {A : Type} (c : io A) (t : transport) : (exn + A) * list http_request :=
  c t [].

End Http.

(** ** Text helpers of the configuration loaders *)

(** [s.rstrip("/")]. *)
Fixpoint rstrip_slash (s : string) : string :=
  match s with
  | EmptyString => EmptyString
  | String c rest =>
      match rstrip_slash rest with
      | EmptyString => if Ascii.eqb c "/" then EmptyString else String c EmptyString
      | kept => String c kept
      end
  end.

(** The white space [str.strip()] removes.  A text is held as the bytes of
    its UTF-8 encoding.  Python counts as white space the ASCII characters
    9-13, 28-31 and 32, and beyond ASCII the characters U+0085, U+00A0,
    U+1680, U+2000-U+200A, U+2028, U+2029, U+202F, U+205F and U+3000,
    which are encoded in two or three bytes. *)
Definition is_space (c : ascii) : bool :=
  let n := nat_of_ascii c in
  (Nat.eqb n 32 || (Nat.leb 9 n && Nat.leb n 13) || (Nat.leb 28 n && Nat.leb n 31))%bool.

(** U+0085 is [C2 85] and U+00A0 is [C2 A0]. *)
Definition is_space2 (c1 c2 : ascii) : bool :=
  let b := nat_of_ascii c2 in
  (Nat.eqb (nat_of_ascii c1) 194 && (Nat.eqb b 133 || Nat.eqb b 160))%bool.

(** U+1680 is [E1 9A 80]; U+2000-U+200A are [E2 80 80]-[E2 80 8A]; U+2028,
    U+2029 and U+202F are [E2 80 A8], [E2 80 A9] and [E2 80 AF]; U+205F is
    [E2 81 9F]; U+3000 is [E3 80 80]. *)
Definition is_space3 (c1 c2 c3 : ascii) : bool :=
  let a := nat_of_ascii c1 in
  let b := nat_of_ascii c2 in
  let c := nat_of_ascii c3 in
  ((Nat.eqb a 225 && Nat.eqb b 154 && Nat.eqb c 128)
   || (Nat.eqb a 226 && Nat.eqb b 128
       && ((Nat.leb 128 c && Nat.leb c 138) || Nat.eqb c 168 || Nat.eqb c 169
           || Nat.eqb c 175))
   || (Nat.eqb a 226 && Nat.eqb b 129 && Nat.eqb c 159)
   || (Nat.eqb a 227 && Nat.eqb b 128 && Nat.eqb c 128))%bool.

(** The text without the white space at its front.  With [backwards] the
    text is read from its last byte to its first, and so are the bytes of
    an encoded character. *)
Fixpoint skip_spaces (backwards : bool) (s : string) : string :=
  match s with
  | EmptyString => EmptyString
  | String c1 rest1 =>
      if is_space c1 then skip_spaces backwards rest1
      else
        match rest1 with
        | EmptyString => s
        | String c2 rest2 =>
            if (if backwards then is_space2 c2 c1 else is_space2 c1 c2) then
              skip_spaces backwards rest2
            else
              match rest2 with
              | EmptyString => s
              | String c3 rest3 =>
                  if (if backwards then is_space3 c3 c2 c1 else is_space3 c1 c2 c3) then
                    skip_spaces backwards rest3
                  else s
              end
        end
  end.

Definition lstrip (s : string) : string := skip_spaces false s.

Definition rstrip (s : string) : string :=
  String.rev (skip_spaces true (String.rev s)).

(** [s.strip()]. *)
Definition strip (s : string) : string := rstrip (lstrip s).

(** [str.upper()], on the same characters as [lower]. *)
Definition upper_ascii (c : ascii) : ascii :=
  let n := nat_of_ascii c in
  if (Nat.leb 97 n && Nat.leb n 122)%bool then ascii_of_nat (n - 32) else c.

Fixpoint upper (s : string) : string :=
  match s with
  | EmptyString => EmptyString
  | String c rest => String (upper_ascii c) (upper rest)
  end.

(** [o or dflt] for an optional text. *)
Definition or_text (o : option string) (dflt : string) : string :=
  match o with
  | Some s => if String.eqb s "" then dflt else s
  | None => dflt
  end.

(** An optional text that passes Python's truth test. *)
Definition present (o : option string) : option string :=
  match o with
  | Some s => if String.eqb s "" then None else Some s
  | None => None
  end.

(** The process environment, as [os.getenv] reads it. *)
Definition environ : Type := string -> option string.

(** ** The stdio Tool Gateway ([pbcs_copilot_mcp.py]) *)

Module Gateway.
Import Http.

Definition env_bool (getenv : environ) (name : string) (default : bool) : bool :=
  match getenv name with
  | None => default
  | Some v =>
      let w := lower (strip v) in
      (String.eqb w "1" || String.eqb w "true" || String.eqb w "yes"
       || String.eqb w "y" || String.eqb w "on")%bool
  end.

(** The dictionary [load_cfg] returns. *)
Record config : Type := {
  base_url : string;
  application : string;
  api_version : string;
  verify_ssl : bool;
  client_api_key : option string;
  fake_auth_mode : option string;
  fake_rate_limit : option string;
  fake_fail_job : option string
}.

Definition load_cfg (getenv : environ) : exn + config :=
  let cfg :=
    {| base_url := rstrip_slash (or_empty (getenv "PBCS_BASE_URL"));
       application := or_text (getenv "PBCS_APPLICATION") "Vision";
       api_version := or_text (getenv "PBCS_API_VERSION") "v3";
       verify_ssl := env_bool getenv "PBCS_VERIFY_SSL" true;
       client_api_key := getenv "MCP_CLIENT_API_KEY";
       fake_auth_mode := getenv "FAKE_AUTH_MODE";
       fake_rate_limit := getenv "FAKE_RATE_LIMIT";
       fake_fail_job := getenv "FAKE_FAIL_JOB" |} in
  if String.eqb (base_url cfg) "" then
    inl (Exn "RuntimeError"
           "Missing env var PBCS_BASE_URL (use http://127.0.0.1:9010 for the fake server)")
  else inr cfg.

(** A header added only when its configuration value passes the truth
    test. *)
Definition optional_header (name : string) (value : option string)
    : list (string * string) :=
  match present value with
  | Some v => [(name, v)]
  | None => []
  end.

Definition request_headers (cfg : config) : list (string * string) :=
  ([("Accept", "application/json"); ("Content-Type", "application/json")]
   ++ optional_header "X-Auth-Mode" (fake_auth_mode cfg)
   ++ optional_header "X-RateLimit" (fake_rate_limit cfg)
   ++ optional_header "X-Fail-Job" (fake_fail_job cfg))%list.

Definition network_or_parse_error (e : exn) (url : string) : json :=
  JObj [("ok", JBool false); ("error", JStr "NETWORK_OR_PARSE_ERROR");
        ("message", JStr (exn_message e)); ("url", JStr url)].

Definition http_error (code : Z) (payload : json) : json :=
  JObj [("ok", JBool false); ("error", JStr "HTTP_ERROR");
        ("status_code", JNum code); ("response", payload)].

Definition http_ok (code : Z) (payload : json) : json :=
  JObj [("ok", JBool true); ("status_code", JNum code); ("response", payload)].

(** The arguments [pbcs_request] passes to [requests.request]. *)
Definition outgoing (cfg : config) (method path : string)
    (params : option (list (string * json))) (body : option json) : http_request :=
  {| Http.method := upper method; Http.url := base_url cfg +:+ path;
     req_headers := request_headers cfg; req_params := params;
     data := body; timeout := 30; verify := Some (verify_ssl cfg) |}.

Definition pbcs_request (cfg : config) (method path : string)
    (params : option (list (string * json))) (body : option json) : io json :=
  let url := base_url cfg +:+ path in
  let rq := outgoing cfg method path params body in
  attempt ← try_except
    (r ← request rq;
     payload ← lift (json_or_empty r);
     mret (inr (r, payload)))
    (fun e => mret (inl (network_or_parse_error e url)));
  match attempt with
  | inl failure => mret failure
  | inr (r, payload) =>
      if 300 <=? status_code r then mret (http_error (status_code r) payload)
      else mret (http_ok (status_code r) payload)
  end.

(** [v.get(k)] and [v.get(k, dflt)] on a value that should be a dict. *)
Definition get (v : json) (k : string) : exn + json :=
  match v with
  | JObj kv => inr (dict_get kv k)
  | other => inl (no_get other)
  end.

Definition get_default (v : json) (k : string) (dflt : json) : exn + json :=
  match v with
  | JObj kv => inr (dict_get_default kv k dflt)
  | other => inl (no_get other)
  end.

(** [for i in v]: the elements of a list, the keys of a dict, the
    characters of a text; the other values are not iterable. *)
Fixpoint characters (s : string) : list json :=
  match s with
  | EmptyString => []
  | String c rest => JStr (String c EmptyString) :: characters rest
  end.

Definition py_iter (v : json) : exn + list json :=
  match v with
  | JArr l => inr l
  | JObj kv => inr (map (fun p => JStr (fst p)) kv)
  | JStr s => inr (characters s)
  | other => inl (Exn "TypeError" ("'" +:+ type_name other +:+ "' object is not iterable"))
  end.

(** The list comprehension [[{k: i.get(k) for k in keys} for i in items]]. *)
Definition pick (keys : list string) (item : json) : exn + json :=
  match item with
  | JObj kv => inr (JObj (map (fun k => (k, dict_get kv k)) keys))
  | other => inl (no_get other)
  end.

Fixpoint pick_all (keys : list string) (items : list json) : exn + list json :=
  match items with
  | [] => inr []
  | i :: rest =>
      match pick keys i with
      | inl e => inl e
      | inr d =>
          match pick_all keys rest with
          | inl e => inl e
          | inr ds => inr (d :: ds)
          end
      end
  end.

(** The fields of a compacted payload, or the exception of a payload (or an
    item) that is not a dict. *)
Definition compacted (payload : json) (keys : list string)
    (wrap : list json -> list (string * json)) : exn + list (string * json) :=
  match payload with
  | JObj kv =>
      match py_iter (py_or (dict_get kv "items") (JArr [])) with
      | inl e => inl e
      | inr items =>
          match pick_all keys items with
          | inl e => inl e
          | inr out => inr (wrap out)
          end
      end
  | other => inl (no_get other)
  end.

Definition compact_job_defs (payload : json) : exn + list (string * json) :=
  compacted payload ["jobType"; "jobName"; "description"]
    (fun defs => [("count", JNum (Z.of_nat (length defs))); ("jobDefinitions", JArr defs)]).

Definition compact_job_submit (payload : json) : exn + list (string * json) :=
  match payload with
  | JObj kv =>
      inr [("jobId", dict_get kv "jobId");
           ("status", py_or (dict_get kv "status") (dict_get kv "descriptiveStatus"))]
  | other => inl (no_get other)
  end.

Definition compact_job_status (payload : json) : exn + list (string * json) :=
  match payload with
  | JObj kv =>
      inr [("status", py_or (dict_get kv "status") (dict_get kv "descriptiveStatus"));
           ("percentComplete", dict_get kv "percentComplete");
           ("startTime", dict_get kv "startTime");
           ("endTime", dict_get kv "endTime");
           ("jobType", dict_get kv "jobType");
           ("jobName", dict_get kv "jobName")]
  | other => inl (no_get other)
  end.

Definition compact_job_details (payload : json) : exn + list (string * json) :=
  match payload with
  | JObj kv =>
      compacted payload ["severity"; "type"; "row"; "message"]
        (fun out => [("count", JNum (Z.of_nat (length out))); ("items", JArr out);
                     ("hasMore", dict_get_default kv "hasMore" (JBool false))])
  | other => inl (no_get other)
  end.

Definition unauthorized_client : json :=
  JObj [("ok", JBool false); ("error", JStr "UNAUTHORIZED_CLIENT");
        ("message", JStr "Invalid MCP client API key.")].

Definition bad_arguments (text : string) : json :=
  JObj [("ok", JBool false); ("error", JStr "BAD_ARGUMENTS"); ("message", JStr text)].

(** [v != key] for a text [key]: only the same text is equal to it. *)
Definition differs (v : json) (key : string) : bool :=
  match v with
  | JStr s => negb (String.eqb s key)
  | _ => true
  end.

(** [args] is read only when a credential is configured. *)
Definition check_client_key (cfg : config) (args : json) : exn + option json :=
  match present (client_api_key cfg) with
  | None => inr None
  | Some key =>
      match get args "client_api_key" with
      | inl e => inl e
      | inr supplied =>
          if differs supplied key then inr (Some unauthorized_client) else inr None
      end
  end.

(** [res.get("ok")] on a result of [pbcs_request]. *)
Definition is_ok (res : json) : bool :=
  match res with
  | JObj kv => truthy (dict_get kv "ok")
  | _ => false
  end.

(** [res["response"]] on a result of [pbcs_request]. *)
Definition response_of (res : json) : json :=
  match res with
  | JObj kv => dict_get kv "response"
  | _ => JNull
  end.

Section Tools.
Context `{PyRuntime}.

(** [args.get(name) or dflt], for the version and the application. *)
Definition arg_or (args : json) (name dflt : string) : exn + json :=
  match get args name with
  | inl e => inl e
  | inr v => inr (py_or v (JStr dflt))
  end.

Definition rest_path (v app : json) (tail : string) : string :=
  "/HyperionPlanning/rest/" +:+ py_str v +:+ "/applications/" +:+ py_str app +:+ tail.

Definition tool_discover_versions (cfg : config) (args : json) : io json :=
  deny ← lift (check_client_key cfg args);
  match deny with
  | Some refusal => mret refusal
  | None => pbcs_request cfg "GET" "/HyperionPlanning/rest/" None None
  end.

Definition tool_list_job_definitions (cfg : config) (args : json) : io json :=
  deny ← lift (check_client_key cfg args);
  match deny with
  | Some refusal => mret refusal
  | None =>
      v ← lift (arg_or args "api_version" (api_version cfg));
      app ← lift (arg_or args "application" (application cfg));
      res ← pbcs_request cfg "GET" (rest_path v app "/jobdefinitions") None None;
      if negb (is_ok res) then mret res
      else
        fields ← lift (compact_job_defs (response_of res));
        mret (JObj (("ok", JBool true) :: fields))
  end.

Definition tool_execute_job (cfg : config) (args : json) : io json :=
  deny ← lift (check_client_key cfg args);
  match deny with
  | Some refusal => mret refusal
  | None =>
      v ← lift (arg_or args "api_version" (api_version cfg));
      app ← lift (arg_or args "application" (application cfg));
      job_type ← lift (get args "job_type");
      job_name ← lift (get args "job_name");
      parameters0 ← lift (get args "parameters");
      let parameters := py_or parameters0 (JObj []) in
      if (negb (truthy job_type) || negb (truthy job_name))%bool then
        mret (bad_arguments "job_type and job_name are required")
      else
        let body :=
          JObj [("jobType", job_type); ("jobName", job_name); ("parameters", parameters)] in
        res ← pbcs_request cfg "POST" (rest_path v app "/jobs") None (Some body);
        if negb (is_ok res) then mret res
        else
          fields ← lift (compact_job_submit (response_of res));
          mret (JObj (("ok", JBool true) :: fields))
  end.

Definition tool_get_job_status (cfg : config) (args : json) : io json :=
  deny ← lift (check_client_key cfg args);
  match deny with
  | Some refusal => mret refusal
  | None =>
      v ← lift (arg_or args "api_version" (api_version cfg));
      app ← lift (arg_or args "application" (application cfg));
      job_id ← lift (get args "job_id");
      if negb (truthy job_id) then mret (bad_arguments "job_id is required")
      else
        res ← pbcs_request cfg "GET" (rest_path v app ("/jobs/" +:+ py_str job_id)) None None;
        if negb (is_ok res) then mret res
        else
          fields ← lift (compact_job_status (response_of res));
          mret (JObj (("ok", JBool true) :: ("jobId", job_id) :: fields))
  end.

Definition tool_get_job_details (cfg : config) (args : json) : io json :=
  deny ← lift (check_client_key cfg args);
  match deny with
  | Some refusal => mret refusal
  | None =>
      v ← lift (arg_or args "api_version" (api_version cfg));
      app ← lift (arg_or args "application" (application cfg));
      job_id ← lift (get args "job_id");
      offset0 ← lift (get_default args "offset" (JNum 0));
      offset ← lift (py_int offset0);
      limit0 ← lift (get_default args "limit" (JNum 200));
      limit ← lift (py_int limit0);
      if negb (truthy job_id) then mret (bad_arguments "job_id is required")
      else
        res ← pbcs_request cfg "GET"
                (rest_path v app ("/jobs/" +:+ py_str job_id +:+ "/details"))
                (Some [("offset", JNum offset); ("limit", JNum limit)]) None;
        if negb (is_ok res) then mret res
        else
          fields ← lift (compact_job_details (response_of res));
          mret (JObj (("ok", JBool true) :: ("jobId", job_id) :: ("offset", JNum offset)
                        :: ("limit", JNum limit) :: fields))
  end.

Definition tool : Type := config -> json -> io json.

Definition TOOLS : list (string * tool) :=
  [ ("planning_discover_versions", tool_discover_versions);
    ("planning_list_job_definitions", tool_list_job_definitions);
    ("planning_execute_job", tool_execute_job);
    ("planning_get_job_status", tool_get_job_status);
    ("planning_get_job_details", tool_get_job_details) ].

Fixpoint find_tool (table : list (string * tool)) (name : string) : option tool :=
  match table with
  | [] => None
  | (n, fn) :: rest => if String.eqb n name then Some fn else find_tool rest name
  end.

(** [TOOLS.get(tool_name)]: a list or a dict cannot be hashed, any other
    value that is not one of the five names is simply not found. *)
Definition tools_get (tool_name : json) : exn + option tool :=
  match tool_name with
  | JStr name => inr (find_tool TOOLS name)
  | JArr _ | JObj _ =>
      inl (Exn "TypeError" ("unhashable type: '" +:+ type_name tool_name +:+ "'"))
  | _ => inr None
  end.

End Tools.

(** *** The stdio loop *)

(** What [line.strip()] and [json.loads] make of one line of standard
    input: nothing but white space, a text on which [json.loads] raises, or
    a document. *)
Inductive line : Type :=
  | Blank
  | NotJson
  | Document (doc : json).

Definition rpc_error (req_id : json) (text : string) : json :=
  JObj [("jsonrpc", JStr "2.0"); ("id", req_id);
        ("error", JObj [("message", JStr text)])].

Definition rpc_result (req_id result : json) : json :=
  JObj [("jsonrpc", JStr "2.0"); ("id", req_id); ("result", result)].

Definition unknown_tool (tool_name : json) : json :=
  JObj [("ok", JBool false); ("error", JStr "UNKNOWN_TOOL"); ("tool", tool_name)].

Definition tool_exception (e : exn) : json :=
  JObj [("ok", JBool false); ("error", JStr "TOOL_EXCEPTION");
        ("message", JStr (exn_message e))].

Definition advertisement : json :=
  let entry (name description : string) : json :=
    JObj [("name", JStr name); ("description", JStr description)] in
  JObj [("jsonrpc", JStr "2.0"); ("id", JNum 1);
        ("result", JObj [("tools", JArr [
           entry "planning_discover_versions" "Discover Planning REST versions";
           entry "planning_list_job_definitions" "List Planning job definitions";
           entry "planning_execute_job" "Execute a Planning job";
           entry "planning_get_job_status" "Get Planning job status";
           entry "planning_get_job_details" "Get Planning job details/messages"])])].

Section Loop.
Context `{PyRuntime}.

(** The body of [for line in sys.stdin]: the message sent for the line, if
    any.  An exception that leaves the body ends the loop and the
    process. *)
Definition process_line (cfg : config) (l : line) : io (option json) :=
  match l with
  | Blank => mret None
  | NotJson => mret (Some (rpc_error JNull "Invalid JSON"))
  | Document req =>
      req_id ← lift (get req "id");
      method ← lift (get req "method");
      params0 ← lift (get req "params");
      let params := py_or params0 (JObj []) in
      if differs method "tools/call" then
        mret (Some (rpc_error req_id ("Unsupported method: " +:+ py_str method)))
      else
        tool_name ← lift (get params "name");
        args0 ← lift (get params "arguments");
        let args := py_or args0 (JObj []) in
        found ← lift (tools_get tool_name);
        match found with
        | None => mret (Some (rpc_result req_id (unknown_tool tool_name)))
        | Some fn =>
            result ← try_except (fn cfg args) (fun e => mret (tool_exception e));
            mret (Some (rpc_result req_id result))
        end
  end.

(** A run of the process: the exception that ended it, if one did, what it
    wrote to standard output, and the remote calls it made. *)
Record execution : Type := {
  crashed : option exn;
  stdout : list json;
  remote_calls : list http_request
}.

Fixpoint main_loop (cfg : config) (lines : list line) (t : transport)
    (calls : list http_request) (out : list json) : execution :=
  match lines with
  | [] => {| crashed := None; stdout := out; remote_calls := calls |}
  | l :: rest =>
      match process_line cfg l t calls with
      | (inl e, calls1) => {| crashed := Some e; stdout := out; remote_calls := calls1 |}
      | (inr None, calls1) => main_loop cfg rest t calls1 out
      | (inr (Some msg), calls1) => main_loop cfg rest t calls1 (out ++ [msg])%list
      end
  end.

Definition main (getenv : environ) (lines : list line) (t : transport) : execution :=
  match load_cfg getenv with
  | inl e => {| crashed := Some e; stdout := []; remote_calls := [] |}
  | inr cfg => main_loop cfg lines t [] [advertisement]
  end.

End Loop.

End Gateway.

(** ** The FastMCP Tool Gateway ([pbcs_copilot_mcp_fastmcp.py]) *)

Module FastMCP.
Import Http.

(** The dictionary [cfg()] returns. *)
Record config : Type := {
  base_url : string;
  app : string;
  v : string
}.

Definition cfg (getenv : environ) : exn + config :=
  let base := rstrip_slash (or_empty (getenv "PBCS_BASE_URL")) in
  if String.eqb base "" then
    inl (Exn "RuntimeError"
           "Missing PBCS_BASE_URL (for fake server use http://127.0.0.1:9010)")
  else
    inr {| base_url := base;
           app := or_text (getenv "PBCS_APPLICATION") "Vision";
           v := or_text (getenv "PBCS_API_VERSION") "v3" |}.

Definition http_error (code : Z) (payload : json) : json :=
  JObj [("ok", JBool false); ("status_code", JNum code);
        ("error", JStr "HTTP_ERROR"); ("response", payload)].

Definition http_ok (code : Z) (payload : json) : json :=
  JObj [("ok", JBool true); ("status_code", JNum code); ("response", payload)].

(** [r.json() if r.content else {}], with [{"raw_text": r.text}] when
    [r.json()] raises. *)
Definition json_or_raw (r : http_response) : json :=
  match body r with
  | NoContent => JObj []
  | JsonContent doc => doc
  | BadContent raw _ => JObj [("raw_text", JStr raw)]
  end.

(** The arguments [req] passes to [requests.request]. *)
Definition outgoing (c : config) (method path : string)
    (params : option (list (string * json))) (body : option json) : http_request :=
  {| Http.method := method; url := base_url c +:+ path;
     req_headers := [("Accept", "application/json"); ("Content-Type", "application/json")];
     req_params := params; data := body; timeout := 30; verify := None |}.

Definition req (getenv : environ) (method path : string)
    (params : option (list (string * json))) (body : option json) : io json :=
  c ← lift (cfg getenv);
  let rq := outgoing c method path params body in
  r ← request rq;
  let payload := json_or_raw r in
  if 300 <=? status_code r then mret (http_error (status_code r) payload)
  else mret (http_ok (status_code r) payload).

(** The module's own copies of the compaction helpers are the ones of the
    stdio gateway, line for line. *)
Definition compact_job_defs := Gateway.compact_job_defs.
Definition compact_job_status := Gateway.compact_job_status.
Definition compact_job_details := Gateway.compact_job_details.

(** [a or b] for an optional text argument. *)
Definition text_or (a : option string) (b : string) : string := or_text a b.

Definition rest_path (ver application tail : string) : string :=
  "/HyperionPlanning/rest/" +:+ ver +:+ "/applications/" +:+ application +:+ tail.

Definition planning_discover_versions (getenv : environ) : io json :=
  req getenv "GET" "/HyperionPlanning/rest/" None None.

Definition planning_list_job_definitions (getenv : environ)
    (api_version application : option string) : io json :=
  c ← lift (cfg getenv);
  let ver := text_or api_version (v c) in
  let ap := text_or application (app c) in
  res ← req getenv "GET" (rest_path ver ap "/jobdefinitions") None None;
  if negb (Gateway.is_ok res) then mret res
  else
    fields ← lift (compact_job_defs (Gateway.response_of res));
    mret (JObj (("ok", JBool true) :: fields)).

Definition planning_execute_job (getenv : environ) (job_type job_name : string)
    (parameters : option json) (api_version application : option string) : io json :=
  c ← lift (cfg getenv);
  let ver := text_or api_version (v c) in
  let ap := text_or application (app c) in
  let body :=
    JObj [("jobType", JStr job_type); ("jobName", JStr job_name);
          ("parameters", match parameters with
                         | Some p => py_or p (JObj [])
                         | None => JObj []
                         end)] in
  res ← req getenv "POST" (rest_path ver ap "/jobs") None (Some body);
  if negb (Gateway.is_ok res) then mret res
  else
    fields ← lift (Gateway.compact_job_submit (Gateway.response_of res));
    mret (JObj (("ok", JBool true) :: fields)).

Definition planning_get_job_status (getenv : environ) (job_id : string)
    (api_version application : option string) : io json :=
  c ← lift (cfg getenv);
  let ver := text_or api_version (v c) in
  let ap := text_or application (app c) in
  res ← req getenv "GET" (rest_path ver ap ("/jobs/" +:+ job_id)) None None;
  if negb (Gateway.is_ok res) then mret res
  else
    fields ← lift (compact_job_status (Gateway.response_of res));
    mret (JObj (("ok", JBool true) :: ("jobId", JStr job_id) :: fields)).

Definition planning_get_job_details (getenv : environ) (job_id : string)
    (offset limit : Z) (api_version application : option string) : io json :=
  c ← lift (cfg getenv);
  let ver := text_or api_version (v c) in
  let ap := text_or application (app c) in
  res ← req getenv "GET" (rest_path ver ap ("/jobs/" +:+ job_id +:+ "/details"))
          (Some [("offset", JNum offset); ("limit", JNum limit)]) None;
  if negb (Gateway.is_ok res) then mret res
  else
    fields ← lift (compact_job_details (Gateway.response_of res));
    mret (JObj (("ok", JBool true) :: ("jobId", JStr job_id) :: ("offset", JNum offset)
                  :: ("limit", JNum limit) :: fields)).

End FastMCP.

(** ** A runtime for the examples *)

(** [int] on a plain decimal literal: an optional sign, then digits. *)
Definition digit_value (c : ascii) : option Z :=
  let n := nat_of_ascii c in
  if (Nat.leb 48 n && Nat.leb n 57)%bool then Some (Z.of_nat (n - 48)) else None.

Fixpoint digits_value (s : string) (acc : Z) : option Z :=
  match s with
  | EmptyString => Some acc
  | String c rest =>
      match digit_value c with
      | Some d => digits_value rest (10 * acc + d)
      | None => None
      end
  end.

Definition decimal_literal (s : string) : option Z :=
  match s with
  | EmptyString => None
  | String c rest =>
      if Ascii.eqb c "-" then
        match rest with
        | EmptyString => None
        | _ => Z.opp <$> digits_value rest 0
        end
      else if Ascii.eqb c "+" then
        match rest with
        | EmptyString => None
        | _ => digits_value rest 0
        end
      else digits_value s 0
  end.

(** [repr] on values whose texts need no escaping. *)
Fixpoint plain_repr (v : json) : string :=
  match v with
  | JNull => "None"
  | JBool true => "True"
  | JBool false => "False"
  | JNum z => pretty z
  | JStr s => "'" +:+ s +:+ "'"
  | JArr l =>
      "[" +:+ (fix elements (l : list json) : string :=
                 match l with
                 | [] => ""
                 | [x] => plain_repr x
                 | x :: rest => plain_repr x +:+ ", " +:+ elements rest
                 end) l +:+ "]"
  | JObj kv =>
      "{" +:+ (fix entries (kv : list (string * json)) : string :=
                 match kv with
                 | [] => ""
                 | [(k, x)] => "'" +:+ k +:+ "': " +:+ plain_repr x
                 | (k, x) :: rest => "'" +:+ k +:+ "': " +:+ plain_repr x +:+ ", " +:+ entries rest
                 end) kv +:+ "}"
  end.

Definition plain_runtime : PyRuntime :=
  {| py_repr := plain_repr; py_int_text := decimal_literal |}.

(** ** Notions of the specification *)

Module Spec.
Import Simulator.

(** SUCCEEDED and FAILED are the terminal states. *)
Definition terminal (j : Job) : Prop :=
  status j = "SUCCEEDED" \/ status j = "FAILED".

(** The invariant of a job record. *)
Record job_ok (j : Job) : Prop := {
  statuses_agree : status j = descriptiveStatus j;
  status_known : status j = "RUNNING" \/ status j = "SUCCEEDED" \/ status j = "FAILED";
  end_iff_terminal : is_Some (endTime j) <-> terminal j;
  percent_range : 0 <= percentComplete j <= 100
}.

(** The invariant of the two tables: every record is well formed, and a job
    has a record exactly when it has a log. *)
Record store_ok (st : store) : Prop := {
  jobs_ok : forall id j, JOBS st !! id = Some j -> job_ok j;
  logs_paired : forall id, is_Some (JOBS st !! id) <-> is_Some (JOB_DETAILS st !! id)
}.

(** A submission whose handler would write the record of job [id]: the id
    it assigns is the text of the clock's millisecond reading. *)
Definition reissues (r : request) (now : clock) (id : string) : Prop :=
  match r with
  | PostJob _ _ => pretty (time_ms now) = id
  | _ => False
  end.

(** What an operation may do to job [id] between the store before and the
    store after: the job is still there, its [percentComplete] has not
    decreased, and if it was terminal its record and its log are the
    same. *)
Definition keeps_job (st st' : store) (id : string) : Prop :=
  forall j, JOBS st !! id = Some j ->
    exists j',
      JOBS st' !! id = Some j' /\
      percentComplete j <= percentComplete j' /\
      (terminal j -> j' = j /\ JOB_DETAILS st' !! id = JOB_DETAILS st !! id).

(** A poll of job [id] that passes the authorization gate, and one that
    also carries the failure signal. *)
Definition gated_poll (id : string) (a : arrival) : Prop :=
  (exists app, route a = GetJobStatus app id) /\
  require_auth (with_headers a) = None.

Definition signalled_poll (id : string) (a : arrival) : Prop :=
  gated_poll id a /\ fail_job (with_headers a) = true.

(** The fields of a record that no poll writes. *)
Definition same_identity (j j' : Job) : Prop :=
  jobId j' = jobId j /\ jobType j' = jobType j /\ jobName j' = jobName j /\
  startTime j' = startTime j /\ application j' = application j /\
  parameters j' = parameters j.

(** The records and the logs of the jobs other than [id] are the same in
    the two stores. *)
Definition others_untouched (st st' : store) (id : string) : Prop :=
  forall other, other <> id ->
    JOBS st' !! other = JOBS st !! other /\
    JOB_DETAILS st' !! other = JOB_DETAILS st !! other.

(** The slice [[offset, offset+limit)] of the specification: the entries
    whose position [i], counted from 0, has [offset <= i < offset + limit],
    in the order of the list. *)
Fixpoint entries_between {A : Type} (l : list A) (i lo hi : Z) : list A :=
  match l with
  | [] => []
  | x :: rest =>
      if ((lo <=? i) && (i <? hi))%bool then x :: entries_between rest (i + 1) lo hi
      else entries_between rest (i + 1) lo hi
  end.

Definition spec_page {A : Type} (l : list A) (offset limit : Z) : list A :=
  entries_between l 0 offset (offset + limit).

(** The last [k] entries of a list. *)
Definition last_entries {A : Type} (k : nat) (l : list A) : list A :=
  drop (length l - k) l.

(** A submission body with the fields of the data model: texts for
    [jobType] and [jobName], any document for [parameters], each of them
    possibly left out. *)
Definition field (name : string) (value : option json) : list (string * json) :=
  match value with
  | Some v => [(name, v)]
  | None => []
  end.

Definition submission (job_type job_name : option string) (params : option json) : json :=
  JObj (field "jobType" (JStr <$> job_type) ++ field "jobName" (JStr <$> job_name)
        ++ field "parameters" params)%list.

(** A field is empty when it is left out or is the empty text. *)
Definition is_blank (value : option string) : bool :=
  match value with
  | Some s => String.eqb s ""
  | None => true
  end.

(** The parameters a submission stores: [{}] when they are left out or
    fail the truth test. *)
Definition stored_parameters (params : option json) : json :=
  match params with
  | Some p => py_or p (JObj [])
  | None => JObj []
  end.

Section WithRuntime.
Context `{PyRuntime}.

(** The store after the submission at [now] created its job. *)
Definition with_new_job (st : store) (now : clock) (app : string)
    (job_type job_name : string) (params : option json) : store :=
  let id := pretty (time_ms now) in
  let p := stored_parameters params in
  {| JOBS := <[id := new_job id (JStr job_type) (JStr job_name) now app p]> (JOBS st);
     JOB_DETAILS := <[id := initial_log (JStr job_type) (JStr job_name) p]> (JOB_DETAILS st) |}.

End WithRuntime.

(** A configuration with its client credential removed. *)
Definition without_key (cfg : Gateway.config) : Gateway.config :=
  {| Gateway.base_url := Gateway.base_url cfg;
     Gateway.application := Gateway.application cfg;
     Gateway.api_version := Gateway.api_version cfg;
     Gateway.verify_ssl := Gateway.verify_ssl cfg;
     Gateway.client_api_key := None;
     Gateway.fake_auth_mode := Gateway.fake_auth_mode cfg;
     Gateway.fake_rate_limit := Gateway.fake_rate_limit cfg;
     Gateway.fake_fail_job := Gateway.fake_fail_job cfg |}.

End Spec.

(** ** Inputs of the examples *)

Module Samples.
Import Simulator.

Definition no_signals : headers :=
  {| X_Auth_Mode := None; X_RateLimit := None; X_Fail_Job := None |}.

Definition failing : headers :=
  {| X_Auth_Mode := None; X_RateLimit := None; X_Fail_Job := Some "true" |}.

Definition noon : clock :=
  {| time_ms := 1767268800000; now_iso := "2026-01-01T12:00:00Z" |}.

Definition rollup : json :=
  Spec.submission (Some "RULES") (Some "RollupUSSales") None.

Definition arriving (r : request) : arrival :=
  {| at_clock := noon; with_headers := no_signals; route := r |}.

Definition arriving_failing (r : request) : arrival :=
  {| at_clock := noon; with_headers := failing; route := r |}.

Definition poll : request := GetJobStatus "Vision" "1767268800000".

Definition submit : request := PostJob "Vision" rollup.

(** The store after one submission at [noon]. *)
Definition one_job : store :=
  fst (execute_job (H := plain_runtime) empty_store noon no_signals "Vision" rollup).

(** The progress and the status a poll reports. *)
Definition reported (r : reply) : option (Z * string) :=
  match r with
  | Reply (JobRecord job) _ => Some (percentComplete job, status job)
  | _ => None
  end.

Definition first_id : string := "1767268800000".

Definition first_job : Job :=
  new_job first_id (JStr "RULES") (JStr "RollupUSSales") noon "Vision" (JObj []).

Definition first_log : list LogEntry :=
  initial_log (H := plain_runtime) (JStr "RULES") (JStr "RollupUSSales") (JObj []).

(** The local fake server, and a credential. *)
Definition local_env : environ := fun name =>
  if String.eqb name "PBCS_BASE_URL" then Some "http://127.0.0.1:9010/"
  else if String.eqb name "MCP_CLIENT_API_KEY" then Some "secret"
  else None.

Definition local_cfg : Gateway.config :=
  {| Gateway.base_url := "http://127.0.0.1:9010";
     Gateway.application := "Vision";
     Gateway.api_version := "v3";
     Gateway.verify_ssl := true;
     Gateway.client_api_key := Some "secret";
     Gateway.fake_auth_mode := None;
     Gateway.fake_rate_limit := None;
     Gateway.fake_fail_job := None |}.

(** A transport that answers every call with the same response. *)
Definition answering (code : Z) (content : Http.content) : Http.transport :=
  fun _ => Http.Answered {| Http.status_code := code; Http.body := content |}.

Definition created : Http.content :=
  Http.JsonContent (JObj [("jobId", JStr "1767268800000"); ("status", JStr "RUNNING");
                          ("descriptiveStatus", JStr "RUNNING")]).

Definition html_page : Http.content :=
  Http.BadContent "<html>Internal Server Error</html>"
    (Exn "JSONDecodeError" "Expecting value: line 1 column 1 (char 0)").

End Samples.

(** ** The shape of the records the simulator builds *)

Module Shape.
Import Simulator.

(** The entry a terminal transition appends, by the status it sets: an
    INFO entry for SUCCEEDED, an ERROR entry for FAILED. *)
Definition closing_entries (job : Job) : list LogEntry :=
  if String.eqb (status job) "SUCCEEDED" then
    [ {| severity := "INFO"; type := "MESSAGE"; row := None;
         message := "Job completed successfully." |} ]
  else if String.eqb (status job) "FAILED" then
    [ {| severity := "ERROR"; type := "MESSAGE"; row := None;
         message := "Simulated failure occurred." |} ]
  else [].

(** The progress values a status goes with. *)
Definition progress_fits (job : Job) : Prop :=
  (status job = "RUNNING" /\ endTime job = None /\
   (percentComplete job = 0 \/ percentComplete job = 35 \/ percentComplete job = 70))
  \/ (status job = "SUCCEEDED" /\ percentComplete job = 100)
  \/ (status job = "FAILED" /\ (percentComplete job = 70 \/ percentComplete job = 100)).

Section WithRuntime.
Context `{PyRuntime}.

(** The two INFO entries a submission writes, with the name, the type
    and the parameters of the job as [str] formats them. *)
Definition opening_entries (job : Job) : list LogEntry :=
  [ {| severity := "INFO"; type := "MESSAGE"; row := None;
       message := "Job " +:+ py_str (jobName job) +:+ " started." |};
    {| severity := "INFO"; type := "MESSAGE"; row := None;
       message := "jobType=" +:+ py_str (jobType job)
                    +:+ " parameters=" +:+ py_str (parameters job) |} ].

(** The log of a job: the two entries of its submission, then the entry
    of its terminal transition. *)
Definition expected_log (job : Job) : list LogEntry :=
  (opening_entries job ++ closing_entries job)%list.

(** Every record is stored under its own id, has a progress that fits its
    status, and has the log its fields determine. *)
Definition lifecycle_ok (st : store) : Prop :=
  forall id job, JOBS st !! id = Some job ->
    jobId job = id /\ progress_fits job /\
    JOB_DETAILS st !! id = Some (expected_log job).

End WithRuntime.

End Shape.

(** ** Reading a details reply *)

Module Reading.
Import Simulator.

(** The [items] and the [hasMore] of a details reply. *)
Definition page_of (r : reply) : list LogEntry :=
  match r with
  | Reply (Details items _ _ _ _) _ => items
  | _ => []
  end.

Definition has_more_of (r : reply) : bool :=
  match r with
  | Reply (Details _ _ _ _ more) _ => more
  | _ => false
  end.

End Reading.

(** ** The replies of the simulator on the wire *)

Module Wire.
Import Simulator.

(** The documents [jsonify] writes for the dictionaries of the handlers,
    as the client's JSON parser reads them back. *)
Definition definition_json (d : JobDefinition) : json :=
  JObj [("jobType", JStr (def_jobType d)); ("jobName", JStr (def_jobName d));
        ("description", JStr (def_description d))].

Definition entry_json (e : LogEntry) : json :=
  JObj [("severity", JStr (severity e)); ("type", JStr (type e));
        ("row", match row e with Some n => JNum n | None => JNull end);
        ("message", JStr (message e))].

(** The job dictionary; [endTime] is its last key, once it is set. *)
Definition job_json (job : Job) : json :=
  JObj ([("jobId", JStr (jobId job)); ("jobType", jobType job); ("jobName", jobName job);
         ("status", JStr (status job)); ("descriptiveStatus", JStr (descriptiveStatus job));
         ("percentComplete", JNum (percentComplete job));
         ("startTime", JStr (startTime job)); ("application", JStr (application job));
         ("parameters", parameters job)]
        ++ match endTime job with
           | Some t => [("endTime", JStr t)]
           | None => []
           end)%list.

Definition to_json (p : payload) : json :=
  match p with
  | Message text => JObj [("message", JStr text)]
  | VersionItems =>
      JObj [("items", JArr [JObj [("version", JStr "v3");
                                  ("links", JArr [JObj [("rel", JStr "self");
                                                        ("href", JStr "/HyperionPlanning/rest/v3")]])]])]
  | Definitions items app =>
      JObj [("items", JArr (map definition_json items)); ("application", JStr app)]
  | Submitted job_id st dst =>
      JObj [("jobId", JStr job_id); ("status", JStr st); ("descriptiveStatus", JStr dst)]
  | JobRecord job => job_json job
  | Details items offset limit count more =>
      JObj [("items", JArr (map entry_json items)); ("offset", JNum offset);
            ("limit", JNum limit); ("count", JNum count); ("hasMore", JBool more)]
  end.

(** The response that carries a reply of a handler. *)
Definition response_of_reply (body : payload) (code : Z) : Http.http_response :=
  {| Http.status_code := code; Http.body := Http.JsonContent (to_json body) |}.

(** The value of [endTime] a client finds in a job document. *)
Definition end_time_json (job : Job) : json :=
  match endTime job with
  | Some t => JStr t
  | None => JNull
  end.

End Wire.

(** ** The anatomy of a tool call *)

Module Anatomy.
Import Http Gateway.

(** The result [pbcs_request] builds from what the transport does with
    its request. *)
Definition answer_of (cfg : config) (path : string) (o : outcome) : json :=
  match o with
  | Failed e => network_or_parse_error e (base_url cfg +:+ path)
  | Answered r =>
      match json_or_empty r with
      | inl e => network_or_parse_error e (base_url cfg +:+ path)
      | inr payload =>
          if 300 <=? status_code r then http_error (status_code r) payload
          else http_ok (status_code r) payload
      end
  end.

(** A path under the REST root of the server. *)
Definition under_rest (path : string) : Prop :=
  exists rest, path = "/HyperionPlanning/rest/" +:+ rest.

(** The ways a tool call can go: it stops before any remote call (with an
    exception, the refusal of the credential check or a complaint about
    its arguments), or it makes one remote call under the REST root and
    then relays the result as it is, returns the compacted payload of an
    ok result, or raises while compacting it. *)
Inductive tool_run (cfg : config) (t : transport) (calls0 : list http_request)
    : (exn + json) * list http_request -> Prop :=
  | raised_early (e : exn) : tool_run cfg t calls0 (inl e, calls0)
  | refused : tool_run cfg t calls0 (inr unauthorized_client, calls0)
  | rejected (text : string) : tool_run cfg t calls0 (inr (bad_arguments text), calls0)
  | relayed (method path : string) params body :
      under_rest path ->
      method = "GET" \/ method = "POST" ->
      let rq := outgoing cfg method path params body in
      tool_run cfg t calls0 (inr (answer_of cfg path (t rq)), (calls0 ++ [rq])%list)
  | compacted (method path : string) params body (fields : list (string * json)) :
      under_rest path ->
      method = "GET" \/ method = "POST" ->
      let rq := outgoing cfg method path params body in
      is_ok (answer_of cfg path (t rq)) = true ->
      tool_run cfg t calls0 (inr (JObj (("ok", JBool true) :: fields)), (calls0 ++ [rq])%list)
  | choked (method path : string) params body (e : exn) :
      under_rest path ->
      method = "GET" \/ method = "POST" ->
      let rq := outgoing cfg method path params body in
      is_ok (answer_of cfg path (t rq)) = true ->
      tool_run cfg t calls0 (inl e, (calls0 ++ [rq])%list).

(** The [error] codes of the results a tool builds itself. *)
Definition error_codes : list string :=
  ["UNAUTHORIZED_CLIENT"; "BAD_ARGUMENTS"; "NETWORK_OR_PARSE_ERROR"; "HTTP_ERROR"].

End Anatomy.

(** ** A transport backed by a reply of the simulator *)

Module Served.
Import Simulator.

(** The transport that answers with the document and the status of a
    reply. *)
Definition serving (body : payload) (code : Z) : Http.transport :=
  fun _ => Http.Answered (Wire.response_of_reply body code).

(** The dictionary [planning_get_job_status] returns for a job record. *)
Definition status_result (job_id : json) (job : Job) : json :=
  JObj [("ok", JBool true); ("jobId", job_id);
        ("status", JStr (status job));
        ("percentComplete", JNum (percentComplete job));
        ("startTime", JStr (startTime job));
        ("endTime", Wire.end_time_json job);
        ("jobType", jobType job);
        ("jobName", jobName job)].

(** The body [planning_execute_job] posts for its arguments. *)
Definition posted_body (kv : list (string * json)) : json :=
  JObj [("jobType", dict_get kv "job_type"); ("jobName", dict_get kv "job_name");
        ("parameters", py_or (dict_get kv "parameters") (JObj []))].

End Served.

(** ** Well-framed requests *)

Module Framing.
Import Gateway.

(** The documents the body of the loop gets through: an object whose
    [method] is not "tools/call", or an object whose [params] are an
    object (or fail the truth test) with a [name] that can be hashed. *)
Definition framed (doc : json) : bool :=
  match doc with
  | JObj kv =>
      if differs (dict_get kv "method") "tools/call" then true
      else
        match py_or (dict_get kv "params") (JObj []) with
        | JObj pkv =>
            match dict_get pkv "name" with
            | JArr _ | JObj _ => false
            | _ => true
            end
        | _ => false
        end
  | _ => false
  end.

Definition answerable (l : line) : bool :=
  match l with
  | Blank | NotJson => true
  | Document doc => framed doc
  end.

(** The number of lines that are not blank. *)
Fixpoint count_requests (lines : list line) : nat :=
  match lines with
  | [] => 0
  | Blank :: rest => count_requests rest
  | _ :: rest => S (count_requests rest)
  end.

(** The [id] a message carries. *)
Definition message_id (msg : json) : json :=
  match msg with
  | JObj kv => dict_get kv "id"
  | _ => JNull
  end.

(** A JSON-RPC message with a result or with an error. *)
Definition is_reply (msg : json) : Prop :=
  match msg with
  | JObj kv =>
      dict_get kv "jsonrpc" = JStr "2.0" /\
      (is_Some (dict_lookup kv "result") \/ is_Some (dict_lookup kv "error"))
  | _ => False
  end.

End Framing.

(** ** Notions for the configuration and for the FastMCP tools *)

Module Settings.

(** A run of [k] slashes. *)
Fixpoint slashes (k : nat) : string :=
  match k with
  | O => ""
  | S k' => String "/" (slashes k')
  end.

(** Whether the last character of a text is a slash. *)
Fixpoint ends_with_slash (s : string) : bool :=
  match s with
  | EmptyString => false
  | String c EmptyString => Ascii.eqb c "/"
  | String _ rest => ends_with_slash rest
  end.

(** A call of one of the five tools of the FastMCP gateway, with its
    arguments. *)
Inductive invocation : Type :=
  | DiscoverVersions
  | ListJobDefinitions (api_version application : option string)
  | ExecuteJob (job_type job_name : string) (parameters : option json)
      (api_version application : option string)
  | GetJobStatus (job_id : string) (api_version application : option string)
  | GetJobDetails (job_id : string) (offset limit : Z)
      (api_version application : option string).

Definition invoke (getenv : environ) (i : invocation) : Http.io json :=
  match i with
  | DiscoverVersions => FastMCP.planning_discover_versions getenv
  | ListJobDefinitions v a => FastMCP.planning_list_job_definitions getenv v a
  | ExecuteJob jt jn ps v a => FastMCP.planning_execute_job getenv jt jn ps v a
  | GetJobStatus id v a => FastMCP.planning_get_job_status getenv id v a
  | GetJobDetails id o l v a => FastMCP.planning_get_job_details getenv id o l v a
  end.

End Settings.

(** * Properties *)

(** ** Polling a job *)

Module Polling.
Import Simulator Spec.

Lemma running_test (job : Job) :
  status job = "RUNNING" -> String.eqb (status job) "RUNNING" = true.
Proof. intros ->. reflexivity. Qed.

Lemma terminal_test (job : Job) :
  terminal job -> String.eqb (status job) "RUNNING" = false.
Proof. intros [-> | ->]; reflexivity. Qed.

(** The poll of a job in progress, in the three cases of the handler. *)
Lemma poll_fails st now h app id job log :
  require_auth h = None ->
  JOBS st !! id = Some job -> status job = "RUNNING" ->
  JOB_DETAILS st !! id = Some log ->
  fail_job h = true -> 70 <= Z.min 100 (percentComplete job + 35) ->
  let job' := finish (set_progress job (Z.min 100 (percentComplete job + 35))) "FAILED" now in
  job_status st now h app id =
    ({| JOBS := <[id := job']> (JOBS st);
        JOB_DETAILS := <[id := (log ++ [log_message "ERROR" "Simulated failure occurred."])%list]>
                         (JOB_DETAILS st) |},
     Reply (JobRecord job') 200).
Proof.
  intros Hauth Hjob Hrun Hlog Hfail Hpc. unfold job_status.
  rewrite Hauth, Hjob, (running_test _ Hrun), Hfail. cbn [percentComplete set_progress andb].
  apply Z.leb_le in Hpc. rewrite Hpc. unfold append_log. rewrite Hlog. reflexivity.
Qed.

Lemma poll_succeeds st now h app id job log :
  require_auth h = None ->
  JOBS st !! id = Some job -> status job = "RUNNING" ->
  JOB_DETAILS st !! id = Some log ->
  fail_job h = false -> 100 <= percentComplete job + 35 ->
  let job' := finish (set_progress job 100) "SUCCEEDED" now in
  job_status st now h app id =
    ({| JOBS := <[id := job']> (JOBS st);
        JOB_DETAILS := <[id := (log ++ [log_message "INFO" "Job completed successfully."])%list]>
                         (JOB_DETAILS st) |},
     Reply (JobRecord job') 200).
Proof.
  intros Hauth Hjob Hrun Hlog Hfail Hpc. unfold job_status.
  rewrite Hauth, Hjob, (running_test _ Hrun), Hfail. cbn [percentComplete set_progress andb].
  rewrite (Z.min_l 100) by lia. cbn [Z.leb Z.compare Pos.compare Pos.compare_cont].
  unfold append_log. rewrite Hlog. reflexivity.
Qed.

Lemma poll_continues st now h app id job :
  require_auth h = None ->
  JOBS st !! id = Some job -> status job = "RUNNING" ->
  percentComplete job + 35 < 100 ->
  fail_job h = false \/ percentComplete job + 35 < 70 ->
  let job' := set_progress job (percentComplete job + 35) in
  job_status st now h app id =
    ({| JOBS := <[id := job']> (JOBS st); JOB_DETAILS := JOB_DETAILS st |},
     Reply (JobRecord job') 200).
Proof.
  intros Hauth Hjob Hrun Hpc Hcase. unfold job_status.
  rewrite Hauth, Hjob, (running_test _ Hrun). cbn [percentComplete set_progress].
  rewrite (Z.min_r 100) by lia.
  assert ((fail_job h && (70 <=? percentComplete job + 35))%bool = false) as ->.
  { destruct Hcase as [-> | Hlt]; [reflexivity |].
    apply andb_false_iff. right. apply Z.leb_gt. lia. }
  assert ((100 <=? percentComplete job + 35) = false) as -> by (apply Z.leb_gt; lia).
  reflexivity.
Qed.

Lemma poll_terminal st now h app id job :
  require_auth h = None ->
  JOBS st !! id = Some job -> terminal job ->
  job_status st now h app id = (st, Reply (JobRecord job) 200).
Proof.
  intros Hauth Hjob Hterm. unfold job_status.
  rewrite Hauth, Hjob, (terminal_test _ Hterm). reflexivity.
Qed.

Lemma poll_leaves_others st now h app id :
  others_untouched st (fst (job_status st now h app id)) id.
Proof.
  intros other Hother. unfold job_status, append_log.
  repeat case_match; cbn [fst JOBS JOB_DETAILS]; rewrite ?lookup_insert_ne by done; done.
Qed.

(** C1.  A poll of a RUNNING job that passes the authorization gate and
    carries no failure signal sets [percentComplete] to the old value plus
    35, capped at 100, in the stored record, and answers with the updated
    record.  Below 100 the job stays RUNNING, and its other fields and its
    log are untouched.  At 100 the job becomes SUCCEEDED (in both status
    fields), [endTime] is set to the time of the poll, and the log grows
    by exactly one entry: severity INFO, type MESSAGE, no row, message
    "Job completed successfully.".  In both cases the identity fields of
    the record stay, and no other job or log changes. *)
Theorem poll_without_failure_signal st now h app id job log :
  require_auth h = None -> fail_job h = false ->
  JOBS st !! id = Some job -> status job = "RUNNING" ->
  JOB_DETAILS st !! id = Some log ->
  let st' := fst (job_status st now h app id) in
  let pc' := Z.min 100 (percentComplete job + 35) in
  exists job',
    snd (job_status st now h app id) = Reply (JobRecord job') 200 /\
    JOBS st' !! id = Some job' /\
    percentComplete job' = pc' /\
    (pc' < 100 ->
       status job' = "RUNNING" /\ descriptiveStatus job' = descriptiveStatus job /\
       endTime job' = endTime job /\ JOB_DETAILS st' !! id = Some log) /\
    (pc' = 100 ->
       status job' = "SUCCEEDED" /\ descriptiveStatus job' = "SUCCEEDED" /\
       endTime job' = Some (now_iso now) /\
       JOB_DETAILS st' !! id =
         Some (log ++ [ {| severity := "INFO"; type := "MESSAGE"; row := None;
                           message := "Job completed successfully." |} ])%list) /\
    same_identity job job' /\
    others_untouched st st' id.
Proof.
  intros Hauth Hfail Hjob Hrun Hlog st' pc'. subst st'.
  pose proof (poll_leaves_others st now h app id) as Hothers.
  destruct (Z.lt_ge_cases (percentComplete job + 35) 100) as [Hlt | Hge].
  - rewrite (poll_continues st now h app id job) in * by auto.
    assert (pc' = percentComplete job + 35) as Hpc by (unfold pc'; lia).
    eexists. split; [reflexivity |]. cbn [fst JOBS JOB_DETAILS].
    split; [apply lookup_insert_eq |]. split; [cbn; lia |].
    split; [intros _; cbn; auto |]. split; [lia |].
    split; [by repeat split | exact Hothers].
  - rewrite (poll_succeeds st now h app id job log) in * by auto.
    assert (pc' = 100) as Hpc by (unfold pc'; lia).
    eexists. split; [reflexivity |]. cbn [fst JOBS JOB_DETAILS].
    split; [apply lookup_insert_eq |]. split; [cbn; lia |].
    split; [lia |]. split; [intros _; cbn; rewrite lookup_insert_eq; auto |].
    split; [by repeat split | exact Hothers].
Qed.

Section WithRuntime.
Context `{PyRuntime}.

Lemma serve_app (l1 l2 : list arrival) st :
  fst (serve st (l1 ++ l2)) = fst (serve (fst (serve st l1)) l2).
Proof.
  revert st. induction l1 as [| a rest IH]; intros st; [done |].
  cbn [app serve].
  destruct (handle st (at_clock a) (with_headers a) (route a)) as [st1 r1].
  specialize (IH st1).
  destruct (serve st1 (rest ++ l2)) as [st2 rs2].
  destruct (serve st1 rest) as [st3 rs3]. exact IH.
Qed.

Lemma serve_one st a :
  fst (serve st [a]) = fst (handle st (at_clock a) (with_headers a) (route a)).
Proof.
  cbn [serve]. by destruct (handle st (at_clock a) (with_headers a) (route a)).
Qed.

Lemma serve_cons st a rest :
  fst (serve st (a :: rest))
    = fst (serve (fst (handle st (at_clock a) (with_headers a) (route a))) rest).
Proof. rewrite <- serve_one. apply (serve_app [a] rest). Qed.

(** Signalled polls that stay below 70 leave the job RUNNING and its log
    as it is. *)
Lemma signalled_polls_below id (before : list arrival) st job log :
  Forall (signalled_poll id) before ->
  JOBS st !! id = Some job -> status job = "RUNNING" ->
  JOB_DETAILS st !! id = Some log ->
  (before <> [] -> percentComplete job + 35 * Z.of_nat (length before) < 70) ->
  exists job1,
    JOBS (fst (serve st before)) !! id = Some job1 /\
    status job1 = "RUNNING" /\
    percentComplete job1 = percentComplete job + 35 * Z.of_nat (length before) /\
    JOB_DETAILS (fst (serve st before)) !! id = Some log.
Proof.
  revert st job. induction before as [| a rest IH]; intros st job Hall Hjob Hrun Hlog Hlow.
  - exists job. cbn. repeat split; try done. lia.
  - apply Forall_cons in Hall as [[[[app Hroute] Hauth] Hfail] Hrest].
    specialize (Hlow ltac:(done)). cbn [length] in Hlow.
    rewrite serve_cons, Hroute. cbn [handle].
    rewrite (poll_continues st (at_clock a) (with_headers a) app id job)
      by (try done; lia).
    cbn [fst].
    destruct (IH {| JOBS := <[id := set_progress job (percentComplete job + 35)]> (JOBS st);
                    JOB_DETAILS := JOB_DETAILS st |}
                (set_progress job (percentComplete job + 35)))
      as (job1 & Hjob1 & Hrun1 & Hpc1 & Hlog1);
      [done | apply lookup_insert_eq | done | done | cbn; intros _; lia |].
    exists job1. repeat split; try done. rewrite Hpc1. cbn [percentComplete set_progress length].
    lia.
Qed.

(** Polls of a terminal job change nothing. *)
Lemma polls_of_terminal id (after : list arrival) st job :
  Forall (gated_poll id) after ->
  JOBS st !! id = Some job -> terminal job ->
  fst (serve st after) = st.
Proof.
  induction after as [| a rest IH]; intros Hall Hjob Hterm; [done |].
  apply Forall_cons in Hall as [[[app Hroute] Hauth] Hrest].
  rewrite serve_cons, Hroute. cbn [handle].
  rewrite (poll_terminal st (at_clock a) (with_headers a) app id job) by done.
  by apply IH.
Qed.

(** C2.  A poll of a RUNNING job that passes the authorization gate and
    carries the failure signal sets [percentComplete] to the old value
    plus 35, capped at 100.  While that is below 70 the job stays RUNNING
    and its log is untouched.  When it is at least 70 the job becomes
    FAILED (in both status fields), [endTime] is set to the time of the
    poll and the log grows by exactly one entry: severity ERROR, type
    MESSAGE, no row, message "Simulated failure occurred.".  The rule is
    tried before the success rule: this also holds when the increment
    reaches 100, and the job is then not SUCCEEDED.  So, in a sequence of
    signalled polls of the job, the transition happens at the first poll
    whose increment reaches 70: the job is RUNNING with its old log after
    the polls before it, FAILED with the one ERROR entry after it, and
    the record and the log stay as they are through the polls that
    follow. *)
Theorem poll_with_failure_signal st now h app id job log :
  require_auth h = None -> fail_job h = true ->
  JOBS st !! id = Some job -> status job = "RUNNING" ->
  JOB_DETAILS st !! id = Some log ->
  let st' := fst (job_status st now h app id) in
  let pc' := Z.min 100 (percentComplete job + 35) in
  let failure :=
    {| severity := "ERROR"; type := "MESSAGE"; row := None;
       message := "Simulated failure occurred." |} in
  (exists job',
     snd (job_status st now h app id) = Reply (JobRecord job') 200 /\
     JOBS st' !! id = Some job' /\
     percentComplete job' = pc' /\
     (pc' < 70 ->
        status job' = "RUNNING" /\ descriptiveStatus job' = descriptiveStatus job /\
        endTime job' = endTime job /\ JOB_DETAILS st' !! id = Some log) /\
     (70 <= pc' ->
        status job' = "FAILED" /\ descriptiveStatus job' = "FAILED" /\
        status job' <> "SUCCEEDED" /\
        endTime job' = Some (now_iso now) /\
        JOB_DETAILS st' !! id = Some (log ++ [failure])%list) /\
     same_identity job job' /\
     others_untouched st st' id) /\
  (forall (before after : list arrival) (a : arrival),
     Forall (signalled_poll id) (before ++ [a]) -> Forall (gated_poll id) after ->
     (before <> [] -> percentComplete job + 35 * Z.of_nat (length before) < 70) ->
     70 <= percentComplete job + 35 * (Z.of_nat (length before) + 1) ->
     (exists running,
        JOBS (fst (serve st before)) !! id = Some running /\
        status running = "RUNNING" /\
        JOB_DETAILS (fst (serve st before)) !! id = Some log) /\
     (exists failed,
        JOBS (fst (serve st (before ++ [a]))) !! id = Some failed /\
        status failed = "FAILED" /\ descriptiveStatus failed = "FAILED" /\
        percentComplete failed
          = Z.min 100 (percentComplete job + 35 * (Z.of_nat (length before) + 1)) /\
        endTime failed = Some (now_iso (at_clock a)) /\
        JOB_DETAILS (fst (serve st (before ++ [a]))) !! id = Some (log ++ [failure])%list /\
        JOBS (fst (serve st (before ++ a :: after))) !! id = Some failed /\
        JOB_DETAILS (fst (serve st (before ++ a :: after))) !! id
          = Some (log ++ [failure])%list)).
Proof.
  intros Hauth Hfail Hjob Hrun Hlog st' pc' failure. split.
  - subst st'. pose proof (poll_leaves_others st now h app id) as Hothers.
    destruct (Z.lt_ge_cases pc' 70) as [Hlt | Hge].
    + rewrite (poll_continues st now h app id job) in * by (try done; lia).
      assert (pc' = percentComplete job + 35) as Hpc by (unfold pc'; lia).
      eexists. split; [reflexivity |]. cbn [fst JOBS JOB_DETAILS].
      split; [apply lookup_insert_eq |]. split; [cbn; lia |].
      split; [intros _; cbn; auto |]. split; [lia |].
      split; [by repeat split | exact Hothers].
    + rewrite (poll_fails st now h app id job log) in * by auto.
      eexists. split; [reflexivity |]. cbn [fst JOBS JOB_DETAILS].
      split; [apply lookup_insert_eq |]. split; [reflexivity |].
      split; [lia |]. split; [intros _; cbn; rewrite lookup_insert_eq; auto |].
      split; [by repeat split | exact Hothers].
  - intros before after a Hall Hafter Hlow Hreach.
    apply Forall_app in Hall as [Hbefore Hlast].
    apply Forall_cons in Hlast as [[[[app' Hroute] Hauth'] Hfail'] _].
    destruct (signalled_polls_below id before st job log Hbefore Hjob Hrun Hlog Hlow)
      as (running & Hjob1 & Hrun1 & Hpc1 & Hlog1).
    split; [by exists running |].
    pose proof (poll_fails (fst (serve st before)) (at_clock a) (with_headers a) app' id
                  running log Hauth' Hjob1 Hrun1 Hlog1 Hfail' ltac:(lia)) as Hstep.
    cbn zeta in Hstep.
    assert (fst (serve st (before ++ [a]))
            = fst (job_status (fst (serve st before)) (at_clock a) (with_headers a) app' id))
      as Hone by (by rewrite serve_app, serve_one, Hroute).
    eexists. rewrite Hone, Hstep. cbn [fst JOBS JOB_DETAILS].
    rewrite !lookup_insert_eq.
    split; [reflexivity |]. split; [reflexivity |]. split; [reflexivity |].
    split; [cbn; rewrite Hpc1; f_equal; lia |]. split; [reflexivity |].
    split; [reflexivity |].
    replace (before ++ a :: after)%list with ((before ++ [a]) ++ after)%list
      by (by rewrite <- app_assoc).
    rewrite serve_app, Hone, Hstep. cbn [fst].
    erewrite (polls_of_terminal id after);
      [cbn; by rewrite !lookup_insert_eq | exact Hafter | cbn; apply lookup_insert_eq
      | by right].
Qed.

End WithRuntime.

(** A job from submission to its end, with and without the failure
    signal. *)
Example polls_to_success :
  map Samples.reported
    (snd (serve (H := plain_runtime) empty_store
            (map Samples.arriving
               [Samples.submit; Samples.poll; Samples.poll; Samples.poll; Samples.poll])))
    = [None; Some (35, "RUNNING"); Some (70, "RUNNING"); Some (100, "SUCCEEDED");
       Some (100, "SUCCEEDED")].
Proof. vm_compute. reflexivity. Qed.

Example polls_to_failure :
  map Samples.reported
    (snd (serve (H := plain_runtime) empty_store
            (Samples.arriving Samples.submit
               :: map Samples.arriving_failing [Samples.poll; Samples.poll; Samples.poll])))
    = [None; Some (35, "RUNNING"); Some (70, "FAILED"); Some (70, "FAILED")].
Proof. vm_compute. reflexivity. Qed.

Lemma poll_without_failure_signal_witness :
  (exists job',
     snd (job_status Samples.one_job Samples.noon Samples.no_signals "Vision" Samples.first_id)
       = Reply (JobRecord job') 200 /\
     percentComplete job' = 35 /\ status job' = "RUNNING") /\
  (let st := fst (serve (H := plain_runtime) empty_store
                    (map Samples.arriving [Samples.submit; Samples.poll; Samples.poll])) in
   exists job',
     snd (job_status st Samples.noon Samples.no_signals "Vision" Samples.first_id)
       = Reply (JobRecord job') 200 /\
     percentComplete job' = 100 /\ status job' = "SUCCEEDED" /\
     endTime job' = Some "2026-01-01T12:00:00Z" /\
     JOB_DETAILS (fst (job_status st Samples.noon Samples.no_signals "Vision"
                         Samples.first_id)) !! Samples.first_id
       = Some [ {| severity := "INFO"; type := "MESSAGE"; row := None;
                   message := "Job RollupUSSales started." |};
                {| severity := "INFO"; type := "MESSAGE"; row := None;
                   message := "jobType=RULES parameters={}" |};
                {| severity := "INFO"; type := "MESSAGE"; row := None;
                   message := "Job completed successfully." |} ]).
Proof.
  split.
  - destruct (poll_without_failure_signal Samples.one_job Samples.noon Samples.no_signals
                "Vision" Samples.first_id Samples.first_job Samples.first_log)
      as (job' & Hreply & _ & Hpc & Hbelow & _); try reflexivity.
    exists job'. split; [exact Hreply |]. split; [exact Hpc |].
    apply Hbelow. reflexivity.
  - intros st.
    destruct (poll_without_failure_signal st Samples.noon Samples.no_signals
                "Vision" Samples.first_id (set_progress Samples.first_job 70)
                Samples.first_log)
      as (job' & Hreply & _ & Hpc & _ & Hdone & _); try reflexivity.
    destruct (Hdone eq_refl) as (Hst & _ & Hend & Hlog).
    exists job'. split; [exact Hreply |]. split; [exact Hpc |].
    split; [exact Hst |]. split; [exact Hend | exact Hlog].
Defined.

Lemma poll_with_failure_signal_witness :
  (exists job',
     snd (job_status
            (fst (job_status Samples.one_job Samples.noon Samples.no_signals
                    "Vision" Samples.first_id))
            Samples.noon Samples.failing "Vision" Samples.first_id)
       = Reply (JobRecord job') 200 /\
     percentComplete job' = 70 /\ status job' = "FAILED") /\
  (let polls := map Samples.arriving_failing [Samples.poll; Samples.poll; Samples.poll] in
   exists failed,
     JOBS (fst (serve (H := plain_runtime) Samples.one_job polls)) !! Samples.first_id
       = Some failed /\
     status failed = "FAILED" /\ percentComplete failed = 70 /\
     JOB_DETAILS (fst (serve (H := plain_runtime) Samples.one_job polls)) !! Samples.first_id
       = Some [ {| severity := "INFO"; type := "MESSAGE"; row := None;
                   message := "Job RollupUSSales started." |};
                {| severity := "INFO"; type := "MESSAGE"; row := None;
                   message := "jobType=RULES parameters={}" |};
                {| severity := "ERROR"; type := "MESSAGE"; row := None;
                   message := "Simulated failure occurred." |} ]).
Proof.
  split.
  - destruct (poll_with_failure_signal (H := plain_runtime)
                (fst (job_status Samples.one_job Samples.noon Samples.no_signals
                        "Vision" Samples.first_id))
                Samples.noon Samples.failing "Vision" Samples.first_id
                (set_progress Samples.first_job 35) Samples.first_log)
      as [(job' & Hreply & _ & Hpc & _ & Hfailed & _) _]; try reflexivity.
    destruct Hfailed as (Hst & _); [cbn; lia |].
    exists job'. split; [exact Hreply |]. split; [exact Hpc | exact Hst].
  - intros polls.
    destruct (poll_with_failure_signal (H := plain_runtime)
                Samples.one_job Samples.noon Samples.failing "Vision" Samples.first_id
                Samples.first_job Samples.first_log)
      as [_ Htrace]; try reflexivity.
    destruct (Htrace [Samples.arriving_failing Samples.poll]
                [Samples.arriving_failing Samples.poll]
                (Samples.arriving_failing Samples.poll))
      as [_ (failed & _ & Hst & _ & Hpc & _ & _ & Hjob & Hlog)].
    + repeat constructor; by exists "Vision".
    + repeat constructor; by exists "Vision".
    + intros _. cbn. lia.
    + cbn. lia.
    + exists failed. split; [exact Hjob |]. split; [exact Hst |].
      split; [exact Hpc | exact Hlog].
Defined.

End Polling.

(** ** Submitting a job *)

Module Submission.
Import Simulator Spec.

Section WithRuntime.
Context `{PyRuntime}.

(** The handler on a submission, past the authorization gate. *)
Lemma execute_job_cases st now h app jt jn ps :
  require_auth h = None ->
  execute_job st now h app (submission jt jn ps) =
    if (is_blank jt || is_blank jn)%bool then
      (st, Reply (Message "jobType and jobName are required") 400)
    else if rate_limited h then
      (st, Reply (Message "Too Many Requests (simulated)") 429)
    else
      (with_new_job st now app (default "" jt) (default "" jn) ps,
       Reply (Submitted (pretty (time_ms now)) "RUNNING" "RUNNING") 201).
Proof.
  intros Hauth. unfold execute_job. rewrite Hauth.
  destruct jt as [[| c s] |], jn as [[| c' s'] |], ps as [p |];
    try reflexivity; cbn; destruct (rate_limited h); reflexivity.
Qed.




(** C3, amended.  A submission with non-empty [jobType] and [jobName] that
    passes the authorization gate and carries no rate-limit signal is
    answered 201 with the job's id and the status RUNNING.  The id is the
    decimal text of the clock's millisecond reading, so readings that
    differ give ids that differ.  Under that id the store holds a record
    with status RUNNING in both status fields, [percentComplete] 0 and no
    [endTime], and a log of exactly two INFO entries; every other job and
    log is untouched. *)
Theorem submit_creates_running_job st now h app jt jn ps :
  require_auth h = None -> rate_limited h = false ->
  jt <> "" -> jn <> "" ->
  let id := pretty (time_ms now) in
  let st' := fst (execute_job st now h app (submission (Some jt) (Some jn) ps)) in
  snd (execute_job st now h app (submission (Some jt) (Some jn) ps))
    = Reply (Submitted id "RUNNING" "RUNNING") 201 /\
  (exists job,
     JOBS st' !! id = Some job /\ jobId job = id /\
     status job = "RUNNING" /\ descriptiveStatus job = "RUNNING" /\
     percentComplete job = 0 /\ endTime job = None) /\
  (exists first second,
     JOB_DETAILS st' !! id = Some [first; second] /\
     severity first = "INFO" /\ severity second = "INFO") /\
  (forall other, other <> id ->
     JOBS st' !! other = JOBS st !! other /\
     JOB_DETAILS st' !! other = JOB_DETAILS st !! other) /\
  (forall later, time_ms later <> time_ms now -> pretty (time_ms later) <> id).
Proof.
  intros Hauth Hrate Hjt Hjn id st'. subst st'.
  rewrite execute_job_cases by assumption. rewrite Hrate.
  assert (is_blank (Some jt) = false) as -> by (cbn; by apply String.eqb_neq).
  assert (is_blank (Some jn) = false) as -> by (cbn; by apply String.eqb_neq).
  cbn [orb fst snd with_new_job JOBS JOB_DETAILS default]. fold id.
  split; [reflexivity |]. split.
  { eexists. split; [apply lookup_insert_eq |]. cbn. auto. }
  split.
  { do 2 eexists. split; [apply lookup_insert_eq |]. cbn. auto. }
  split.
  { intros other Hother. split; apply lookup_insert_ne; congruence. }
  intros later Hlater Heq. apply Hlater. by apply (inj pretty).
Qed.


End WithRuntime.

Lemma submit_creates_running_job_witness :
  snd (execute_job (H := plain_runtime) empty_store Samples.noon Samples.no_signals "Vision"
         (submission (Some "RULES") (Some "RollupUSSales") None))
    = Reply (Submitted "1767268800000" "RUNNING" "RUNNING") 201.
Proof.
  apply (submit_creates_running_job (H := plain_runtime) empty_store Samples.noon
           Samples.no_signals "Vision" "RULES" "RollupUSSales" None);
    (reflexivity || discriminate).
Defined.

(** C3, as stated, fails: a second submission whose clock reading falls in
    the millisecond of the first gets the id of the first job, which is
    already in the store, and replaces that job's record. *)
Lemma submit_same_millisecond_reuses_id :
  let st := fst (job_status Samples.one_job Samples.noon Samples.no_signals
                   "Vision" Samples.first_id) in
  let second := submission (Some "IMPORT_DATA") (Some "Import_GL") None in
  require_auth Samples.no_signals = None /\
  rate_limited Samples.no_signals = false /\
  percentComplete <$> JOBS st !! Samples.first_id = Some 35 /\
  snd (execute_job (H := plain_runtime) st Samples.noon Samples.no_signals "Vision" second)
    = Reply (Submitted Samples.first_id "RUNNING" "RUNNING") 201 /\
  JOBS (fst (execute_job (H := plain_runtime) st Samples.noon Samples.no_signals
               "Vision" second)) !! Samples.first_id
    = Some (new_job Samples.first_id (JStr "IMPORT_DATA") (JStr "Import_GL")
              Samples.noon "Vision" (JObj [])).
Proof. repeat split; vm_compute; reflexivity. Qed.


End Submission.

(** ** Paging through the log *)

Module Paging.
Import Simulator Spec.

Section Slices.
Context {A : Type}.
Implicit Types l : list A.

(** The entries of positions [lo <= i < hi], when the head of the list has
    position [i]: drop up to [lo], keep up to [hi]. *)
Lemma entries_between_take_drop l i lo hi :
  entries_between l i lo hi
    = take (Z.to_nat (hi - Z.max lo i)) (drop (Z.to_nat (lo - i)) l).
Proof.
  revert i. induction l as [| x rest IH]; intros i; cbn [entries_between].
  - by rewrite drop_nil, take_nil.
  - rewrite IH. destruct (Z.leb_spec lo i) as [Hlo | Hlo]; cbn [andb].
    + replace (Z.to_nat (lo - i)) with 0%nat by lia.
      replace (Z.to_nat (lo - (i + 1))) with 0%nat by lia. cbn [drop].
      rewrite (Z.max_r lo i) by lia.
      destruct (Z.ltb_spec i hi) as [Hhi | Hhi].
      * rewrite (Z.max_r lo (i + 1)) by lia.
        replace (Z.to_nat (hi - i)) with (S (Z.to_nat (hi - (i + 1)))) by lia.
        reflexivity.
      * replace (Z.to_nat (hi - i)) with 0%nat by lia.
        replace (Z.to_nat (hi - Z.max lo (i + 1))) with 0%nat by lia.
        reflexivity.
    + replace (Z.to_nat (lo - i)) with (S (Z.to_nat (lo - (i + 1)))) by lia.
      cbn [drop]. rewrite !Z.max_l by lia. reflexivity.
Qed.

(** With both ends non-negative, Python's slice is the slice of the
    specification. *)
Lemma py_slice_spec_page l offset limit :
  0 <= offset -> 0 <= offset + limit ->
  py_slice l offset (offset + limit) = spec_page l offset limit.
Proof.
  intros Hoff Hstop. unfold spec_page, py_slice, slice_index.
  rewrite entries_between_take_drop.
  destruct (Z.ltb_spec offset 0); [lia |].
  destruct (Z.ltb_spec (offset + limit) 0); [lia |].
  rewrite Z.max_l, Z.sub_0_r by lia.
  destruct (Z.le_gt_cases (Z.of_nat (length l)) offset) as [Hout | Hin].
  - rewrite !drop_ge by lia. by rewrite !take_nil.
  - rewrite (Z.min_l offset) by lia.
    destruct (Z.le_gt_cases (offset + limit) (Z.of_nat (length l))) as [Hfit | Hover].
    + by rewrite Z.min_l by lia.
    + rewrite Z.min_r by lia. rewrite !take_ge; [done | |]; rewrite length_drop; lia.
Qed.

(** From an offset at or beyond the end, the slice is empty. *)
Lemma py_slice_beyond l offset stop :
  Z.of_nat (length l) <= offset -> py_slice l offset stop = [].
Proof.
  intros Hout. unfold py_slice, slice_index.
  destruct (Z.ltb_spec offset 0); [lia |].
  rewrite (Z.min_r offset) by lia.
  rewrite drop_ge by lia. apply take_nil.
Qed.

(** A negative offset within the list starts the slice that many entries
    before the end. *)
Lemma py_slice_from_end l offset stop :
  offset < 0 -> - offset <= Z.of_nat (length l) ->
  py_slice l offset stop
    = take (Z.to_nat (slice_index (Z.of_nat (length l)) stop
                      - (Z.of_nat (length l) + offset)))
        (last_entries (Z.to_nat (- offset)) l).
Proof.
  intros Hneg Hin. unfold py_slice, last_entries, slice_index at 2 3.
  destruct (Z.ltb_spec offset 0); [| lia].
  rewrite Z.max_r by lia.
  replace (Z.to_nat (offset + Z.of_nat (length l)))
    with (length l - Z.to_nat (- offset))%nat by lia.
  do 2 f_equal. lia.
Qed.

Lemma py_slice_last l offset stop :
  offset < 0 -> - offset <= Z.of_nat (length l) -> Z.of_nat (length l) <= stop ->
  py_slice l offset stop = last_entries (Z.to_nat (- offset)) l.
Proof.
  intros Hneg Hin Hstop. rewrite py_slice_from_end by assumption.
  unfold slice_index. destruct (Z.ltb_spec stop 0); [lia |].
  rewrite Z.min_r by lia. apply take_ge.
  unfold last_entries. rewrite length_drop. lia.
Qed.

Lemma length_last_entries l k :
  (k <= length l)%nat -> length (last_entries k l) = k.
Proof. intros Hk. unfold last_entries. rewrite length_drop. lia. Qed.

End Slices.

Section WithRuntime.
Context `{PyRuntime}.

(** The handler on an existing job with integer arguments, past the gate. *)
Lemma job_details_page st h app id items q offset limit :
  require_auth h = None -> JOB_DETAILS st !! id = Some items ->
  int_arg (q_offset q) 0 = inr offset -> int_arg (q_limit q) 200 = inr limit ->
  job_details st h app id q
    = Reply (Details (py_slice items offset (offset + limit)) offset limit
               (Z.of_nat (length (py_slice items offset (offset + limit))))
               (offset + limit <? Z.of_nat (length items))) 200.
Proof.
  intros Hauth Hitems Hoff Hlim. unfold job_details.
  by rewrite Hauth, Hitems, Hoff, Hlim.
Qed.

(** C5, amended.  For an existing job and a request past the authorization
    gate, the details handler answers 200 with the page
    [items[offset : offset + limit]], the offset, the limit, the length of
    the page and [hasMore = (offset + limit) < total_count].  When
    [offset] and [offset + limit] are both non-negative the page is the
    entries of positions [offset <= i < offset + limit], in insertion
    order.  A missing [offset] is 0 and a missing [limit] is 200.  From an
    offset at or beyond the end of the log the page is empty, and
    [hasMore] is false when [limit] is non-negative.  With offset 0 and
    limit 2 on a log of two entries the page is the two entries and
    [hasMore] is false. *)
Theorem details_page st h app id items q offset limit :
  require_auth h = None -> JOB_DETAILS st !! id = Some items ->
  int_arg (q_offset q) 0 = inr offset -> int_arg (q_limit q) 200 = inr limit ->
  let total := Z.of_nat (length items) in
  let has_more := offset + limit <? total in
  exists page,
    job_details st h app id q
      = Reply (Details page offset limit (Z.of_nat (length page)) has_more) 200 /\
    page = py_slice items offset (offset + limit) /\
    (0 <= offset -> 0 <= offset + limit -> page = spec_page items offset limit) /\
    (q_offset q = None -> offset = 0) /\
    (q_limit q = None -> limit = 200) /\
    (total <= offset -> page = [] /\ (0 <= limit -> has_more = false)) /\
    (offset = 0 -> limit = 2 -> total = 2 -> page = items /\ has_more = false).
Proof.
  intros Hauth Hitems Hoff Hlim total has_more.
  exists (py_slice items offset (offset + limit)).
  split; [by apply job_details_page |]. split; [done |].
  split; [apply py_slice_spec_page |].
  split; [intros Hq; rewrite Hq in Hoff; cbn in Hoff; congruence |].
  split; [intros Hq; rewrite Hq in Hlim; cbn in Hlim; congruence |].
  split.
  - intros Hout. split; [by apply py_slice_beyond |].
    intros Hpos. apply Z.ltb_ge. lia.
  - intros -> -> Htotal. split; [| apply Z.ltb_ge; lia].
    rewrite py_slice_spec_page by lia. unfold spec_page.
    rewrite entries_between_take_drop. cbn. apply take_ge. lia.
Qed.

(** C10, amended.  For an existing job, a request past the authorization
    gate and a negative [offset] whose absolute value is at most the length
    of the log, the details handler answers 200 and never raises; the page
    is a front part of the last [|offset|] entries of the log, and
    [hasMore] is [(offset + limit) < total_count].  When [offset + limit]
    reaches the length of the log the page is exactly the last [|offset|]
    entries.  When [offset + limit] is negative the end of the slice also
    counts from the end of the log, and the page is the first [limit] of
    those entries.  When [offset + limit] is between 0 and the length of
    the log, the end of the slice counts from the start of the log: the
    page is the entries of positions [total_count + offset <= i <
    offset + limit], and it is empty whenever [limit] is at most the
    length of the log.  With offset -1 and limit 200 on a log of two
    entries the page is the last entry alone, and [hasMore] is false. *)
Theorem details_negative_offset st h app id items q offset limit :
  require_auth h = None -> JOB_DETAILS st !! id = Some items ->
  int_arg (q_offset q) 0 = inr offset -> int_arg (q_limit q) 200 = inr limit ->
  offset < 0 -> - offset <= Z.of_nat (length items) ->
  let total := Z.of_nat (length items) in
  let has_more := offset + limit <? total in
  let tail := last_entries (Z.to_nat (- offset)) items in
  exists page,
    job_details st h app id q
      = Reply (Details page offset limit (Z.of_nat (length page)) has_more) 200 /\
    page = take (Z.to_nat (slice_index total (offset + limit) - (total + offset))) tail /\
    (total <= offset + limit ->
       page = tail /\ Z.of_nat (length page) = - offset) /\
    (offset + limit < 0 -> page = take (Z.to_nat limit) tail) /\
    (0 <= offset + limit < total ->
       page = take (Z.to_nat (limit - total)) tail /\
       page = entries_between items 0 (total + offset) (offset + limit) /\
       (limit <= total -> page = [])) /\
    (page = [] <->
       (offset + limit < 0 /\ limit <= 0)
       \/ (0 <= offset + limit < total /\ limit <= total)) /\
    (forall first second,
       items = [first; second] -> offset = -1 -> limit = 200 ->
       page = [second] /\ has_more = false).
Proof.
  intros Hauth Hitems Hoff Hlim Hneg Hin total has_more tail.
  assert (Z.of_nat (length tail) = - offset) as Htail
    by (unfold tail; rewrite length_last_entries; lia).
  assert (forall k, take k tail = [] <-> k = 0%nat) as Hempty.
  { intros k. split; [| by intros ->].
    destruct k as [| k]; [done |]. destruct tail; [cbn in Htail; lia | done]. }
  exists (py_slice items offset (offset + limit)).
  split; [by apply job_details_page |].
  rewrite py_slice_from_end by assumption. fold total tail.
  split; [done |].
  assert (offset + limit < 0 ->
          Z.to_nat (slice_index total (offset + limit) - (total + offset)) = Z.to_nat limit)
    as Hback.
  { intros Hstop. unfold slice_index. destruct (Z.ltb_spec (offset + limit) 0); lia. }
  assert (0 <= offset + limit < total ->
          Z.to_nat (slice_index total (offset + limit) - (total + offset))
            = Z.to_nat (limit - total))
    as Hfront.
  { intros Hstop. unfold slice_index. destruct (Z.ltb_spec (offset + limit) 0); lia. }
  assert (total <= offset + limit ->
          take (Z.to_nat (slice_index total (offset + limit) - (total + offset))) tail = tail)
    as Hwhole.
  { intros Hstop. apply take_ge. unfold slice_index.
    destruct (Z.ltb_spec (offset + limit) 0); lia. }
  split; [intros Hstop; by rewrite Hwhole |].
  split; [intros Hstop; by rewrite Hback |].
  split.
  { intros Hstop. rewrite Hfront by done. split; [done |]. split.
    - rewrite entries_between_take_drop. unfold tail, last_entries.
      f_equal; [lia |]. f_equal. lia.
    - intros Hsmall. apply Hempty. lia. }
  split.
  { destruct (Z.le_gt_cases total (offset + limit)) as [Hstop | Hstop].
    - rewrite Hwhole by done. split; [| lia].
      intros Hnil. rewrite Hnil in Htail. cbn in Htail. lia.
    - destruct (Z.lt_ge_cases (offset + limit) 0) as [Hlow | Hhigh].
      + rewrite Hback by done. rewrite Hempty. lia.
      + rewrite Hfront by lia. rewrite Hempty. lia. }
  intros first second Hitems' -> ->. subst has_more tail total. rewrite Hitems'.
  split; reflexivity.
Qed.

End WithRuntime.

(** C5, as stated, fails: on a log of two entries, offset 2 with limit -1
    gets an empty page with [hasMore] true; and offset 0 with limit -1,
    whose positions [[0, -1)] are none, gets the first entry, because the
    negative end of the slice counts from the end of the log. *)
Lemma details_beyond_end_has_more :
  JOB_DETAILS Samples.one_job !! Samples.first_id = Some Samples.first_log /\
  length Samples.first_log = 2%nat /\
  job_details (H := plain_runtime) Samples.one_job Samples.no_signals "Vision"
    Samples.first_id {| q_offset := Some "2"; q_limit := Some "-1" |}
    = Reply (Details [] 2 (-1) 0 true) 200 /\
  spec_page Samples.first_log 0 (-1) = [] /\
  job_details (H := plain_runtime) Samples.one_job Samples.no_signals "Vision"
    Samples.first_id {| q_offset := Some "0"; q_limit := Some "-1" |}
    = Reply (Details [log_message "INFO" "Job RollupUSSales started."] 0 (-1) 1 true) 200.
Proof. repeat split; vm_compute; reflexivity. Qed.

(** C10, as stated, fails: on a log of two entries, offset -1 with limit 1
    gets an empty page (and [hasMore] true), not the last entry, because
    the end [offset + limit = 0] of the slice counts from the start of the
    log. *)
Lemma details_negative_offset_empty_page :
  JOB_DETAILS Samples.one_job !! Samples.first_id = Some Samples.first_log /\
  length Samples.first_log = 2%nat /\
  job_details (H := plain_runtime) Samples.one_job Samples.no_signals "Vision"
    Samples.first_id {| q_offset := Some "-1"; q_limit := Some "1" |}
    = Reply (Details [] (-1) 1 0 true) 200.
Proof. repeat split; vm_compute; reflexivity. Qed.

Lemma details_page_witness :
  job_details (H := plain_runtime) Samples.one_job Samples.no_signals "Vision"
    Samples.first_id {| q_offset := Some "0"; q_limit := Some "2" |}
    = Reply (Details Samples.first_log 0 2 2 false) 200.
Proof.
  destruct (details_page (H := plain_runtime) Samples.one_job Samples.no_signals "Vision"
              Samples.first_id Samples.first_log
              {| q_offset := Some "0"; q_limit := Some "2" |} 0 2)
    as (page & Hreply & _ & _ & _ & _ & _ & Hfresh); [reflexivity.. |].
  destruct Hfresh as [Hpage _]; [reflexivity.. |].
  rewrite Hpage in Hreply. exact Hreply.
Defined.

Lemma details_negative_offset_witness :
  job_details (H := plain_runtime) Samples.one_job Samples.no_signals "Vision"
    Samples.first_id {| q_offset := Some "-1"; q_limit := None |}
    = Reply (Details [ {| severity := "INFO"; type := "MESSAGE"; row := None;
                          message := "jobType=RULES parameters={}" |} ]
               (-1) 200 1 false) 200.
Proof.
  destruct (details_negative_offset (H := plain_runtime) Samples.one_job Samples.no_signals
              "Vision" Samples.first_id Samples.first_log
              {| q_offset := Some "-1"; q_limit := None |} (-1) 200)
    as (page & Hreply & _ & _ & _ & _ & _ & Hexample); [reflexivity || (cbn; lia) .. |].
  destruct (Hexample _ _ eq_refl eq_refl eq_refl) as [Hpage _].
  rewrite Hpage in Hreply. exact Hreply.
Defined.

End Paging.

(** ** The invariant of the job table *)

Module Invariant.
Import Simulator Spec.

Lemma running_not_terminal (job : Job) : status job = "RUNNING" -> ~ terminal job.
Proof. intros Hrun [Hs | Hs]; rewrite Hrun in Hs; discriminate. Qed.

Lemma status_cases (job : Job) :
  job_ok job -> status job = "RUNNING" \/ terminal job.
Proof. intros [_ [Hr | Ht] _ _]; [by left | by right]. Qed.

Lemma new_job_ok id job_type job_name now app params :
  job_ok (new_job id job_type job_name now app params).
Proof.
  split; cbn; [done | by left | | lia].
  split; [by intros [? [=]] | intros [[=] | [=]]].
Qed.

Lemma finish_ok job outcome now :
  outcome = "SUCCEEDED" \/ outcome = "FAILED" ->
  0 <= percentComplete job <= 100 ->
  job_ok (finish job outcome now).
Proof.
  intros Hout Hpc. split; cbn; [done | by right | | done].
  split; [by intros _ | by intros _; eexists].
Qed.

Lemma set_progress_ok job pc :
  job_ok job -> 0 <= pc <= 100 -> job_ok (set_progress job pc).
Proof. intros [Hagree Hknown Hend Hrange] Hpc. split; cbn; done. Qed.

Lemma empty_store_ok : store_ok empty_store.
Proof.
  split; cbn.
  - intros id j. by rewrite lookup_empty.
  - intros id. rewrite !lookup_empty. split; by intros [? [=]].
Qed.

(** Writing a well-formed record and a log under one id keeps the
    invariant. *)
Lemma store_ok_insert st id job log :
  store_ok st -> job_ok job ->
  store_ok {| JOBS := <[id := job]> (JOBS st);
              JOB_DETAILS := <[id := log]> (JOB_DETAILS st) |}.
Proof.
  intros [Hjobs Hpaired] Hjob. split; cbn.
  - intros id' j. rewrite lookup_insert. case_decide.
    + by intros [= <-].
    + apply Hjobs.
  - intros id'. rewrite !lookup_insert. case_decide; [| apply Hpaired].
    split; intros _; by eexists.
Qed.

(** The poll of a job in progress writes one record and one log, under the
    id of the job; the new record is well formed and has not lost
    progress. *)
Lemma poll_running_shape st now h app id job log :
  require_auth h = None ->
  JOBS st !! id = Some job -> status job = "RUNNING" ->
  JOB_DETAILS st !! id = Some log -> job_ok job ->
  exists job' log',
    job_status st now h app id =
      ({| JOBS := <[id := job']> (JOBS st);
          JOB_DETAILS := <[id := log']> (JOB_DETAILS st) |},
       Reply (JobRecord job') 200) /\
    job_ok job' /\ percentComplete job <= percentComplete job'.
Proof.
  intros Hauth Hjob Hrun Hlog Hok. pose proof (percent_range _ Hok) as Hrange.
  destruct (Z.lt_ge_cases (percentComplete job + 35) 100) as [Hlt | Hge];
    [destruct (fail_job h) eqn:Hfail;
       [destruct (Z.lt_ge_cases (percentComplete job + 35) 70) as [Hlow | Hhigh] |] |
     destruct (fail_job h) eqn:Hfail].
  - do 2 eexists. split.
    + rewrite (Polling.poll_continues st now h app id job); auto.
      cbn zeta. f_equal. f_equal. symmetry. by apply insert_id.
    + split; [apply set_progress_ok; [done | lia] | cbn; lia].
  - do 2 eexists. split; [apply (Polling.poll_fails st now h app id job log); auto; lia |].
    cbn zeta. split; [apply finish_ok; [by right | cbn; lia] | cbn; lia].
  - do 2 eexists. split.
    + rewrite (Polling.poll_continues st now h app id job); auto.
      cbn zeta. f_equal. f_equal. symmetry. by apply insert_id.
    + split; [apply set_progress_ok; [done | lia] | cbn; lia].
  - do 2 eexists. split; [apply (Polling.poll_fails st now h app id job log); auto; lia |].
    cbn zeta. split; [apply finish_ok; [by right | cbn; lia] | cbn; lia].
  - do 2 eexists. split; [apply (Polling.poll_succeeds st now h app id job log); auto |].
    cbn zeta. split; [apply finish_ok; [by left | cbn; lia] | cbn; lia].
Qed.

Lemma keeps_job_same st id : keeps_job st st id.
Proof. intros j Hj. exists j. split; [done |]. split; [lia | done]. Qed.

(** A write under another id does not touch the job. *)
Lemma keeps_job_other st id id' job log :
  id' <> id ->
  keeps_job st {| JOBS := <[id' := job]> (JOBS st);
                  JOB_DETAILS := <[id' := log]> (JOB_DETAILS st) |} id.
Proof.
  intros Hne j Hj. exists j. cbn. rewrite !lookup_insert_ne by done.
  split; [done |]. split; [lia | done].
Qed.

Lemma job_status_effect st now h app id0 :
  store_ok st ->
  store_ok (fst (job_status st now h app id0)) /\
  forall id, keeps_job st (fst (job_status st now h app id0)) id.
Proof.
  intros Hok.
  assert (forall st', st' = st -> store_ok st' /\ forall id, keeps_job st st' id) as Hsame.
  { intros st' ->. split; [done | apply keeps_job_same]. }
  destruct (require_auth h) as [deny |] eqn:Hauth.
  { apply Hsame. unfold job_status. by rewrite Hauth. }
  destruct (JOBS st !! id0) as [job |] eqn:Hjob.
  2: { apply Hsame. unfold job_status. by rewrite Hauth, Hjob. }
  pose proof (jobs_ok _ Hok _ _ Hjob) as Hjok.
  destruct (status_cases _ Hjok) as [Hrun | Hterm].
  2: { apply Hsame. by rewrite (Polling.poll_terminal st now h app id0 job). }
  destruct (proj1 (logs_paired _ Hok id0)) as [log Hlog]; [by eexists |].
  destruct (poll_running_shape st now h app id0 job log) as (job' & log' & -> & Hjok' & Hpc);
    try done.
  cbn [fst]. split; [by apply store_ok_insert |].
  intros id. destruct (decide (id0 = id)) as [<- | Hne]; [| by apply keeps_job_other].
  intros j Hj. rewrite Hjob in Hj. injection Hj as <-.
  exists job'. cbn. rewrite lookup_insert_eq. split; [done |]. split; [done |].
  intros Hterm. by destruct (running_not_terminal _ Hrun).
Qed.

Section WithRuntime.
Context `{PyRuntime}.

Lemma execute_job_effect st now h app body :
  store_ok st ->
  store_ok (fst (execute_job st now h app body)) /\
  forall id, pretty (time_ms now) <> id ->
    keeps_job st (fst (execute_job st now h app body)) id.
Proof.
  intros Hok. unfold execute_job.
  repeat case_match; cbn [fst];
    try (split; [done | intros; apply keeps_job_same]).
  split; [apply store_ok_insert; [done | apply new_job_ok] |].
  intros id Hne. by apply keeps_job_other.
Qed.

Lemma handle_store_ok st now h r :
  store_ok st -> store_ok (fst (handle st now h r)).
Proof.
  intros Hok. destruct r; cbn [handle fst]; try done.
  - by apply execute_job_effect.
  - by apply job_status_effect.
Qed.

(** The invariant holds in every store the server can reach. *)
Lemma serve_keeps_invariant rs st :
  store_ok st -> store_ok (fst (serve st rs)).
Proof.
  revert st. induction rs as [| a rest IH]; intros st Hok; [done |].
  cbn [serve].
  destruct (handle st (at_clock a) (with_headers a) (route a)) as [st1 r1] eqn:Hstep.
  destruct (serve st1 rest) as [st2 replies] eqn:Hrest. cbn [fst].
  change st2 with (fst (st2, replies)). rewrite <- Hrest. apply IH.
  change st1 with (fst (st1, r1)). rewrite <- Hstep.
  by apply handle_store_ok.
Qed.

(** C6, amended.  Every operation of the simulator keeps the invariant of
    the tables: each record has equal [status] and [descriptiveStatus],
    one of RUNNING, SUCCEEDED and FAILED, an [endTime] exactly when the
    status is terminal, and [percentComplete] within 0-100.  Every
    operation other than a submission whose millisecond clock reading
    spells the id of the job leaves the job in the store, does not
    decrease its [percentComplete], and, once the job is terminal, leaves
    its record and its log as they are.  A poll of a terminal job that
    passes the authorization gate answers with that same record and
    changes nothing. *)
Theorem operations_keep_invariant st now h r :
  store_ok st ->
  let st' := fst (handle st now h r) in
  store_ok st' /\
  (forall id, ~ reissues r now id -> keeps_job st st' id) /\
  (forall app id j,
     r = GetJobStatus app id -> require_auth h = None ->
     JOBS st !! id = Some j -> terminal j ->
     handle st now h r = (st, Reply (JobRecord j) 200)).
Proof.
  intros Hok st'. subst st'. split; [| split].
  - by apply handle_store_ok.
  - intros id Hfresh. destruct r; cbn [handle fst]; try apply keeps_job_same.
    + apply execute_job_effect; [done |]. exact Hfresh.
    + by apply job_status_effect.
  - intros app id j -> Hauth Hj Hterm. cbn [handle].
    by apply Polling.poll_terminal.
Qed.

End WithRuntime.

Lemma operations_keep_invariant_witness :
  keeps_job Samples.one_job
    (fst (handle (H := plain_runtime) Samples.one_job Samples.noon Samples.no_signals
            Samples.poll))
    Samples.first_id.
Proof.
  apply (operations_keep_invariant (H := plain_runtime) Samples.one_job Samples.noon
           Samples.no_signals Samples.poll).
  - exact (handle_store_ok (H := plain_runtime) empty_store Samples.noon Samples.no_signals
             Samples.submit empty_store_ok).
  - intros [].
Defined.

(** C6, as stated, fails: after a submission and three polls the job is
    SUCCEEDED at 100 with a log of three entries; a submission whose clock
    reading spells the same id puts a RUNNING record at 0 and a log of two
    entries in its place. *)
Lemma resubmission_replaces_terminal_job :
  let before :=
    fst (serve (H := plain_runtime) empty_store
           (map Samples.arriving
              [Samples.submit; Samples.poll; Samples.poll; Samples.poll])) in
  let after :=
    fst (handle (H := plain_runtime) before Samples.noon Samples.no_signals
           Samples.submit) in
  status <$> JOBS before !! Samples.first_id = Some "SUCCEEDED" /\
  percentComplete <$> JOBS before !! Samples.first_id = Some 100 /\
  length <$> JOB_DETAILS before !! Samples.first_id = Some 3%nat /\
  status <$> JOBS after !! Samples.first_id = Some "RUNNING" /\
  percentComplete <$> JOBS after !! Samples.first_id = Some 0 /\
  endTime <$> JOBS after !! Samples.first_id = Some None /\
  length <$> JOB_DETAILS after !! Samples.first_id = Some 2%nat.
Proof. repeat split; vm_compute; reflexivity. Qed.

End Invariant.

(** ** Remote calls of the gateways *)

Module Remote.
Import Http.

(** One call of [pbcs_request], whatever calls were made before it. *)
Lemma pbcs_request_result cfg method path params body t calls :
  let url := Gateway.base_url cfg +:+ path in
  let rq := Gateway.outgoing cfg method path params body in
  Gateway.pbcs_request cfg method path params body t calls =
    (inr match t rq with
         | Failed e => Gateway.network_or_parse_error e url
         | Answered r =>
             match json_or_empty r with
             | inl e => Gateway.network_or_parse_error e url
             | inr payload =>
                 if 300 <=? status_code r then Gateway.http_error (status_code r) payload
                 else Gateway.http_ok (status_code r) payload
             end
         end,
     (calls ++ [rq])%list).
Proof.
  cbn zeta. unfold Gateway.pbcs_request, mbind, io_bind, try_except, request, lift, mret, io_ret.
  destruct (t (Gateway.outgoing cfg method path params body)) as [r | e]; [| reflexivity].
  destruct (json_or_empty r) as [e | payload]; [reflexivity |].
  destruct (300 <=? status_code r); reflexivity.
Qed.

(** One call of [req], once the base address is configured. *)
Lemma req_result getenv c method path params body t calls :
  FastMCP.cfg getenv = inr c ->
  let rq := FastMCP.outgoing c method path params body in
  FastMCP.req getenv method path params body t calls =
    (match t rq with
     | Failed e => inl e
     | Answered r =>
         inr (if 300 <=? status_code r
              then FastMCP.http_error (status_code r) (FastMCP.json_or_raw r)
              else FastMCP.http_ok (status_code r) (FastMCP.json_or_raw r))
     end,
     (calls ++ [rq])%list).
Proof.
  intros Hcfg. cbn zeta.
  unfold FastMCP.req, mbind, io_bind, request, lift, mret, io_ret. rewrite Hcfg.
  destruct (t (FastMCP.outgoing c method path params body)) as [r | e]; [| reflexivity].
  destruct (300 <=? status_code r); reflexivity.
Qed.

(** A failure of the transport leaves [req] as an exception. *)
Lemma req_transport_failure getenv c method path params body t e :
  FastMCP.cfg getenv = inr c ->
  t (FastMCP.outgoing c method path params body) = Failed e ->
  run (FastMCP.req getenv method path params body) t
    = (inl e, [FastMCP.outgoing c method path params body]).
Proof.
  intros Hcfg Ht. unfold run. rewrite (req_result getenv c) by done.
  cbn zeta. by rewrite Ht.
Qed.

(** C8, amended.  A remote call of the stdio gateway ([pbcs_request])
    issues one request.  A failure of the transport, or a body on which
    JSON parsing fails (whatever the status), gives the
    NETWORK_OR_PARSE_ERROR result with the message of the failure and the
    URL of the request.  Otherwise the body is the parsed document, or the
    empty object when the response has no content; a status of 300 or
    more gives the HTTP_ERROR result with the status and that body, a
    lower status the ok result with the status and that body.  A remote
    call of the FastMCP gateway ([req]) that the transport answers gives
    the HTTP_ERROR result for a status of 300 or more and the ok result
    for a lower one, both with the status and the body: the parsed
    document, the empty object for no content, and the raw text under
    [raw_text] when JSON parsing fails. *)
Theorem remote_call_results cfg getenv method path params body t :
  let url := Gateway.base_url cfg +:+ path in
  let rq := Gateway.outgoing cfg method path params body in
  let result := run (Gateway.pbcs_request cfg method path params body) t in
  (forall e, t rq = Failed e ->
     result = (inr (Gateway.network_or_parse_error e url), [rq])) /\
  (forall r raw e, t rq = Answered r -> Http.body r = BadContent raw e ->
     result = (inr (Gateway.network_or_parse_error e url), [rq])) /\
  (forall r payload, t rq = Answered r ->
     Http.body r = JsonContent payload \/ (Http.body r = NoContent /\ payload = JObj []) ->
     (300 <= status_code r ->
        result = (inr (Gateway.http_error (status_code r) payload), [rq])) /\
     (status_code r < 300 ->
        result = (inr (Gateway.http_ok (status_code r) payload), [rq]))) /\
  (forall c r payload,
     FastMCP.cfg getenv = inr c ->
     let rq' := FastMCP.outgoing c method path params body in
     let result' := run (FastMCP.req getenv method path params body) t in
     t rq' = Answered r ->
     Http.body r = JsonContent payload \/ (Http.body r = NoContent /\ payload = JObj [])
     \/ (exists raw e, Http.body r = BadContent raw e
                       /\ payload = JObj [("raw_text", JStr raw)]) ->
     (300 <= status_code r ->
        result' = (inr (FastMCP.http_error (status_code r) payload), [rq'])) /\
     (status_code r < 300 ->
        result' = (inr (FastMCP.http_ok (status_code r) payload), [rq']))).
Proof.
  cbn zeta. unfold run. split; [| split; [| split]].
  - intros e Ht. rewrite pbcs_request_result. cbn zeta. by rewrite Ht.
  - intros r raw e Ht Hbody. rewrite pbcs_request_result. cbn zeta.
    rewrite Ht. unfold json_or_empty. by rewrite Hbody.
  - intros r payload Ht Hbody. rewrite pbcs_request_result. cbn zeta. rewrite Ht.
    assert (json_or_empty r = inr payload) as ->.
    { unfold json_or_empty. by destruct Hbody as [-> | [-> ->]]. }
    split; intros Hcode.
    + by rewrite (proj2 (Z.leb_le _ _) Hcode).
    + by rewrite (proj2 (Z.leb_gt _ _) Hcode).
  - intros c r payload Hcfg Ht Hbody. rewrite (req_result getenv c) by done.
    cbn zeta. rewrite Ht.
    assert (FastMCP.json_or_raw r = payload) as ->.
    { unfold FastMCP.json_or_raw.
      by destruct Hbody as [-> | [[-> ->] | (raw & e & -> & ->)]]. }
    split; intros Hcode.
    + by rewrite (proj2 (Z.leb_le _ _) Hcode).
    + by rewrite (proj2 (Z.leb_gt _ _) Hcode).
Qed.

Lemma remote_call_results_witness :
  fst (run (Gateway.pbcs_request Samples.local_cfg "GET" "/HyperionPlanning/rest/" None None)
         (Samples.answering 404 (JsonContent (JObj [("message", JStr "Job not found")]))))
    = inr (JObj [("ok", JBool false); ("error", JStr "HTTP_ERROR");
                 ("status_code", JNum 404);
                 ("response", JObj [("message", JStr "Job not found")])]).
Proof.
  pose proof (remote_call_results Samples.local_cfg Samples.local_env "GET"
                "/HyperionPlanning/rest/" None None
                (Samples.answering 404 (JsonContent (JObj [("message", JStr "Job not found")]))))
    as (_ & _ & Hanswered & _).
  destruct (Hanswered _ (JObj [("message", JStr "Job not found")]) eq_refl) as [Herror _].
  - left. reflexivity.
  - rewrite Herror; [reflexivity | cbn; lia].
Defined.

(** C8, as stated, fails on both gateways.  In the stdio gateway a
    response with status 500 and a body that is no JSON gives the
    NETWORK_OR_PARSE_ERROR result: no HTTP_ERROR, no status, no raw text.
    In the FastMCP gateway a response with status 200 and such a body is
    marked ok. *)
Lemma unparsable_body_results :
  fst (run (Gateway.pbcs_request Samples.local_cfg "GET" "/HyperionPlanning/rest/" None None)
         (Samples.answering 500 Samples.html_page))
    = inr (JObj [("ok", JBool false); ("error", JStr "NETWORK_OR_PARSE_ERROR");
                 ("message", JStr "Expecting value: line 1 column 1 (char 0)");
                 ("url", JStr "http://127.0.0.1:9010/HyperionPlanning/rest/")]) /\
  fst (run (FastMCP.req Samples.local_env "GET" "/HyperionPlanning/rest/" None None)
         (Samples.answering 200 Samples.html_page))
    = inr (JObj [("ok", JBool true); ("status_code", JNum 200);
                 ("response",
                  JObj [("raw_text", JStr "<html>Internal Server Error</html>")])]).
Proof. split; vm_compute; reflexivity. Qed.

End Remote.

(** ** The client credential of the stdio gateway *)

Module Credential.
Import Http Gateway Spec.

Lemma differs_false v key : differs v key = false <-> v = JStr key.
Proof.
  destruct v; cbn; try (split; [discriminate | discriminate]).
  rewrite negb_false_iff, String.eqb_eq. split; [by intros -> | by intros [= ->]].
Qed.

Lemma present_nonempty key : key <> "" -> present (Some key) = Some key.
Proof. intros Hkey. cbn. by rewrite (proj2 (String.eqb_neq _ _) Hkey). Qed.

Lemma check_mismatch cfg key kv :
  client_api_key cfg = Some key -> key <> "" ->
  dict_get kv "client_api_key" <> JStr key ->
  check_client_key cfg (JObj kv) = inr (Some unauthorized_client).
Proof.
  intros Hcfg Hkey Harg. unfold check_client_key.
  rewrite Hcfg, present_nonempty by done. cbn [get].
  destruct (differs (dict_get kv "client_api_key") key) eqn:Hd; [done |].
  by apply differs_false in Hd.
Qed.

Lemma check_match cfg key kv :
  client_api_key cfg = Some key -> key <> "" ->
  dict_get kv "client_api_key" = JStr key ->
  check_client_key cfg (JObj kv) = inr None.
Proof.
  intros Hcfg Hkey Harg. unfold check_client_key.
  rewrite Hcfg, present_nonempty by done. cbn [get].
  by rewrite (proj2 (differs_false _ _) Harg).
Qed.

Section WithRuntime.
Context `{PyRuntime}.

(** A refused call returns the refusal at once. *)
Lemma refused_tool cfg args name fn refusal t calls :
  In (name, fn) TOOLS ->
  check_client_key cfg args = inr (Some refusal) ->
  fn cfg args t calls = (inr refusal, calls).
Proof.
  intros Hin Hcheck. cbn in Hin.
  repeat (destruct Hin as [[= <- <-] | Hin]); [.. | done];
    unfold tool_discover_versions, tool_list_job_definitions, tool_execute_job,
      tool_get_job_status, tool_get_job_details, mbind, io_bind, lift;
    by rewrite Hcheck.
Qed.

(** An accepted call runs as in a gateway with no credential. *)
Lemma accepted_tool cfg args name fn t calls :
  In (name, fn) TOOLS ->
  check_client_key cfg args = inr None ->
  fn cfg args t calls = fn (without_key cfg) args t calls.
Proof.
  intros Hin Hcheck. cbn in Hin.
  repeat (destruct Hin as [[= <- <-] | Hin]); [.. | done];
    unfold tool_discover_versions, tool_list_job_definitions, tool_execute_job,
      tool_get_job_status, tool_get_job_details, mbind, io_bind, lift;
    by rewrite Hcheck.
Qed.

(** With a credential configured, arguments that are no dictionary make
    the check raise, before anything else. *)
Lemma unreadable_arguments cfg key args name fn t calls :
  client_api_key cfg = Some key -> key <> "" ->
  (forall kv, args <> JObj kv) ->
  In (name, fn) TOOLS ->
  fn cfg args t calls = (inl (no_get args), calls).
Proof.
  intros Hcfg Hkey Hargs Hin.
  assert (check_client_key cfg args = inl (no_get args)) as Hcheck.
  { unfold check_client_key. rewrite Hcfg, present_nonempty by done.
    destruct args; try reflexivity. by destruct (Hargs fields). }
  cbn in Hin.
  repeat (destruct Hin as [[= <- <-] | Hin]); [.. | done];
    unfold tool_discover_versions, tool_list_job_definitions, tool_execute_job,
      tool_get_job_status, tool_get_job_details, mbind, io_bind, lift;
    by rewrite Hcheck.
Qed.

End WithRuntime.

(** The FastMCP gateway reads three variables of the environment, and the
    credential is not one of them. *)
Lemma fastmcp_cfg_ignores_credential (getenv getenv' : environ) :
  (forall name, name <> "MCP_CLIENT_API_KEY" -> getenv' name = getenv name) ->
  FastMCP.cfg getenv' = FastMCP.cfg getenv.
Proof.
  intros Hsame. unfold FastMCP.cfg. by rewrite !Hsame.
Qed.

Lemma fastmcp_ignores_credential (getenv getenv' : environ) i t :
  (forall name, name <> "MCP_CLIENT_API_KEY" -> getenv' name = getenv name) ->
  run (Settings.invoke getenv' i) t = run (Settings.invoke getenv i) t.
Proof.
  intros Hsame. pose proof (fastmcp_cfg_ignores_credential _ _ Hsame) as Hcfg.
  destruct i; cbn [Settings.invoke];
    unfold FastMCP.planning_discover_versions, FastMCP.planning_list_job_definitions,
      FastMCP.planning_execute_job, FastMCP.planning_get_job_status,
      FastMCP.planning_get_job_details, FastMCP.req, run, mbind, io_bind, lift;
    by rewrite Hcfg.
Qed.

(** With a usable base address, a tool of the FastMCP gateway makes its
    one remote call, and what it returns is not the refusal of the
    credential check. *)
Lemma fastmcp_proceeds getenv c i t :
  FastMCP.cfg getenv = inr c ->
  length (snd (run (Settings.invoke getenv i) t)) = 1%nat /\
  fst (run (Settings.invoke getenv i) t) <> inr unauthorized_client.
Proof.
  intros Hcfg.
  destruct i; cbn [Settings.invoke];
    unfold FastMCP.planning_discover_versions, FastMCP.planning_list_job_definitions,
      FastMCP.planning_execute_job, FastMCP.planning_get_job_status,
      FastMCP.planning_get_job_details, run, mbind, io_bind, lift, mret, io_ret;
    rewrite ?Hcfg; rewrite (Remote.req_result getenv c) by done; cbn zeta;
    match goal with
    | |- context [t ?rq] => destruct (t rq) as [r | e0]
    end;
    try (split; [reflexivity | discriminate]);
    destruct (300 <=? status_code r); cbn;
    repeat case_match; cbn; split; first [reflexivity | discriminate].
Qed.

(** C7, amended.  For every tool of the stdio gateway, when the
    configuration holds a non-empty client credential: a call whose
    arguments are a dictionary in which [client_api_key] is missing or is
    not that credential returns the UNAUTHORIZED_CLIENT result and makes no
    remote call; a call whose [client_api_key] argument is the credential
    runs exactly as the tool runs in a gateway configured without
    credential, and for [planning_discover_versions] that is one remote
    call; a call whose arguments are not a dictionary raises
    AttributeError, again with no remote call.  The FastMCP gateway has no
    credential check: a call of any of its tools runs the same whatever
    [MCP_CLIENT_API_KEY] holds, and with a usable base address it makes
    its one remote call and never returns the UNAUTHORIZED_CLIENT
    result. *)
Theorem credential_check `{PyRuntime} cfg key name fn args t :
  client_api_key cfg = Some key -> key <> "" ->
  In (name, fn) TOOLS ->
  let refusal :=
    JObj [("ok", JBool false); ("error", JStr "UNAUTHORIZED_CLIENT");
          ("message", JStr "Invalid MCP client API key.")] in
  (forall kv, args = JObj kv -> dict_get kv "client_api_key" <> JStr key ->
     run (fn cfg args) t = (inr refusal, [])) /\
  (forall kv, args = JObj kv -> dict_get kv "client_api_key" = JStr key ->
     run (fn cfg args) t = run (fn (without_key cfg) args) t /\
     length (snd (run (tool_discover_versions cfg args) t)) = 1%nat) /\
  ((forall kv, args <> JObj kv) ->
     run (fn cfg args) t
       = (inl (Exn "AttributeError"
                 ("'" +:+ type_name args +:+ "' object has no attribute 'get'")),
          [])) /\
  (forall (getenv : environ) (i : Settings.invocation),
     (forall getenv' : environ,
        (forall name, name <> "MCP_CLIENT_API_KEY" -> getenv' name = getenv name) ->
        run (Settings.invoke getenv' i) t = run (Settings.invoke getenv i) t) /\
     (forall c, FastMCP.cfg getenv = inr c ->
        length (snd (run (Settings.invoke getenv i) t)) = 1%nat /\
        fst (run (Settings.invoke getenv i) t) <> inr refusal)).
Proof.
  intros Hcfg Hkey Hin refusal. split; [| split; [| split]].
  - intros kv -> Harg. unfold run. apply (refused_tool _ _ name); [done |].
    by apply (check_mismatch cfg key).
  - intros kv -> Harg. pose proof (check_match cfg key kv Hcfg Hkey Harg) as Hcheck.
    split; [by apply (accepted_tool _ _ name) |].
    unfold run, tool_discover_versions, mbind, io_bind, lift.
    rewrite Hcheck, Remote.pbcs_request_result. reflexivity.
  - intros Hargs. unfold run. by apply (unreadable_arguments cfg key args name).
  - intros getenv i. split.
    + intros getenv' Hsame. by apply fastmcp_ignores_credential.
    + intros c Hc. exact (fastmcp_proceeds getenv c i t Hc).
Qed.

Lemma credential_check_witness :
  run (tool_execute_job (H := plain_runtime) Samples.local_cfg
         (JObj [("job_type", JStr "RULES"); ("job_name", JStr "RollupUSSales");
                ("client_api_key", JStr "guess")]))
    (Samples.answering 201 Samples.created)
    = (inr (JObj [("ok", JBool false); ("error", JStr "UNAUTHORIZED_CLIENT");
                  ("message", JStr "Invalid MCP client API key.")]), []) /\
  run (tool_execute_job (H := plain_runtime) Samples.local_cfg
         (JArr [JStr "RULES"; JStr "RollupUSSales"]))
    (Samples.answering 201 Samples.created)
    = (inl (Exn "AttributeError" "'list' object has no attribute 'get'"), []) /\
  length (snd (run (Settings.invoke Samples.local_env
                      (Settings.ExecuteJob "RULES" "RollupUSSales" None None None))
                 (Samples.answering 201 Samples.created))) = 1%nat.
Proof.
  split; [| split].
  - destruct (credential_check (H := plain_runtime) Samples.local_cfg "secret"
                "planning_execute_job" (tool_execute_job (H := plain_runtime))
                (JObj [("job_type", JStr "RULES"); ("job_name", JStr "RollupUSSales");
                       ("client_api_key", JStr "guess")])
                (Samples.answering 201 Samples.created))
      as (Hrefused & _); [reflexivity | discriminate | do 2 right; left; reflexivity |].
    apply (Hrefused _ eq_refl). discriminate.
  - destruct (credential_check (H := plain_runtime) Samples.local_cfg "secret"
                "planning_execute_job" (tool_execute_job (H := plain_runtime))
                (JArr [JStr "RULES"; JStr "RollupUSSales"])
                (Samples.answering 201 Samples.created))
      as (_ & _ & Hraised & _); [reflexivity | discriminate | do 2 right; left; reflexivity |].
    apply Hraised. discriminate.
  - destruct (credential_check (H := plain_runtime) Samples.local_cfg "secret"
                "planning_execute_job" (tool_execute_job (H := plain_runtime)) (JObj [])
                (Samples.answering 201 Samples.created))
      as (_ & _ & _ & Hfast); [reflexivity | discriminate | do 2 right; left; reflexivity |].
    destruct (Hfast Samples.local_env
                (Settings.ExecuteJob "RULES" "RollupUSSales" None None None))
      as [_ Hcalls].
    exact (proj1 (Hcalls _ eq_refl)).
Defined.

(** C7, as stated, fails on the FastMCP gateway: with a credential in the
    environment, which the stdio gateway loads and enforces, a call of
    [planning_execute_job] (which takes no credential argument) makes the
    remote call and returns its result. *)
Lemma fastmcp_makes_the_call :
  Samples.local_env "MCP_CLIENT_API_KEY" = Some "secret" /\
  load_cfg Samples.local_env = inr Samples.local_cfg /\
  client_api_key Samples.local_cfg = Some "secret" /\
  run (tool_execute_job (H := plain_runtime) Samples.local_cfg
         (JObj [("job_type", JStr "RULES"); ("job_name", JStr "RollupUSSales")]))
    (Samples.answering 201 Samples.created)
    = (inr unauthorized_client, []) /\
  run (FastMCP.planning_execute_job Samples.local_env "RULES" "RollupUSSales"
         None None None)
    (Samples.answering 201 Samples.created)
    = (inr (JObj [("ok", JBool true); ("jobId", JStr "1767268800000");
                  ("status", JStr "RUNNING")]),
       [ {| method := "POST";
            url := "http://127.0.0.1:9010/HyperionPlanning/rest/v3/applications/Vision/jobs";
            req_headers := [("Accept", "application/json");
                            ("Content-Type", "application/json")];
            req_params := None;
            data := Some (JObj [("jobType", JStr "RULES");
                                ("jobName", JStr "RollupUSSales");
                                ("parameters", JObj [])]);
            timeout := 30;
            verify := None |} ]).
Proof. repeat split; vm_compute; reflexivity. Qed.

End Credential.

(** ** The dispatch loop of the stdio gateway *)

Module Dispatch.
Import Http Gateway.

Section WithRuntime.
Context `{PyRuntime}.

(** A line that is no JSON is answered with a protocol-level error. *)
Lemma not_json_line cfg t calls :
  process_line cfg NotJson t calls = (inr (Some (rpc_error JNull "Invalid JSON")), calls).
Proof. reflexivity. Qed.

(** A blank line is skipped. *)
Lemma blank_line cfg t calls : process_line cfg Blank t calls = (inr None, calls).
Proof. reflexivity. Qed.

(** A name outside the table is answered with the UNKNOWN_TOOL result. *)
Lemma unknown_tool_line cfg kv pkv name t calls :
  dict_get kv "method" = JStr "tools/call" ->
  py_or (dict_get kv "params") (JObj []) = JObj pkv ->
  dict_get pkv "name" = JStr name ->
  find_tool TOOLS name = None ->
  process_line cfg (Document (JObj kv)) t calls
    = (inr (Some (rpc_result (dict_get kv "id") (unknown_tool (JStr name)))), calls).
Proof.
  intros Hmethod Hparams Hname Hfind.
  unfold process_line, mbind, io_bind, lift, mret, io_ret. cbn [get].
  rewrite Hmethod, Hparams. cbn [differs String.eqb Ascii.eqb Bool.eqb negb get].
  rewrite Hname. cbn [tools_get]. by rewrite Hfind.
Qed.

(** An exception raised by a tool is answered with the TOOL_EXCEPTION
    result. *)
Lemma tool_exception_line cfg kv pkv name fn e t calls calls' :
  dict_get kv "method" = JStr "tools/call" ->
  py_or (dict_get kv "params") (JObj []) = JObj pkv ->
  dict_get pkv "name" = JStr name ->
  find_tool TOOLS name = Some fn ->
  fn cfg (py_or (dict_get pkv "arguments") (JObj [])) t calls = (inl e, calls') ->
  process_line cfg (Document (JObj kv)) t calls
    = (inr (Some (rpc_result (dict_get kv "id") (tool_exception e))), calls').
Proof.
  intros Hmethod Hparams Hname Hfind Hraise.
  unfold process_line, mbind, io_bind, lift, mret, io_ret, try_except. cbn [get].
  rewrite Hmethod, Hparams. cbn [differs String.eqb Ascii.eqb Bool.eqb negb get].
  rewrite Hname. cbn [tools_get]. by rewrite Hfind, Hraise.
Qed.

(** A document that is no object raises outside every [try]. *)
Lemma non_object_line cfg doc t calls :
  (forall kv, doc <> JObj kv) ->
  process_line cfg (Document doc) t calls = (inl (no_get doc), calls).
Proof.
  intros Hdoc. destruct doc; try reflexivity. by destruct (Hdoc fields).
Qed.

(** C9.  The loop on the line [[]]: [req.get("id")] raises AttributeError
    on the list, no handler surrounds it, and the loop ends with nothing
    written for the line and the remaining lines unread. *)
Theorem array_request_ends_the_loop cfg rest t :
  main_loop cfg (Document (JArr []) :: rest) t [] [advertisement]
    = {| crashed := Some (Exn "AttributeError" "'list' object has no attribute 'get'");
         stdout := [advertisement];
         remote_calls := [] |}.
Proof. reflexivity. Qed.

End WithRuntime.

(** The three answers of the loop, and two more lines that end it, on
    concrete requests. *)
Example loop_answers :
  stdout (main_loop (H := plain_runtime) Samples.local_cfg
            [ NotJson;
              Document (JObj [("id", JNum 7); ("method", JStr "tools/call");
                              ("params", JObj [("name", JStr "planning_cancel_job")])]);
              Document (JObj [("id", JNum 8); ("method", JStr "tools/call");
                              ("params", JObj [("name", JStr "planning_get_job_details");
                                               ("arguments",
                                                JObj [("client_api_key", JStr "secret");
                                                      ("job_id", JStr "1767268800000");
                                                      ("offset", JNull)])])]) ]
            (Samples.answering 201 Samples.created) [] [])
    = [ rpc_error JNull "Invalid JSON";
        rpc_result (JNum 7) (unknown_tool (JStr "planning_cancel_job"));
        rpc_result (JNum 8)
          (JObj [("ok", JBool false); ("error", JStr "TOOL_EXCEPTION");
                 ("message",
                  JStr "int() argument must be a string, a bytes-like object or a real number, not 'NoneType'")]) ].
Proof. vm_compute. reflexivity. Qed.

Example loop_ends_on_text_params :
  crashed (main_loop (H := plain_runtime) Samples.local_cfg
             [ Document (JObj [("id", JNum 9); ("method", JStr "tools/call");
                               ("params", JStr "planning_discover_versions")]) ]
             (Samples.answering 201 Samples.created) [] [])
    = Some (Exn "AttributeError" "'str' object has no attribute 'get'").
Proof. vm_compute. reflexivity. Qed.

Example loop_ends_on_list_name :
  crashed (main_loop (H := plain_runtime) Samples.local_cfg
             [ Document (JObj [("id", JNum 9); ("method", JStr "tools/call");
                               ("params", JObj [("name", JArr [])])]) ]
             (Samples.answering 201 Samples.created) [] [])
    = Some (Exn "TypeError" "unhashable type: 'list'").
Proof. vm_compute. reflexivity. Qed.

End Dispatch.

(** * Further properties of the code *)

(** ** The life of a job *)

Module Lifecycle.
Import Simulator Spec Shape.

Section WithRuntime.
Context `{PyRuntime}.

Lemma running_log job :
  status job = "RUNNING" ->
  expected_log job = initial_log (jobType job) (jobName job) (parameters job).
Proof.
  intros Hrun. unfold expected_log, closing_entries. rewrite Hrun. reflexivity.
Qed.

Lemma same_store_lifecycle st st' :
  st' = st -> lifecycle_ok st -> lifecycle_ok st'.
Proof. by intros ->. Qed.

(** Writing a record that fits, with its log, under its id. *)
Lemma lifecycle_insert st id job :
  lifecycle_ok st -> jobId job = id -> progress_fits job ->
  lifecycle_ok {| JOBS := <[id := job]> (JOBS st);
                  JOB_DETAILS := <[id := expected_log job]> (JOB_DETAILS st) |}.
Proof.
  intros Hok Hid Hfits id' job'. cbn. rewrite !lookup_insert. case_decide.
  - intros [= <-]. by subst.
  - apply Hok.
Qed.

(** Advancing a job in progress, with its log left as it is. *)
Lemma continue_lifecycle st id job pc :
  lifecycle_ok st -> jobId job = id -> status job = "RUNNING" -> endTime job = None ->
  JOB_DETAILS st !! id = Some (initial_log (jobType job) (jobName job) (parameters job)) ->
  pc = 35 \/ pc = 70 ->
  lifecycle_ok {| JOBS := <[id := set_progress job pc]> (JOBS st);
                  JOB_DETAILS := JOB_DETAILS st |}.
Proof.
  intros Hok Hid Hrun Hend Hlog Hpc.
  rewrite <- (insert_id (JOB_DETAILS st) id _ Hlog).
  replace (initial_log (jobType job) (jobName job) (parameters job))
    with (expected_log (set_progress job pc)) by (by rewrite running_log).
  apply lifecycle_insert; [done | done |]. left. cbn. intuition.
Qed.

Lemma job_status_lifecycle st now h app id :
  lifecycle_ok st -> lifecycle_ok (fst (job_status st now h app id)).
Proof.
  intros Hok.
  destruct (require_auth h) as [deny |] eqn:Hauth.
  { apply (same_store_lifecycle st); [| done]. unfold job_status. by rewrite Hauth. }
  destruct (JOBS st !! id) as [job |] eqn:Hjob.
  2: { apply (same_store_lifecycle st); [| done]. unfold job_status. by rewrite Hauth, Hjob. }
  destruct (Hok _ _ Hjob) as (Hid & Hfits & Hlog).
  destruct Hfits as [(Hrun & Hend & Hpc) | Hterm].
  2: { apply (same_store_lifecycle st); [| done].
       rewrite (Polling.poll_terminal st now h app id job); try done.
       destruct Hterm as [[Hs _] | [Hs _]]; [by left | by right]. }
  rewrite (running_log _ Hrun) in Hlog.
  destruct (fail_job h) eqn:Hfail.
  - destruct Hpc as [Hpc | Hpc].
    + rewrite (Polling.poll_continues st now h app id job) by (auto; lia).
      cbn [fst]. apply continue_lifecycle; auto. rewrite Hpc. lia.
    + rewrite (Polling.poll_fails st now h app id job _ Hauth Hjob Hrun Hlog Hfail) by lia.
      cbn [fst]. apply lifecycle_insert; [done | done |].
      right. right. cbn. split; [done |]. lia.
  - destruct Hpc as [Hpc | [Hpc | Hpc]].
    + rewrite (Polling.poll_continues st now h app id job) by (auto; lia).
      cbn [fst]. apply continue_lifecycle; auto. rewrite Hpc. lia.
    + rewrite (Polling.poll_continues st now h app id job) by (auto; lia).
      cbn [fst]. apply continue_lifecycle; auto. rewrite Hpc. lia.
    + rewrite (Polling.poll_succeeds st now h app id job _ Hauth Hjob Hrun Hlog Hfail) by lia.
      cbn [fst]. apply lifecycle_insert; [done | done |].
      right. left. cbn. done.
Qed.

Lemma execute_job_lifecycle st now h app body :
  lifecycle_ok st -> lifecycle_ok (fst (execute_job st now h app body)).
Proof.
  intros Hok. unfold execute_job. repeat case_match; cbn [fst]; try done.
  match goal with
  | |- lifecycle_ok {| JOBS := <[_ := ?job]> _; JOB_DETAILS := _ |} =>
      apply (lifecycle_insert st _ job)
  end; [done | done |]. left. cbn. auto.
Qed.

Lemma handle_lifecycle st now h r :
  lifecycle_ok st -> lifecycle_ok (fst (handle st now h r)).
Proof.
  intros Hok. destruct r; cbn [handle fst]; try done.
  - by apply execute_job_lifecycle.
  - by apply job_status_lifecycle.
Qed.

Lemma serve_lifecycle rs st :
  lifecycle_ok st -> lifecycle_ok (fst (serve st rs)).
Proof.
  revert st. induction rs as [| a rest IH]; intros st Hok; [done |].
  cbn [serve].
  destruct (handle st (at_clock a) (with_headers a) (route a)) as [st1 r1] eqn:Hstep.
  destruct (serve st1 rest) as [st2 replies] eqn:Hrest. cbn [fst].
  change st2 with (fst (st2, replies)). rewrite <- Hrest. apply IH.
  change st1 with (fst (st1, r1)). rewrite <- Hstep.
  by apply handle_lifecycle.
Qed.

(** X1.  In every store the server reaches from its empty start, whatever
    the requests, their headers and their clock readings: a record is
    stored under its own [jobId]; a RUNNING job is at 0, 35 or 70 and has
    no [endTime]; a SUCCEEDED job is at 100; a FAILED job is at 70 or 100;
    and the log of a job is the two entries of its submission, followed,
    once the job is terminal, by the one entry of its transition: the INFO
    message "Job completed successfully." for SUCCEEDED, the ERROR message
    "Simulated failure occurred." for FAILED. *)
Theorem reachable_records rs id job :
  JOBS (fst (serve empty_store rs)) !! id = Some job ->
  let log := JOB_DETAILS (fst (serve empty_store rs)) !! id in
  let started :=
    {| severity := "INFO"; type := "MESSAGE"; row := None;
       message := "Job " +:+ py_str (jobName job) +:+ " started." |} in
  let described :=
    {| severity := "INFO"; type := "MESSAGE"; row := None;
       message := "jobType=" +:+ py_str (jobType job)
                    +:+ " parameters=" +:+ py_str (parameters job) |} in
  jobId job = id /\ progress_fits job /\
  log = Some (expected_log job) /\
  (status job = "RUNNING" -> log = Some [started; described]) /\
  (status job = "SUCCEEDED" ->
     log = Some [started; described;
                 {| severity := "INFO"; type := "MESSAGE"; row := None;
                    message := "Job completed successfully." |}]) /\
  (status job = "FAILED" ->
     log = Some [started; described;
                 {| severity := "ERROR"; type := "MESSAGE"; row := None;
                    message := "Simulated failure occurred." |}]).
Proof.
  intros Hjob log started described.
  destruct (serve_lifecycle rs empty_store) with (id := id) (job := job)
    as (Hid & Hfits & Hlog); [| exact Hjob |].
  { intros id' job'. cbn. by rewrite lookup_empty. }
  split; [exact Hid |]. split; [exact Hfits |]. split; [exact Hlog |].
  subst log. rewrite Hlog. unfold expected_log, closing_entries.
  repeat split; intros ->; reflexivity.
Qed.

End WithRuntime.

Lemma reachable_records_witness :
  JOB_DETAILS
    (fst (serve (H := plain_runtime) empty_store
            (Samples.arriving Samples.submit
               :: map Samples.arriving_failing [Samples.poll; Samples.poll])))
    !! Samples.first_id
  = Some [ {| severity := "INFO"; type := "MESSAGE"; row := None;
              message := "Job RollupUSSales started." |};
           {| severity := "INFO"; type := "MESSAGE"; row := None;
              message := "jobType=RULES parameters={}" |};
           {| severity := "ERROR"; type := "MESSAGE"; row := None;
              message := "Simulated failure occurred." |} ].
Proof.
  destruct (reachable_records (H := plain_runtime)
              (Samples.arriving Samples.submit
                 :: map Samples.arriving_failing [Samples.poll; Samples.poll])
              Samples.first_id
              (finish (set_progress Samples.first_job 70) "FAILED" Samples.noon))
    as (_ & _ & _ & _ & _ & Hfailed); [reflexivity |].
  exact (Hfailed eq_refl).
Defined.

(** One poll past the gate: a terminal job stays as it is, a job in
    progress ends or gains 35. *)
Lemma poll_progress st now h app id job :
  store_ok st -> require_auth h = None -> JOBS st !! id = Some job ->
  exists job',
    JOBS (fst (job_status st now h app id)) !! id = Some job' /\
    (terminal job -> job' = job) /\
    (terminal job' \/
     (status job' = "RUNNING" /\ percentComplete job' = percentComplete job + 35)).
Proof.
  intros Hok Hauth Hjob.
  pose proof (jobs_ok _ Hok _ _ Hjob) as Hjok.
  destruct (Invariant.status_cases _ Hjok) as [Hrun | Hterm].
  2: { exists job. rewrite (Polling.poll_terminal st now h app id job) by done.
       split; [done |]. split; [done | by left]. }
  destruct (proj1 (logs_paired _ Hok id)) as [log Hlog]; [by eexists |].
  assert (forall job', terminal job -> job' = job) as Hnot
    by (intros ? Ht; by destruct (Invariant.running_not_terminal _ Hrun)).
  destruct (Z.lt_ge_cases (percentComplete job + 35) 100) as [Hlt | Hge];
    [destruct (fail_job h) eqn:Hfail;
       [destruct (Z.lt_ge_cases (percentComplete job + 35) 70) as [Hlow | Hhigh] |] |
     destruct (fail_job h) eqn:Hfail].
  - rewrite (Polling.poll_continues st now h app id job) by auto.
    eexists. cbn. rewrite lookup_insert_eq. split; [done |]. split; [apply Hnot |].
    right. by cbn.
  - rewrite (Polling.poll_fails st now h app id job log) by (auto; lia).
    eexists. cbn. rewrite lookup_insert_eq. split; [done |]. split; [apply Hnot |].
    left. by right.
  - rewrite (Polling.poll_continues st now h app id job) by auto.
    eexists. cbn. rewrite lookup_insert_eq. split; [done |]. split; [apply Hnot |].
    right. by cbn.
  - rewrite (Polling.poll_fails st now h app id job log) by (auto; lia).
    eexists. cbn. rewrite lookup_insert_eq. split; [done |]. split; [apply Hnot |].
    left. by right.
  - rewrite (Polling.poll_succeeds st now h app id job log) by auto.
    eexists. cbn. rewrite lookup_insert_eq. split; [done |]. split; [apply Hnot |].
    left. by left.
Qed.

(** X2.  Three polls that pass the authorization gate bring any job of a
    well-formed store to a terminal state, whatever their failure signals
    and clock readings: progress is driven by the polls alone, and no job
    needs more than three. *)
Theorem three_polls_finish st id job now1 now2 now3 h1 h2 h3 app1 app2 app3 :
  store_ok st -> JOBS st !! id = Some job ->
  require_auth h1 = None -> require_auth h2 = None -> require_auth h3 = None ->
  let st1 := fst (job_status st now1 h1 app1 id) in
  let st2 := fst (job_status st1 now2 h2 app2 id) in
  let st3 := fst (job_status st2 now3 h3 app3 id) in
  exists job', JOBS st3 !! id = Some job' /\ terminal job'.
Proof.
  intros Hok Hjob Ha1 Ha2 Ha3 st1 st2 st3.
  assert (store_ok st1) as Hok1 by (by apply Invariant.job_status_effect).
  assert (store_ok st2) as Hok2 by (by apply Invariant.job_status_effect).
  assert (store_ok st3) as Hok3 by (by apply Invariant.job_status_effect).
  destruct (poll_progress st now1 h1 app1 id job) as (job1 & Hj1 & _ & Hs1); try done.
  fold st1 in Hj1.
  destruct (poll_progress st1 now2 h2 app2 id job1) as (job2 & Hj2 & Hk2 & Hs2); try done.
  fold st2 in Hj2.
  destruct (poll_progress st2 now3 h3 app3 id job2) as (job3 & Hj3 & Hk3 & Hs3); try done.
  fold st3 in Hj3.
  exists job3. split; [done |].
  destruct Hs3 as [Hterm | [_ Hpc3]]; [done |].
  destruct Hs2 as [Hterm | [_ Hpc2]]; [by rewrite (Hk3 Hterm) |].
  destruct Hs1 as [Hterm | [_ Hpc1]];
    [rewrite (Hk3 (eq_ind_r terminal Hterm (Hk2 Hterm))); by rewrite (Hk2 Hterm) |].
  pose proof (percent_range _ (jobs_ok _ Hok _ _ Hjob)).
  pose proof (percent_range _ (jobs_ok _ Hok3 _ _ Hj3)). lia.
Qed.

Lemma three_polls_finish_witness :
  exists job',
    JOBS (fst (job_status
                 (fst (job_status
                         (fst (job_status Samples.one_job Samples.noon Samples.no_signals
                                 "Vision" Samples.first_id))
                         Samples.noon Samples.failing "Vision" Samples.first_id))
                 Samples.noon Samples.no_signals "Vision" Samples.first_id))
      !! Samples.first_id = Some job' /\
    terminal job'.
Proof.
  apply (three_polls_finish Samples.one_job Samples.first_id Samples.first_job);
    try reflexivity.
  exact (Invariant.handle_store_ok (H := plain_runtime) empty_store Samples.noon
           Samples.no_signals Samples.submit Invariant.empty_store_ok).
Defined.

(** What one poll does to the log of a job: nothing, or one entry more. *)
Lemma job_status_log st now h app id0 id log :
  JOB_DETAILS st !! id = Some log ->
  exists log',
    JOB_DETAILS (fst (job_status st now h app id0)) !! id = Some log' /\
    log `prefix_of` log' /\ (length log' <= S (length log))%nat.
Proof.
  intros Hlog.
  assert (exists log', JOB_DETAILS st !! id = Some log' /\
            log `prefix_of` log' /\ (length log' <= S (length log))%nat) as Hsame
    by (exists log; split; [done |]; split; [done | lia]).
  unfold job_status, append_log.
  repeat case_match; cbn [fst JOB_DETAILS]; try done;
    (destruct (decide (id0 = id)) as [-> | Hne];
       [rewrite lookup_insert_eq | by rewrite lookup_insert_ne]);
    eexists; (split; [done |]);
    match goal with
    | Hl : JOB_DETAILS st !! id = Some ?l |- _ =>
        rewrite Hlog in Hl; injection Hl as <-
    end;
    (split; [by apply prefix_app_r | rewrite length_app; cbn; lia]).
Qed.

Lemma job_status_keeps_jobs st now h app id0 id job :
  JOBS st !! id = Some job -> is_Some (JOBS (fst (job_status st now h app id0)) !! id).
Proof.
  intros Hjob. unfold job_status, append_log.
  repeat case_match; cbn [fst JOBS]; try (by eexists);
    (destruct (decide (id0 = id)) as [-> | Hne];
       [rewrite lookup_insert_eq | rewrite lookup_insert_ne by done]); by eexists.
Qed.

Section WithRuntime.
Context `{PyRuntime}.

(** X3.  No operation of the simulator removes a job or a log, and the
    log of a job is append-only: after any operation other than a
    submission whose clock reading spells the id of the job, the old log is
    a prefix of the new one, which is at most one entry longer. *)
Theorem nothing_is_removed st now h r id :
  let st' := fst (handle st now h r) in
  (forall job, JOBS st !! id = Some job -> is_Some (JOBS st' !! id)) /\
  (forall log, JOB_DETAILS st !! id = Some log ->
     exists log', JOB_DETAILS st' !! id = Some log' /\
       (~ reissues r now id ->
          log `prefix_of` log' /\ (length log' <= S (length log))%nat)).
Proof.
  cbn zeta. split.
  - intros job Hjob. destruct r; cbn [handle fst]; try (by eexists).
    + unfold execute_job. repeat case_match; cbn [fst JOBS]; try (by eexists).
      rewrite lookup_insert. case_decide; by eexists.
    + by apply (job_status_keeps_jobs _ _ _ _ _ _ job).
  - intros log Hlog.
    assert (exists log', JOB_DETAILS st !! id = Some log' /\
              (~ reissues r now id ->
                 log `prefix_of` log' /\ (length log' <= S (length log))%nat)) as Hsame
      by (exists log; split; [done |]; intros _; split; [done | lia]).
    destruct r; cbn [handle fst]; try done.
    + unfold execute_job. repeat case_match; cbn [fst JOB_DETAILS]; try done.
      rewrite lookup_insert. case_decide as Hid.
      * eexists. split; [done |]. intros Hfresh. by destruct Hfresh.
      * exact Hsame.
    + destruct (job_status_log st now h appname job_id id log Hlog) as (log' & Hl & Hp).
      exists log'. split; [done |]. by intros _.
Qed.

(** X4.  A request that the authorization gate stops, on any of the five
    routes, gets the answer of the gate and changes nothing.  The gate
    reads [X-Auth-Mode] without regard to letter case: it answers 401 for
    "failure401", 403 for "failure403", and lets every other request
    through. *)
Theorem gate_blocks_every_route st now h r :
  (forall deny, require_auth h = Some deny -> handle st now h r = (st, deny)) /\
  (lower (or_empty (X_Auth_Mode h)) = "failure401" ->
     require_auth h = Some (Reply (Message "Unauthorized (simulated)") 401)) /\
  (lower (or_empty (X_Auth_Mode h)) = "failure403" ->
     require_auth h = Some (Reply (Message "Forbidden (simulated)") 403)) /\
  (lower (or_empty (X_Auth_Mode h)) <> "failure401" ->
   lower (or_empty (X_Auth_Mode h)) <> "failure403" ->
     require_auth h = None).
Proof.
  split; [| split; [| split]].
  - intros deny Hdeny. destruct r; cbn [handle].
    + unfold versions. by rewrite Hdeny.
    + unfold jobdefinitions. by rewrite Hdeny.
    + unfold execute_job. by rewrite Hdeny.
    + unfold job_status. by rewrite Hdeny.
    + unfold job_details. by rewrite Hdeny.
  - intros Hmode. unfold require_auth. by rewrite Hmode.
  - intros Hmode. unfold require_auth. by rewrite Hmode.
  - intros H401 H403. unfold require_auth.
    rewrite (proj2 (String.eqb_neq _ _) H401), (proj2 (String.eqb_neq _ _) H403). done.
Qed.

(** X5.  In a well-formed store and past the authorization gate, the
    status route and the details route agree on which jobs exist: both
    answer 404 "Job not found" for an id that has no record, without
    changing the store, and neither answers 404 for an id that has one. *)
Theorem not_found_exactly_for_unknown_jobs st now h app id q :
  store_ok st -> require_auth h = None ->
  (JOBS st !! id = None ->
     job_status st now h app id = (st, Reply (Message "Job not found") 404) /\
     job_details st h app id q = Reply (Message "Job not found") 404) /\
  (is_Some (JOBS st !! id) ->
     reply_code (snd (job_status st now h app id)) = Some 200 /\
     reply_code (job_details st h app id q) <> Some 404).
Proof.
  intros Hok Hauth. split.
  - intros Hnone. split.
    + unfold job_status. by rewrite Hauth, Hnone.
    + unfold job_details. rewrite Hauth.
      destruct (JOB_DETAILS st !! id) as [log |] eqn:Hlog; [| done].
      destruct (proj2 (logs_paired _ Hok id)) as [job Hjob]; [by eexists |].
      congruence.
  - intros [job Hjob]. split.
    + destruct (proj1 (logs_paired _ Hok id)) as [log Hlog]; [by eexists |].
      destruct (Invariant.status_cases _ (jobs_ok _ Hok _ _ Hjob)) as [Hrun | Hterm].
      * destruct (Invariant.poll_running_shape st now h app id job log)
          as (job' & log' & -> & _); try done. by apply (jobs_ok _ Hok id).
      * by rewrite (Polling.poll_terminal st now h app id job).
    + destruct (proj1 (logs_paired _ Hok id)) as [log Hlog]; [by eexists |].
      unfold job_details. rewrite Hauth, Hlog. by repeat case_match.
Qed.

End WithRuntime.

Lemma nothing_is_removed_witness :
  exists log',
    JOB_DETAILS (fst (handle (H := plain_runtime) Samples.one_job Samples.noon
                        Samples.no_signals Samples.poll)) !! Samples.first_id
      = Some log' /\
    Samples.first_log `prefix_of` log'.
Proof.
  destruct (nothing_is_removed (H := plain_runtime) Samples.one_job Samples.noon
              Samples.no_signals Samples.poll Samples.first_id) as [_ Hlogs].
  destruct (Hlogs Samples.first_log eq_refl) as (log' & Hlog & Hgrow).
  exists log'. split; [exact Hlog |]. apply Hgrow. intros [].
Defined.

Lemma gate_blocks_every_route_witness :
  handle (H := plain_runtime) Samples.one_job Samples.noon
    {| X_Auth_Mode := Some "Failure403"; X_RateLimit := None; X_Fail_Job := None |}
    Samples.poll
  = (Samples.one_job, Reply (Message "Forbidden (simulated)") 403).
Proof.
  apply (gate_blocks_every_route (H := plain_runtime) Samples.one_job Samples.noon
           {| X_Auth_Mode := Some "Failure403"; X_RateLimit := None; X_Fail_Job := None |}
           Samples.poll).
  reflexivity.
Defined.

Lemma not_found_exactly_for_unknown_jobs_witness :
  job_details (H := plain_runtime) Samples.one_job Samples.no_signals "Vision" "42"
    {| q_offset := None; q_limit := None |}
  = Reply (Message "Job not found") 404.
Proof.
  apply (not_found_exactly_for_unknown_jobs (H := plain_runtime) Samples.one_job
           Samples.noon Samples.no_signals "Vision" "42"
           {| q_offset := None; q_limit := None |}); [| reflexivity | reflexivity].
  exact (Invariant.handle_store_ok (H := plain_runtime) empty_store Samples.noon
           Samples.no_signals Samples.submit Invariant.empty_store_ok).
Defined.

End Lifecycle.

(** ** Reading the log page by page *)

Module Pages.
Import Simulator Spec Reading.

(** With a non-negative offset and limit, the slice skips [offset] entries
    and keeps at most [limit]. *)
Lemma py_slice_take_drop {A : Type} (l : list A) offset limit :
  0 <= offset -> 0 <= limit ->
  py_slice l offset (offset + limit) = take (Z.to_nat limit) (drop (Z.to_nat offset) l).
Proof.
  intros Hoff Hlim. rewrite Paging.py_slice_spec_page by lia.
  unfold spec_page. rewrite Paging.entries_between_take_drop.
  f_equal; [| f_equal]; lia.
Qed.

Section WithRuntime.
Context `{PyRuntime}.

(** X6.  For an existing job and requests past the authorization gate,
    with a non-negative offset and non-negative limits: the page at
    [offset] of [limit1] entries followed by the page at
    [offset + limit1] of [limit2] entries is the page at [offset] of
    [limit1 + limit2] entries, so consecutive pages neither skip nor
    repeat an entry. *)
Theorem consecutive_pages_join st h app id items q1 q2 q offset limit1 limit2 :
  require_auth h = None -> JOB_DETAILS st !! id = Some items ->
  int_arg (q_offset q1) 0 = inr offset -> int_arg (q_limit q1) 200 = inr limit1 ->
  int_arg (q_offset q2) 0 = inr (offset + limit1) -> int_arg (q_limit q2) 200 = inr limit2 ->
  int_arg (q_offset q) 0 = inr offset -> int_arg (q_limit q) 200 = inr (limit1 + limit2) ->
  0 <= offset -> 0 <= limit1 -> 0 <= limit2 ->
  (page_of (job_details st h app id q1) ++ page_of (job_details st h app id q2))%list
    = page_of (job_details st h app id q).
Proof.
  intros Hauth Hitems Ho1 Hl1 Ho2 Hl2 Ho Hl Hoff Hlim1 Hlim2.
  rewrite (Paging.job_details_page st h app id items q1 offset limit1) by done.
  rewrite (Paging.job_details_page st h app id items q2 (offset + limit1) limit2) by done.
  rewrite (Paging.job_details_page st h app id items q offset (limit1 + limit2)) by done.
  cbn [page_of]. rewrite !py_slice_take_drop by lia.
  replace (Z.to_nat (limit1 + limit2)) with (Z.to_nat limit1 + Z.to_nat limit2)%nat by lia.
  replace (Z.to_nat (offset + limit1)) with (Z.to_nat offset + Z.to_nat limit1)%nat by lia.
  rewrite <- drop_drop.
  generalize (drop (Z.to_nat offset) items). intros l.
  rewrite <- (take_drop (Z.to_nat limit1) (take (Z.to_nat limit1 + Z.to_nat limit2) l)).
  rewrite take_take, Nat.min_l by lia. f_equal.
  by rewrite take_drop_commute.
Qed.

(** X7.  For an existing job and a request past the authorization gate,
    with a non-negative offset and limit: the page never holds more than
    [limit] entries; when [hasMore] is true it holds exactly [limit]
    entries and entries remain after it; when [hasMore] is false it holds
    every entry from [offset] to the end of the log. *)
Theorem has_more_tells_the_rest st h app id items q offset limit :
  require_auth h = None -> JOB_DETAILS st !! id = Some items ->
  int_arg (q_offset q) 0 = inr offset -> int_arg (q_limit q) 200 = inr limit ->
  0 <= offset -> 0 <= limit ->
  let r := job_details st h app id q in
  Z.of_nat (length (page_of r)) <= limit /\
  (has_more_of r = true ->
     Z.of_nat (length (page_of r)) = limit /\
     offset + limit < Z.of_nat (length items)) /\
  (has_more_of r = false -> page_of r = drop (Z.to_nat offset) items).
Proof.
  intros Hauth Hitems Ho Hl Hoff Hlim r. subst r.
  rewrite (Paging.job_details_page st h app id items q offset limit) by done.
  cbn [page_of has_more_of]. rewrite py_slice_take_drop by lia.
  rewrite length_take, length_drop. split; [lia |]. split.
  - intros Hmore. apply Z.ltb_lt in Hmore. lia.
  - intros Hmore. apply Z.ltb_ge in Hmore. apply take_ge. rewrite length_drop. lia.
Qed.

End WithRuntime.

Lemma consecutive_pages_join_witness :
  (page_of (job_details (H := plain_runtime) Samples.one_job Samples.no_signals "Vision"
              Samples.first_id {| q_offset := Some "0"; q_limit := Some "1" |})
   ++ page_of (job_details (H := plain_runtime) Samples.one_job Samples.no_signals "Vision"
                 Samples.first_id {| q_offset := Some "1"; q_limit := Some "1" |}))%list
  = page_of (job_details (H := plain_runtime) Samples.one_job Samples.no_signals "Vision"
               Samples.first_id {| q_offset := None; q_limit := Some "2" |}).
Proof.
  apply (consecutive_pages_join (H := plain_runtime) Samples.one_job Samples.no_signals
           "Vision" Samples.first_id Samples.first_log _ _ _ 0 1 1);
    (reflexivity || lia).
Defined.

Lemma has_more_tells_the_rest_witness :
  Z.of_nat (length (page_of
     (job_details (H := plain_runtime) Samples.one_job Samples.no_signals "Vision"
        Samples.first_id {| q_offset := Some "0"; q_limit := Some "1" |}))) <= 1.
Proof.
  apply (has_more_tells_the_rest (H := plain_runtime) Samples.one_job Samples.no_signals
           "Vision" Samples.first_id Samples.first_log
           {| q_offset := Some "0"; q_limit := Some "1" |} 0 1);
    (reflexivity || lia).
Defined.

End Pages.

(** ** Compacting the replies of the simulator *)

Module Compaction.
Import Simulator Gateway Wire.

Lemma pick_all_entries (entries : list LogEntry) :
  pick_all ["severity"; "type"; "row"; "message"] (map entry_json entries)
    = inr (map entry_json entries).
Proof.
  induction entries as [| e rest IH]; [done |].
  cbn [map pick_all]. rewrite IH. reflexivity.
Qed.

Lemma pick_all_definitions (defs : list JobDefinition) :
  pick_all ["jobType"; "jobName"; "description"] (map definition_json defs)
    = inr (map definition_json defs).
Proof.
  induction defs as [| d rest IH]; [done |].
  cbn [map pick_all]. rewrite IH. reflexivity.
Qed.

Lemma or_empty_list (l : list json) : py_iter (py_or (JArr l) (JArr [])) = inr l.
Proof. by destruct l. Qed.

Lemma compact_details_document entries offset limit count more :
  compact_job_details (to_json (Details entries offset limit count more))
    = inr [("count", JNum (Z.of_nat (length entries)));
           ("items", JArr (map entry_json entries));
           ("hasMore", JBool more)].
Proof.
  unfold compact_job_details, compacted.
  cbn [to_json dict_get dict_get_default dict_lookup String.eqb Ascii.eqb Bool.eqb].
  rewrite or_empty_list, pick_all_entries. by rewrite length_map.
Qed.

Lemma compact_definitions_document defs app :
  compact_job_defs (to_json (Definitions defs app))
    = inr [("count", JNum (Z.of_nat (length defs)));
           ("jobDefinitions", JArr (map definition_json defs))].
Proof.
  unfold compact_job_defs, compacted.
  cbn [to_json dict_get dict_get_default dict_lookup String.eqb Ascii.eqb Bool.eqb].
  rewrite or_empty_list, pick_all_definitions. by rewrite length_map.
Qed.

(** X8.  Compaction loses nothing of a page of log entries or of the
    catalog: on the details document of the simulator it returns the same
    entries in the same order, their number as [count] and the [hasMore]
    of the document; on the job-definitions document it returns the same
    definitions in the same order and their number as [count], leaving
    out only the application name. *)
Theorem compaction_keeps_lists :
  (forall entries offset limit count more,
     compact_job_details (to_json (Details entries offset limit count more))
       = inr [("count", JNum (Z.of_nat (length entries)));
              ("items", JArr (map entry_json entries));
              ("hasMore", JBool more)]) /\
  (forall defs app,
     compact_job_defs (to_json (Definitions defs app))
       = inr [("count", JNum (Z.of_nat (length defs)));
              ("jobDefinitions", JArr (map definition_json defs))]).
Proof.
  split; [apply compact_details_document | apply compact_definitions_document].
Qed.

End Compaction.

(** ** What every tool of the stdio gateway does *)

Module Tools.
Import Http Gateway Anatomy.

Lemma pbcs_request_answer cfg method path params body t calls :
  pbcs_request cfg method path params body t calls
    = (inr (answer_of cfg path (t (outgoing cfg method path params body))),
       (calls ++ [outgoing cfg method path params body])%list).
Proof. by rewrite Remote.pbcs_request_result. Qed.

Section WithRuntime.
Context `{PyRuntime}.

Lemma rest_path_under_rest v app tail : under_rest (rest_path v app tail).
Proof. by eexists. Qed.

Lemma root_under_rest : under_rest "/HyperionPlanning/rest/".
Proof. by exists "". Qed.

Ltac open_tool :=
  unfold tool_discover_versions, tool_list_job_definitions, tool_execute_job,
    tool_get_job_status, tool_get_job_details, mbind, io_bind, lift, mret, io_ret.

Ltac split_step :=
  match goal with
  | |- context [pbcs_request ?c ?m ?p ?ps ?b ?t ?calls] =>
      rewrite (pbcs_request_answer c m p ps b t calls)
  | |- context [match ?x with _ => _ end] =>
      lazymatch x with
      | context [pbcs_request] => fail
      | _ => destruct x eqn:?
      end
  end.

Lemma check_refusal cfg args refusal :
  check_client_key cfg args = inr (Some refusal) -> refusal = unauthorized_client.
Proof. unfold check_client_key. repeat case_match; congruence. Qed.

Lemma tool_anatomy cfg args name fn t calls :
  In (name, fn) TOOLS -> tool_run cfg t calls (fn cfg args t calls).
Proof.
  intros Hin. cbn in Hin.
  repeat (destruct Hin as [[= <- <-] | Hin]); [.. | done]; open_tool;
    repeat split_step.
  all: try (by constructor).
  all: try match goal with
           | Hc : check_client_key _ _ = inr (Some _) |- _ =>
               apply check_refusal in Hc; subst; by constructor
           end.
  all: try match goal with
           | Hb : negb (is_ok _) = false |- _ => apply negb_false_iff in Hb
           end.
  all: (apply relayed || eapply compacted || eapply choked);
    first [apply root_under_rest | apply rest_path_under_rest | by auto].
Qed.

(** X9.  A tool of the stdio gateway makes no remote call or exactly
    one.  The one call goes to the configured base address followed by a
    path under [/HyperionPlanning/rest/], with the method GET or POST, the
    headers of the configuration (the two JSON headers and the simulation
    headers that are set), a timeout of 30 seconds and the configured
    certificate check. *)
Theorem tools_call_once_under_rest cfg args name fn t :
  In (name, fn) TOOLS ->
  let calls := snd (run (fn cfg args) t) in
  calls = [] \/
  exists rq rest,
    calls = [rq] /\
    url rq = base_url cfg +:+ "/HyperionPlanning/rest/" +:+ rest /\
    (method rq = "GET" \/ method rq = "POST") /\
    req_headers rq = request_headers cfg /\
    timeout rq = 30 /\ verify rq = Some (verify_ssl cfg).
Proof.
  intros Hin. cbn zeta. unfold run.
  destruct (tool_anatomy cfg args name fn t [] Hin)
    as [e | | text | m path ps b [rest ->] Hm | m path ps b fields [rest ->] Hm rq _
        | m path ps b e [rest ->] Hm rq _];
    [by left | by left | by left | right | right | right];
    eexists _, rest; cbn [snd app];
    (split; [reflexivity |]); cbn [outgoing url method req_headers timeout verify];
    (split; [reflexivity |]); (split; [| done]);
    destruct Hm as [-> | ->]; auto.
Qed.

Lemma answer_shape cfg path o :
  exists kv b,
    answer_of cfg path o = JObj kv /\ dict_get kv "ok" = JBool b /\
    (b = false -> exists code, dict_get kv "error" = JStr code /\ In code error_codes).
Proof.
  unfold answer_of. destruct o as [r | e]; [destruct (json_or_empty r) as [e | payload];
    [| destruct (300 <=? status_code r)] |].
  - eexists _, false. split; [reflexivity |]. split; [reflexivity |].
    intros _. exists "NETWORK_OR_PARSE_ERROR". split; [reflexivity | cbn; tauto].
  - eexists _, false. split; [reflexivity |]. split; [reflexivity |].
    intros _. exists "HTTP_ERROR". split; [reflexivity | cbn; tauto].
  - eexists _, true. split; [reflexivity |]. split; [reflexivity |]. intros [=].
  - eexists _, false. split; [reflexivity |]. split; [reflexivity |].
    intros _. exists "NETWORK_OR_PARSE_ERROR". split; [reflexivity | cbn; tauto].
Qed.

(** X10.  Whatever a tool of the stdio gateway returns is a dictionary
    whose [ok] is a boolean.  When [ok] is false the dictionary names its
    [error], one of UNAUTHORIZED_CLIENT, BAD_ARGUMENTS,
    NETWORK_OR_PARSE_ERROR and HTTP_ERROR; and a tool that made no remote
    call never returns [ok] true. *)
Theorem tool_results_carry_ok cfg args name fn t res calls :
  In (name, fn) TOOLS ->
  run (fn cfg args) t = (inr res, calls) ->
  exists kv b,
    res = JObj kv /\ dict_get kv "ok" = JBool b /\
    (b = false -> exists code, dict_get kv "error" = JStr code /\ In code error_codes) /\
    (calls = [] -> b = false).
Proof.
  intros Hin Hrun. unfold run in Hrun.
  pose proof (tool_anatomy cfg args name fn t [] Hin) as Hshape.
  rewrite Hrun in Hshape. inversion Hshape; subst.
  - eexists _, false. split; [reflexivity |]. split; [reflexivity |].
    split; [| done]. intros _. exists "UNAUTHORIZED_CLIENT". split; [reflexivity | cbn; tauto].
  - eexists _, false. split; [reflexivity |]. split; [reflexivity |].
    split; [| done]. intros _. exists "BAD_ARGUMENTS". split; [reflexivity | cbn; tauto].
  - destruct (answer_shape cfg path (t rq)) as (kv & b & -> & Hok & Herror).
    exists kv, b. split; [done |]. split; [done |]. split; [done |].
    intros [=].
  - eexists _, true. split; [reflexivity |]. split; [reflexivity |].
    split; [done |]. intros [=].
Qed.

(** X11.  When the remote call of a tool fails in the transport, or is
    answered with a status of 300 or more and a JSON body (as the
    simulator answers a request it refuses), the tool returns the
    NETWORK_OR_PARSE_ERROR result, respectively the HTTP_ERROR result with
    that status and that body: it neither raises nor compacts. *)
Theorem failed_calls_are_relayed cfg args name fn t out rq :
  In (name, fn) TOOLS ->
  run (fn cfg args) t = (out, [rq]) ->
  (forall e, t rq = Failed e ->
     out = inr (network_or_parse_error e (url rq))) /\
  (forall code doc,
     t rq = Answered {| status_code := code; Http.body := JsonContent doc |} ->
     300 <= code -> out = inr (http_error code doc)).
Proof.
  intros Hin Hrun. unfold run in Hrun.
  pose proof (tool_anatomy cfg args name fn t [] Hin) as Hshape.
  rewrite Hrun in Hshape.
  inversion Hshape; subst;
    (split; [intros e' Ht | intros code doc Ht Hcode]);
    try (rewrite Ht; cbn; rewrite ?(proj2 (Z.leb_le _ _) Hcode); reflexivity);
    match goal with
    | Hok : is_ok _ = true |- _ =>
        rewrite Ht in Hok; cbn in Hok;
        rewrite ?(proj2 (Z.leb_le _ _) Hcode) in Hok; discriminate
    end.
Qed.


End WithRuntime.

Lemma tools_call_once_under_rest_witness :
  snd (run (tool_get_job_status (H := plain_runtime) Samples.local_cfg
              (JObj [("client_api_key", JStr "secret"); ("job_id", JStr "1767268800000")]))
         (Samples.answering 404 (JsonContent (JObj [("message", JStr "Job not found")]))))
    = [] \/
  exists rq rest,
    snd (run (tool_get_job_status (H := plain_runtime) Samples.local_cfg
                (JObj [("client_api_key", JStr "secret"); ("job_id", JStr "1767268800000")]))
           (Samples.answering 404 (JsonContent (JObj [("message", JStr "Job not found")]))))
      = [rq] /\
    url rq = "http://127.0.0.1:9010" +:+ "/HyperionPlanning/rest/" +:+ rest /\
    (method rq = "GET" \/ method rq = "POST") /\
    req_headers rq = request_headers Samples.local_cfg /\
    timeout rq = 30 /\ verify rq = Some true.
Proof.
  apply (tools_call_once_under_rest (H := plain_runtime) Samples.local_cfg _
           "planning_get_job_status" (tool_get_job_status (H := plain_runtime))).
  do 3 right. left. reflexivity.
Defined.

Lemma tool_results_carry_ok_witness :
  exists kv b,
    JObj [("ok", JBool false); ("error", JStr "HTTP_ERROR"); ("status_code", JNum 404);
          ("response", JObj [("message", JStr "Job not found")])] = JObj kv /\
    dict_get kv "ok" = JBool b.
Proof.
  destruct (tool_results_carry_ok (H := plain_runtime) Samples.local_cfg
              (JObj [("client_api_key", JStr "secret"); ("job_id", JStr "1767268800000")])
              "planning_get_job_status" (tool_get_job_status (H := plain_runtime))
              (Samples.answering 404 (JsonContent (JObj [("message", JStr "Job not found")])))
              (JObj [("ok", JBool false); ("error", JStr "HTTP_ERROR");
                     ("status_code", JNum 404);
                     ("response", JObj [("message", JStr "Job not found")])])
              [outgoing Samples.local_cfg "GET"
                 "/HyperionPlanning/rest/v3/applications/Vision/jobs/1767268800000"
                 None None])
    as (kv & b & Hres & Hok & _); [do 3 right; left; reflexivity | vm_compute; reflexivity |].
  by exists kv, b.
Defined.

Lemma failed_calls_are_relayed_witness :
  inr (JObj [("ok", JBool false); ("error", JStr "HTTP_ERROR"); ("status_code", JNum 404);
             ("response", JObj [("message", JStr "Job not found")])])
  = (inr (http_error 404 (JObj [("message", JStr "Job not found")])) : exn + json).
Proof.
  apply (failed_calls_are_relayed (H := plain_runtime) Samples.local_cfg
           (JObj [("client_api_key", JStr "secret"); ("job_id", JStr "1767268800000")])
           "planning_get_job_status" (tool_get_job_status (H := plain_runtime))
           (Samples.answering 404 (JsonContent (JObj [("message", JStr "Job not found")])))
           _
           (outgoing Samples.local_cfg "GET"
              "/HyperionPlanning/rest/v3/applications/Vision/jobs/1767268800000"
              None None));
    [do 3 right; left; reflexivity | vm_compute; reflexivity | reflexivity | lia].
Defined.


End Tools.

(** ** The gateway in front of the simulator *)

Module EndToEnd.
Import Http Gateway Simulator Spec Wire Served.

Lemma job_document_status job :
  status job <> "" ->
  compact_job_status (job_json job)
    = inr [("status", JStr (status job));
           ("percentComplete", JNum (percentComplete job));
           ("startTime", JStr (startTime job));
           ("endTime", end_time_json job);
           ("jobType", jobType job);
           ("jobName", jobName job)].
Proof.
  intros Hstatus. unfold compact_job_status, job_json, end_time_json, py_or.
  destruct (endTime job); cbn; by rewrite (proj2 (String.eqb_neq _ _) Hstatus).
Qed.

Lemma known_status_not_empty job : job_ok job -> status job <> "".
Proof. intros [_ [Hs | [Hs | Hs]] _ _]; rewrite Hs; discriminate. Qed.

Section WithRuntime.
Context `{PyRuntime}.

(** The status tool on a transport that always gives the same answer. *)
Lemma status_tool_answered cfg kv jid doc code :
  check_client_key cfg (JObj kv) = inr None ->
  dict_get kv "job_id" = JStr jid -> jid <> "" ->
  fst (run (tool_get_job_status cfg (JObj kv))
         (fun _ => Answered {| status_code := code; Http.body := JsonContent doc |}))
    = if 300 <=? code then inr (Gateway.http_error code doc)
      else match compact_job_status doc with
           | inl e => inl e
           | inr fields => inr (JObj (("ok", JBool true) :: ("jobId", JStr jid) :: fields))
           end.
Proof.
  intros Hcheck Hid Hjid. unfold run, tool_get_job_status, mbind, io_bind, lift, mret, io_ret.
  rewrite Hcheck. cbn [arg_or get]. rewrite Hid.
  cbn [truthy negb]. rewrite (proj2 (String.eqb_neq _ _) Hjid). cbn [negb].
  rewrite Tools.pbcs_request_answer. cbn [Anatomy.answer_of json_or_empty Http.body status_code].
  destruct (300 <=? code); [reflexivity |].
  cbn [is_ok Gateway.http_ok dict_get dict_get_default dict_lookup String.eqb Ascii.eqb Bool.eqb
       truthy negb response_of].
  by destruct (compact_job_status doc).
Qed.

(** X13.  [planning_get_job_status] in front of the simulator: when the
    transport brings back the reply of the status handler to a poll that
    passes the authorization gate of a well-formed store, the tool
    returns, for an unknown job, the HTTP_ERROR result with status 404 and
    the "Job not found" message, and for a known job [ok] with the
    [jobId] it was called with and the status, progress, times, type and
    name of the record that is in the store after the poll. *)
Theorem status_tool_reports_the_poll cfg kv jid st now h app :
  store_ok st -> require_auth h = None ->
  check_client_key cfg (JObj kv) = inr None ->
  dict_get kv "job_id" = JStr jid -> jid <> "" ->
  exists body code,
    snd (job_status st now h app jid) = Reply body code /\
    let result := fst (run (tool_get_job_status cfg (JObj kv)) (serving body code)) in
    (JOBS st !! jid = None ->
       result = inr (Gateway.http_error 404 (JObj [("message", JStr "Job not found")]))) /\
    (is_Some (JOBS st !! jid) ->
       exists job',
         JOBS (fst (job_status st now h app jid)) !! jid = Some job' /\
         result = inr (status_result (JStr jid) job')).
Proof.
  intros Hok Hauth Hcheck Hid Hjid.
  destruct (JOBS st !! jid) as [job |] eqn:Hjob.
  - assert (exists job',
              job_status st now h app jid
                = (fst (job_status st now h app jid), Reply (JobRecord job') 200) /\
              JOBS (fst (job_status st now h app jid)) !! jid = Some job')
      as (job' & Hreply & Hstored).
    { pose proof (jobs_ok _ Hok _ _ Hjob) as Hjok.
      destruct (Invariant.status_cases _ Hjok) as [Hrun | Hterm].
      - destruct (proj1 (logs_paired _ Hok jid)) as [log Hlog]; [by eexists |].
        destruct (Invariant.poll_running_shape st now h app jid job log)
          as (job' & log' & -> & _); try done.
        exists job'. cbn. by rewrite lookup_insert_eq.
      - exists job. rewrite (Polling.poll_terminal st now h app jid job) by done.
        by cbn. }
    exists (JobRecord job'), 200. rewrite Hreply at 1. split; [done |].
    cbn zeta. split; [done |]. intros _. exists job'. split; [done |].
    unfold serving, response_of_reply. rewrite (status_tool_answered cfg kv jid) by done.
    cbn [Z.leb Z.compare Pos.compare Pos.compare_cont to_json].
    rewrite job_document_status; [done |].
    apply known_status_not_empty.
    by apply (jobs_ok _ (proj1 (Invariant.job_status_effect st now h app jid Hok)) jid).
  - exists (Message "Job not found"), 404. split.
    { unfold job_status. by rewrite Hauth, Hjob. }
    cbn zeta. split; [| by intros [? [=]]]. intros _.
    unfold serving, response_of_reply. by rewrite (status_tool_answered cfg kv jid).
Qed.

Lemma py_or_idem v w : py_or (py_or v w) w = py_or v w.
Proof. unfold py_or. destruct (truthy v) eqn:Hv; [by rewrite Hv | by destruct (truthy w)]. Qed.

Lemma non_empty_truthy s : s <> "" -> truthy (JStr s) = true.
Proof. intros Hs. cbn. by rewrite (proj2 (String.eqb_neq _ _) Hs). Qed.

(** X14.  [planning_execute_job] in front of the simulator: with both
    names non-empty and no simulated refusal, the body the tool posts is
    accepted by the submission handler, which stores a RUNNING job with
    the type, the name and the parameters of the call ([{}] when none
    were given); and on the handler's reply the tool returns [ok] with that
    job's id and the status RUNNING, after exactly one POST carrying that
    body. *)
Theorem execute_tool_submits cfg kv jt jn st now h app :
  require_auth h = None -> rate_limited h = false ->
  check_client_key cfg (JObj kv) = inr None ->
  dict_get kv "job_type" = JStr jt -> jt <> "" ->
  dict_get kv "job_name" = JStr jn -> jn <> "" ->
  let id := pretty (time_ms now) in
  let st' := fst (execute_job st now h app (posted_body kv)) in
  exists body,
    snd (execute_job st now h app (posted_body kv)) = Reply body 201 /\
    (exists job,
       JOBS st' !! id = Some job /\ status job = "RUNNING" /\
       jobType job = JStr jt /\ jobName job = JStr jn /\
       parameters job = py_or (dict_get kv "parameters") (JObj [])) /\
    fst (run (tool_execute_job cfg (JObj kv)) (serving body 201))
      = inr (JObj [("ok", JBool true); ("jobId", JStr id); ("status", JStr "RUNNING")]) /\
    exists rq,
      snd (run (tool_execute_job cfg (JObj kv)) (serving body 201)) = [rq] /\
      method rq = "POST" /\ data rq = Some (posted_body kv).
Proof.
  intros Hauth Hrate Hcheck Htype Hjt Hname Hjn id st'. subst st'.
  assert (execute_job st now h app (posted_body kv)
          = ({| JOBS := <[id := new_job id (JStr jt) (JStr jn) now app
                                  (py_or (dict_get kv "parameters") (JObj []))]> (JOBS st);
                JOB_DETAILS := <[id := initial_log (JStr jt) (JStr jn)
                                         (py_or (dict_get kv "parameters") (JObj []))]>
                                 (JOB_DETAILS st) |},
             Reply (Submitted id "RUNNING" "RUNNING") 201)) as ->.
  { unfold execute_job, posted_body. rewrite Hauth, Htype, Hname.
    cbn [py_or truthy dict_get dict_get_default dict_lookup String.eqb Ascii.eqb Bool.eqb].
    rewrite (proj2 (String.eqb_neq _ _) Hjt), (proj2 (String.eqb_neq _ _) Hjn).
    cbn [negb orb]. rewrite Hrate.
    fold (py_or (dict_get kv "parameters") (JObj [])). by rewrite py_or_idem. }
  eexists. split; [reflexivity |]. cbn [fst JOBS]. split.
  { eexists. rewrite lookup_insert_eq. split; [done |]. by cbn. }
  unfold run, tool_execute_job, mbind, io_bind, lift, mret, io_ret.
  rewrite Hcheck. cbn [arg_or get]. rewrite Htype, Hname.
  rewrite !non_empty_truthy by done. cbn [negb orb].
  rewrite Tools.pbcs_request_answer. unfold serving, response_of_reply.
  cbn [Anatomy.answer_of json_or_empty Http.body status_code].
  cbn [Z.leb Z.compare Pos.compare Pos.compare_cont].
  cbn [is_ok Gateway.http_ok dict_get dict_get_default dict_lookup String.eqb Ascii.eqb Bool.eqb
       truthy negb response_of to_json compact_job_submit py_or fst snd List.app].
  split; [reflexivity |]. eexists. split; [reflexivity |].
  unfold posted_body. rewrite Htype, Hname. split; reflexivity.
Qed.

(** X15.  [planning_get_job_details] in front of the simulator: when the
    details handler reads from the query the offset and the limit the
    tool sends, for a job that has a log and past the authorization gate,
    the tool returns [ok] with the [jobId], the offset and the limit of
    the call, and as [items] exactly the slice
    [log[offset : offset + limit]] of the stored log, entry for entry,
    with its length as [count] and the handler's [hasMore]. *)
Theorem details_tool_returns_the_page cfg kv jid offset limit st h app q log :
  require_auth h = None -> JOB_DETAILS st !! jid = Some log ->
  int_arg (q_offset q) 0 = inr offset -> int_arg (q_limit q) 200 = inr limit ->
  check_client_key cfg (JObj kv) = inr None ->
  dict_get kv "job_id" = JStr jid -> jid <> "" ->
  py_int (dict_get_default kv "offset" (JNum 0)) = inr offset ->
  py_int (dict_get_default kv "limit" (JNum 200)) = inr limit ->
  let page := py_slice log offset (offset + limit) in
  exists body,
    job_details st h app jid q = Reply body 200 /\
    fst (run (tool_get_job_details cfg (JObj kv)) (serving body 200))
      = inr (JObj [("ok", JBool true); ("jobId", JStr jid);
                   ("offset", JNum offset); ("limit", JNum limit);
                   ("count", JNum (Z.of_nat (length page)));
                   ("items", JArr (map entry_json page));
                   ("hasMore", JBool (offset + limit <? Z.of_nat (length log)))]).
Proof.
  intros Hauth Hlog Hqo Hql Hcheck Hid Hjid Hoff Hlim page.
  rewrite (Paging.job_details_page st h app jid log q offset limit) by done.
  eexists. split; [reflexivity |].
  unfold run, tool_get_job_details, mbind, io_bind, lift, mret, io_ret.
  rewrite Hcheck. cbn [arg_or get get_default]. rewrite Hid, Hoff, Hlim.
  rewrite non_empty_truthy by done. cbn [negb].
  rewrite Tools.pbcs_request_answer. unfold serving, response_of_reply.
  cbn [Anatomy.answer_of json_or_empty Http.body status_code].
  cbn [Z.leb Z.compare Pos.compare Pos.compare_cont].
  cbn [is_ok Gateway.http_ok dict_get dict_get_default dict_lookup String.eqb Ascii.eqb Bool.eqb
       truthy negb response_of fst].
  by rewrite Compaction.compact_details_document.
Qed.

(** X16.  [planning_list_job_definitions] in front of the simulator:
    past the authorization gate and the credential check, on the reply of
    the job-definitions handler the tool returns [ok] with the four
    definitions of the catalog, in the order of the catalog, and 4 as
    [count]. *)
Theorem list_tool_returns_the_catalog cfg kv h appname :
  require_auth h = None ->
  check_client_key cfg (JObj kv) = inr None ->
  exists body,
    jobdefinitions h appname = Reply body 200 /\
    fst (run (tool_list_job_definitions cfg (JObj kv)) (serving body 200))
      = inr (JObj [("ok", JBool true); ("count", JNum 4);
                   ("jobDefinitions", JArr (map definition_json JOB_DEFS))]).
Proof.
  intros Hauth Hcheck. unfold jobdefinitions. rewrite Hauth.
  eexists. split; [reflexivity |].
  unfold run, tool_list_job_definitions, mbind, io_bind, lift, mret, io_ret.
  rewrite Hcheck. cbn [arg_or get].
  rewrite Tools.pbcs_request_answer. unfold serving, response_of_reply.
  cbn [Anatomy.answer_of json_or_empty Http.body status_code].
  cbn [Z.leb Z.compare Pos.compare Pos.compare_cont].
  cbn [is_ok Gateway.http_ok dict_get dict_get_default dict_lookup String.eqb Ascii.eqb Bool.eqb
       truthy negb response_of fst].
  by rewrite Compaction.compact_definitions_document.
Qed.

End WithRuntime.

Lemma status_tool_reports_the_poll_witness :
  exists body code,
    snd (job_status Samples.one_job Samples.noon Samples.no_signals "Vision" Samples.first_id)
      = Reply body code /\
    fst (run (tool_get_job_status (H := plain_runtime) Samples.local_cfg
                (JObj [("client_api_key", JStr "secret");
                       ("job_id", JStr Samples.first_id)]))
           (serving body code))
      = inr (status_result (JStr Samples.first_id) (set_progress Samples.first_job 35)).
Proof.
  destruct (status_tool_reports_the_poll (H := plain_runtime) Samples.local_cfg
              [("client_api_key", JStr "secret"); ("job_id", JStr Samples.first_id)]
              Samples.first_id Samples.one_job Samples.noon Samples.no_signals "Vision")
    as (body & code & Hreply & _ & Hknown);
    [exact (Invariant.handle_store_ok (H := plain_runtime) empty_store Samples.noon
              Samples.no_signals Samples.submit Invariant.empty_store_ok)
    | reflexivity | reflexivity | reflexivity | discriminate |].
  exists body, code. split; [exact Hreply |].
  destruct Hknown as (job' & Hstored & Hresult); [by eexists |].
  rewrite Hresult. f_equal. f_equal.
  vm_compute in Hstored. by injection Hstored as <-.
Defined.

Lemma execute_tool_submits_witness :
  exists body,
    snd (execute_job (H := plain_runtime) empty_store Samples.noon Samples.no_signals "Vision"
           (posted_body [("job_type", JStr "RULES"); ("job_name", JStr "RollupUSSales")]))
      = Reply body 201 /\
    fst (run (tool_execute_job (H := plain_runtime) (without_key Samples.local_cfg)
                (JObj [("job_type", JStr "RULES"); ("job_name", JStr "RollupUSSales")]))
           (serving body 201))
      = inr (JObj [("ok", JBool true); ("jobId", JStr "1767268800000");
                   ("status", JStr "RUNNING")]).
Proof.
  destruct (execute_tool_submits (H := plain_runtime) (without_key Samples.local_cfg)
              [("job_type", JStr "RULES"); ("job_name", JStr "RollupUSSales")]
              "RULES" "RollupUSSales" empty_store Samples.noon Samples.no_signals "Vision")
    as (body & Hreply & _ & Hresult & _);
    [reflexivity | reflexivity | reflexivity | reflexivity | discriminate
    | reflexivity | discriminate |].
  exists body. split; [exact Hreply | exact Hresult].
Defined.

Lemma details_tool_returns_the_page_witness :
  exists body,
    job_details (H := plain_runtime) Samples.one_job Samples.no_signals "Vision"
      Samples.first_id {| q_offset := Some "1"; q_limit := Some "5" |} = Reply body 200 /\
    fst (run (tool_get_job_details (H := plain_runtime) (without_key Samples.local_cfg)
                (JObj [("job_id", JStr Samples.first_id); ("offset", JNum 1);
                       ("limit", JStr "5")]))
           (serving body 200))
      = inr (JObj [("ok", JBool true); ("jobId", JStr Samples.first_id);
                   ("offset", JNum 1); ("limit", JNum 5); ("count", JNum 1);
                   ("items",
                    JArr [entry_json (log_message "INFO" "jobType=RULES parameters={}")]);
                   ("hasMore", JBool false)]).
Proof.
  destruct (details_tool_returns_the_page (H := plain_runtime)
              (without_key Samples.local_cfg)
              [("job_id", JStr Samples.first_id); ("offset", JNum 1); ("limit", JStr "5")]
              Samples.first_id 1 5 Samples.one_job Samples.no_signals "Vision"
              {| q_offset := Some "1"; q_limit := Some "5" |} Samples.first_log)
    as (body & Hreply & Hresult);
    [reflexivity | reflexivity | reflexivity | reflexivity | reflexivity | reflexivity
    | discriminate | reflexivity | reflexivity |].
  exists body. split; [exact Hreply | exact Hresult].
Defined.

Lemma list_tool_returns_the_catalog_witness :
  exists body,
    jobdefinitions Samples.no_signals "Vision" = Reply body 200 /\
    fst (run (tool_list_job_definitions (H := plain_runtime) (without_key Samples.local_cfg)
                (JObj []))
           (serving body 200))
      = inr (JObj [("ok", JBool true); ("count", JNum 4);
                   ("jobDefinitions", JArr (map definition_json JOB_DEFS))]).
Proof.
  apply (list_tool_returns_the_catalog (H := plain_runtime) (without_key Samples.local_cfg)
           [] Samples.no_signals "Vision"); reflexivity.
Defined.

End EndToEnd.

(** ** The loop on well-framed and ill-framed requests *)

Module Loop.
Import Http Gateway Framing.

Section WithRuntime.
Context `{PyRuntime}.

Lemma find_tool_in table name fn :
  find_tool table name = Some fn -> exists name', In (name', fn) table.
Proof.
  induction table as [| [n f] rest IH]; [done |]. cbn [find_tool].
  destruct (String.eqb n name).
  - intros [= <-]. exists n. by left.
  - intros Hfind. destruct (IH Hfind) as [name' Hin]. exists name'. by right.
Qed.

(** A tool adds at most one call to the calls made so far. *)
Lemma tool_calls_grow cfg args name fn t calls :
  In (name, fn) TOOLS ->
  exists added, snd (fn cfg args t calls) = (calls ++ added)%list /\ (length added <= 1)%nat.
Proof.
  intros Hin. destruct (Tools.tool_anatomy cfg args name fn t calls Hin);
    cbn [snd];
    first [ exists []; rewrite app_nil_r; split; [reflexivity | cbn; lia]
          | eexists [_]; split; [reflexivity | cbn; lia] ].
Qed.

(** The body of the loop on a well-framed document: one message, with
    the [id] of the request, and at most one remote call. *)
Lemma framed_line cfg kv t calls :
  framed (JObj kv) = true ->
  exists msg added,
    process_line cfg (Document (JObj kv)) t calls = (inr (Some msg), (calls ++ added)%list) /\
    (length added <= 1)%nat /\
    message_id msg = dict_get kv "id" /\ is_reply msg.
Proof.
  unfold framed, process_line, mbind, io_bind, lift, mret, io_ret, try_except. cbn [get].
  destruct (differs (dict_get kv "method") "tools/call").
  { intros _. eexists _, []. rewrite app_nil_r. split; [reflexivity |].
    split; [cbn; lia |]. split; [reflexivity |]. split; [reflexivity |].
    right. by eexists. }
  destruct (py_or (dict_get kv "params") (JObj [])) as [| | | | | pkv]; try done.
  cbn [get].
  destruct (dict_get pkv "name") as [| b | z | s | l | o] eqn:Hname; try done;
    intros _; cbn [tools_get];
    [ | | | destruct (find_tool TOOLS s) as [fn |] eqn:Hfind ].
  4: { destruct (find_tool_in _ _ _ Hfind) as [name' Hin].
       destruct (tool_calls_grow cfg (py_or (dict_get pkv "arguments") (JObj [])) name' fn
                   t calls Hin) as (added & Hcalls & Hlen).
       destruct (fn cfg (py_or (dict_get pkv "arguments") (JObj [])) t calls)
         as [[e | res] calls1]; cbn [snd] in Hcalls; subst calls1;
         eexists _, added; (split; [reflexivity |]); (split; [done |]);
         (split; [reflexivity |]); (split; [reflexivity |]); left; by eexists. }
  all: eexists _, []; rewrite app_nil_r; (split; [reflexivity |]);
    (split; [cbn; lia |]); (split; [reflexivity |]); (split; [reflexivity |]);
    left; by eexists.
Qed.

(** An ill-framed document raises out of the body of the loop, before any
    remote call. *)
Lemma unframed_line cfg doc t calls :
  framed doc = false ->
  exists e, process_line cfg (Document doc) t calls = (inl e, calls).
Proof.
  destruct doc as [| | | | | kv]; try (intros _; by eexists).
  unfold framed, process_line, mbind, io_bind, lift, mret, io_ret, try_except. cbn [get].
  destruct (differs (dict_get kv "method") "tools/call"); [done |].
  destruct (py_or (dict_get kv "params") (JObj [])) as [| | | | | pkv];
    try (intros _; by eexists).
  cbn [get]. destruct (dict_get pkv "name"); try done; intros _; by eexists.
Qed.

(** X17.  The body of the loop answers a JSON document exactly when it is
    a well-framed request: an object whose [method] is not "tools/call",
    or whose [params] are an object (or null, missing, empty) with a
    [name] that is no list and no object.  Such a document gets exactly
    one JSON-RPC message, with the [id] of the request and a [result] or
    an [error], at the cost of at most one remote call, whatever the tool
    does; any other document raises out of the loop before any remote
    call. *)
Theorem loop_answers_framed_requests cfg doc t calls :
  (framed doc = true ->
     exists msg added,
       process_line cfg (Document doc) t calls = (inr (Some msg), (calls ++ added)%list) /\
       (length added <= 1)%nat /\
       (forall kv, doc = JObj kv -> message_id msg = dict_get kv "id") /\
       is_reply msg) /\
  (framed doc = false ->
     exists e, process_line cfg (Document doc) t calls = (inl e, calls)).
Proof.
  split; [| apply unframed_line].
  intros Hframed. destruct doc as [| | | | | kv]; try done.
  destruct (framed_line cfg kv t calls Hframed) as (msg & added & Hline & Hlen & Hid & Hreply).
  exists msg, added. split; [done |]. split; [done |]. split; [| done].
  by intros kv' [= <-].
Qed.

(** The loop over lines that are all answerable. *)
Lemma main_loop_answerable cfg lines t calls out :
  Forall (fun l => answerable l = true) lines ->
  exists msgs added,
    main_loop cfg lines t calls out
      = {| crashed := None; stdout := (out ++ msgs)%list;
           remote_calls := (calls ++ added)%list |} /\
    length msgs = count_requests lines /\
    (length added <= length msgs)%nat /\
    Forall is_reply msgs.
Proof.
  intros Hall. revert calls out.
  induction Hall as [| l rest Hl Hrest IH]; intros calls out.
  { exists [], []. rewrite !app_nil_r. by repeat split. }
  destruct l as [| | doc].
  - cbn [main_loop process_line mret io_ret].
    destruct (IH calls out) as (msgs & added & Hrun & Hlen & Hcalls & Hmsgs).
    by exists msgs, added.
  - cbn [main_loop process_line mret io_ret].
    destruct (IH calls (out ++ [rpc_error JNull "Invalid JSON"])%list)
      as (msgs & added & Hrun & Hlen & Hcalls & Hmsgs).
    exists (rpc_error JNull "Invalid JSON" :: msgs), added.
    rewrite Hrun, <- app_assoc. split; [done |]. cbn [length count_requests].
    split; [by rewrite Hlen |]. split; [lia |].
    constructor; [| done]. split; [done |]. right. by eexists.
  - destruct doc as [| | | | | kv]; try done.
    destruct (framed_line cfg kv t calls Hl) as (msg & added1 & Hline & Hlen1 & _ & Hreply).
    cbn [main_loop]. rewrite Hline.
    destruct (IH (calls ++ added1)%list (out ++ [msg])%list)
      as (msgs & added & Hrun & Hlen & Hcalls & Hmsgs).
    exists (msg :: msgs), (added1 ++ added)%list.
    rewrite Hrun, <- !app_assoc. split; [done |]. cbn [length count_requests].
    split; [by rewrite Hlen |]. split; [rewrite length_app; lia |].
    by constructor.
Qed.

(** Lines after lines that are all answerable. *)
Lemma main_loop_app cfg before after t calls out :
  Forall (fun l => answerable l = true) before ->
  main_loop cfg (before ++ after) t calls out
    = main_loop cfg after t (remote_calls (main_loop cfg before t calls out))
        (stdout (main_loop cfg before t calls out)).
Proof.
  intros Hall. revert calls out.
  induction Hall as [| l rest Hl Hrest IH]; intros calls out; [done |].
  destruct l as [| | doc].
  - cbn [main_loop process_line mret io_ret List.app]. apply IH.
  - cbn [main_loop process_line mret io_ret List.app]. apply IH.
  - destruct doc as [| | | | | kv]; try done.
    destruct (framed_line cfg kv t calls Hl) as (msg & added1 & Hline & _).
    cbn [main_loop List.app]. rewrite Hline. apply IH.
Qed.

(** X18.  A run of the gateway whose lines are all blank, unparsable or
    well-framed requests never ends by an exception: after the
    advertisement of the tools it writes exactly one JSON-RPC message for
    every line that is not blank, in the order of the lines, and it makes
    at most as many remote calls as it answers requests. *)
Theorem framed_runs_never_crash getenv cfg lines t :
  load_cfg getenv = inr cfg ->
  Forall (fun l => answerable l = true) lines ->
  exists msgs,
    crashed (main getenv lines t) = None /\
    stdout (main getenv lines t) = advertisement :: msgs /\
    length msgs = count_requests lines /\
    Forall is_reply msgs /\
    (length (remote_calls (main getenv lines t)) <= count_requests lines)%nat.
Proof.
  intros Hcfg Hall. unfold main. rewrite Hcfg.
  destruct (main_loop_answerable cfg lines t [] [advertisement] Hall)
    as (msgs & added & -> & Hlen & Hcalls & Hmsgs).
  exists msgs. cbn. repeat split; try done. lia.
Qed.

(** X19.  A run ends at the first line that is a JSON document but no
    well-framed request: the lines before it are answered as in a run that
    stops there, the line itself gets no message and causes no remote
    call, and the lines after it are never read. *)
Theorem first_unframed_document_ends_the_run getenv cfg before doc after t :
  load_cfg getenv = inr cfg ->
  Forall (fun l => answerable l = true) before ->
  framed doc = false ->
  exists e,
    crashed (main getenv (before ++ Document doc :: after) t) = Some e /\
    stdout (main getenv (before ++ Document doc :: after) t)
      = stdout (main getenv before t) /\
    remote_calls (main getenv (before ++ Document doc :: after) t)
      = remote_calls (main getenv before t).
Proof.
  intros Hcfg Hall Hdoc. unfold main. rewrite Hcfg.
  rewrite main_loop_app by done. cbn [main_loop].
  destruct (unframed_line cfg doc t
              (remote_calls (main_loop cfg before t [] [advertisement])) Hdoc)
    as [e Hline].
  rewrite Hline. by exists e.
Qed.

End WithRuntime.

Lemma loop_answers_framed_requests_witness :
  exists msg added,
    process_line (H := plain_runtime) Samples.local_cfg
      (Document (JObj [("id", JNum 7); ("method", JStr "tools/call");
                       ("params", JObj [("name", JStr "planning_cancel_job")])]))
      (Samples.answering 201 Samples.created) []
    = (inr (Some msg), ([] ++ added)%list) /\
    (length added <= 1)%nat.
Proof.
  destruct (loop_answers_framed_requests (H := plain_runtime) Samples.local_cfg
              (JObj [("id", JNum 7); ("method", JStr "tools/call");
                     ("params", JObj [("name", JStr "planning_cancel_job")])])
              (Samples.answering 201 Samples.created) []) as [Hframed _].
  destruct (Hframed eq_refl) as (msg & added & Hline & Hlen & _).
  by exists msg, added.
Defined.

Lemma framed_runs_never_crash_witness :
  crashed (main (H := plain_runtime) Samples.local_env
             [NotJson; Blank;
              Document (JObj [("id", JNum 7); ("method", JStr "tools/list")])]
             (Samples.answering 201 Samples.created)) = None.
Proof.
  destruct (framed_runs_never_crash (H := plain_runtime) Samples.local_env
              Samples.local_cfg
              [NotJson; Blank;
               Document (JObj [("id", JNum 7); ("method", JStr "tools/list")])]
              (Samples.answering 201 Samples.created))
    as (msgs & Hcrash & _); [reflexivity | by repeat constructor |].
  exact Hcrash.
Defined.

Lemma first_unframed_document_ends_the_run_witness :
  exists e,
    crashed (main (H := plain_runtime) Samples.local_env
               ([NotJson] ++ Document JNull :: [NotJson])
               (Samples.answering 201 Samples.created)) = Some e.
Proof.
  destruct (first_unframed_document_ends_the_run (H := plain_runtime) Samples.local_env
              Samples.local_cfg [NotJson] JNull [NotJson]
              (Samples.answering 201 Samples.created))
    as (e & Hcrash & _); [reflexivity | by repeat constructor | reflexivity |].
  by exists e.
Defined.

End Loop.

(** ** Loading the configuration *)

Module Configuration.
Import Http Settings.

Lemma rstrip_slash_split s : exists k, s = rstrip_slash s +:+ slashes k.
Proof.
  induction s as [| c rest [k IH]]; [by exists 0%nat |].
  cbn [rstrip_slash]. destruct (rstrip_slash rest) as [| c' kept] eqn:Hrest.
  - destruct (Ascii.eqb_spec c "/") as [-> | Hc].
    + exists (S k). cbn. by rewrite IH at 1.
    + exists k. cbn. by rewrite IH at 1.
  - exists k. cbn. by rewrite IH at 1.
Qed.

Lemma rstrip_slash_clean s : ends_with_slash (rstrip_slash s) = false.
Proof.
  induction s as [| c rest IH]; [done |].
  cbn [rstrip_slash]. destruct (rstrip_slash rest) as [| c' kept] eqn:Hrest.
  - destruct (Ascii.eqb_spec c "/") as [-> | Hc]; [done |].
    cbn. by apply Ascii.eqb_neq.
  - exact IH.
Qed.

Lemma rstrip_slash_of_slashes k : rstrip_slash (slashes k) = "".
Proof. induction k as [| k IH]; [done |]. cbn. by rewrite IH. Qed.

Lemma or_text_not_empty o dflt : dflt <> "" -> or_text o dflt <> "".
Proof.
  intros Hd. unfold or_text. destruct o as [s |]; [| done].
  destruct (String.eqb_spec s ""); done.
Qed.

(** X20.  [load_cfg] fails, with a RuntimeError, exactly when
    [PBCS_BASE_URL] is unset, empty or made of slashes only.  A loaded
    configuration has a base address that is not empty, does not end
    with a slash and is the value of the variable with its trailing
    slashes removed; its application and its API version are never
    empty ("Vision" and "v3" when the variables are unset or empty), and
    its certificate check is on when [PBCS_VERIFY_SSL] is unset. *)
Theorem load_cfg_normalises getenv :
  ((exists e, Gateway.load_cfg getenv = inl e)
     <-> exists k, or_empty (getenv "PBCS_BASE_URL") = slashes k) /\
  (forall e, Gateway.load_cfg getenv = inl e -> exn_class e = "RuntimeError") /\
  (forall cfg, Gateway.load_cfg getenv = inr cfg ->
     Gateway.base_url cfg <> "" /\
     ends_with_slash (Gateway.base_url cfg) = false /\
     (exists k, or_empty (getenv "PBCS_BASE_URL") = Gateway.base_url cfg +:+ slashes k) /\
     Gateway.application cfg <> "" /\ Gateway.api_version cfg <> "" /\
     (getenv "PBCS_APPLICATION" = None -> Gateway.application cfg = "Vision") /\
     (getenv "PBCS_API_VERSION" = None -> Gateway.api_version cfg = "v3") /\
     (getenv "PBCS_VERIFY_SSL" = None -> Gateway.verify_ssl cfg = true)).
Proof.
  unfold Gateway.load_cfg. cbn [Gateway.base_url].
  destruct (String.eqb_spec (rstrip_slash (or_empty (getenv "PBCS_BASE_URL"))) "")
    as [Hempty | Hfull].
  - split; [| split; [| done]].
    + split; [intros _ | by eexists].
      destruct (rstrip_slash_split (or_empty (getenv "PBCS_BASE_URL"))) as [k Hk].
      exists k. by rewrite Hempty in Hk.
    + by intros e [= <-].
  - split; [| split; [done |]].
    + split; [by intros [e [=]] |]. intros [k Hk]. destruct Hfull.
      rewrite Hk. apply rstrip_slash_of_slashes.
    + intros cfg [= <-]. cbn.
      split; [done |]. split; [apply rstrip_slash_clean |].
      split; [apply rstrip_slash_split |].
      split; [by apply or_text_not_empty |]. split; [by apply or_text_not_empty |].
      split; [by intros -> |]. split; [by intros -> |].
      unfold Gateway.env_bool. by intros ->.
Qed.

(** X21.  The two gateways read the same settings from the same
    environment: the FastMCP gateway's [cfg] fails exactly when
    [load_cfg] fails, and otherwise holds the base address, the
    application and the API version of the loaded configuration. *)
Theorem gateways_agree_on_settings getenv :
  (forall cfg, Gateway.load_cfg getenv = inr cfg ->
     FastMCP.cfg getenv
       = inr {| FastMCP.base_url := Gateway.base_url cfg;
                FastMCP.app := Gateway.application cfg;
                FastMCP.v := Gateway.api_version cfg |}) /\
  (forall e, Gateway.load_cfg getenv = inl e ->
     exists e', FastMCP.cfg getenv = inl e' /\ exn_class e' = "RuntimeError").
Proof.
  unfold Gateway.load_cfg, FastMCP.cfg. cbn [Gateway.base_url].
  destruct (String.eqb (rstrip_slash (or_empty (getenv "PBCS_BASE_URL"))) "").
  - split; [done |]. intros e _. by eexists.
  - split; [| done]. by intros cfg [= <-].
Qed.

Lemma load_cfg_normalises_witness :
  Gateway.base_url Samples.local_cfg <> "" /\
  ends_with_slash (Gateway.base_url Samples.local_cfg) = false.
Proof.
  destruct (load_cfg_normalises Samples.local_env) as (_ & _ & Hloaded).
  destruct (Hloaded Samples.local_cfg eq_refl) as (Hfull & Hclean & _).
  by split.
Defined.

Lemma gateways_agree_on_settings_witness :
  FastMCP.cfg Samples.local_env
    = inr {| FastMCP.base_url := "http://127.0.0.1:9010";
             FastMCP.app := "Vision"; FastMCP.v := "v3" |}.
Proof.
  destruct (gateways_agree_on_settings Samples.local_env) as [Hloaded _].
  exact (Hloaded Samples.local_cfg eq_refl).
Defined.

(** [env_bool] removes the white space around the value as [str.strip()]
    does, the no-break space U+00A0 (bytes 194, 160) and the em space
    U+2003 (bytes 226, 128, 131) included, and compares without regard to
    letter case; any other text is false. *)
Example env_bool_values :
  let nbsp := String (ascii_of_nat 194) (String (ascii_of_nat 160) "") in
  let em_space :=
    String (ascii_of_nat 226) (String (ascii_of_nat 128) (String (ascii_of_nat 131) "")) in
  let reading (value : string) :=
    Gateway.env_bool (fun _ => Some value) "PBCS_VERIFY_SSL" false in
  reading (nbsp +:+ " TRUE" +:+ em_space) = true /\
  reading "  Yes " = true /\ reading "on" = true /\ reading "1" = true /\
  reading "0" = false /\ reading "" = false /\ reading "t r u e" = false.
Proof. vm_compute. repeat split. Qed.

(** The request a tool of the FastMCP gateway makes. *)
Lemma invoke_anatomy getenv c i t :
  FastMCP.cfg getenv = inr c ->
  exists method rest params body,
    let rq := FastMCP.outgoing c method ("/HyperionPlanning/rest/" +:+ rest) params body in
    snd (run (invoke getenv i) t) = [rq] /\
    (method = "GET" \/ method = "POST") /\
    (forall e, t rq = Failed e -> fst (run (invoke getenv i) t) = inl e).
Proof.
  intros Hcfg.
  destruct i as [| v a | jt jn ps v a | id v a | id o l v a];
    cbn [invoke];
    unfold FastMCP.planning_discover_versions, FastMCP.planning_list_job_definitions,
      FastMCP.planning_execute_job, FastMCP.planning_get_job_status,
      FastMCP.planning_get_job_details, run, mbind, io_bind, lift, mret, io_ret;
    rewrite ?Hcfg; rewrite (Remote.req_result getenv c) by done; cbn zeta;
    [ exists "GET", "", None, None
    | exists "GET", (FastMCP.text_or v (FastMCP.v c) +:+ "/applications/"
                     +:+ FastMCP.text_or a (FastMCP.app c) +:+ "/jobdefinitions"),
        None, None
    | exists "POST", (FastMCP.text_or v (FastMCP.v c) +:+ "/applications/"
                      +:+ FastMCP.text_or a (FastMCP.app c) +:+ "/jobs"),
        None,
        (Some (JObj [("jobType", JStr jt); ("jobName", JStr jn);
                     ("parameters", match ps with
                                    | Some p => py_or p (JObj [])
                                    | None => JObj []
                                    end)]))
    | exists "GET", (FastMCP.text_or v (FastMCP.v c) +:+ "/applications/"
                     +:+ FastMCP.text_or a (FastMCP.app c) +:+ "/jobs/" +:+ id),
        None, None
    | exists "GET", (FastMCP.text_or v (FastMCP.v c) +:+ "/applications/"
                     +:+ FastMCP.text_or a (FastMCP.app c) +:+ "/jobs/" +:+ id
                     +:+ "/details"),
        (Some [("offset", JNum o); ("limit", JNum l)]), None ];
    cbn zeta; unfold FastMCP.rest_path; cbn [String.append];
    match goal with
    | |- context [t ?rq] => destruct (t rq) as [r | e0] eqn:Ht
    end;
    repeat case_match; cbn [fst snd];
    (split; [reflexivity |]); (split; [auto |]); intros e' [=]; try done.
  all: try by subst.
  all: match goal with
       | Hfail : _ = Failed _ |- _ =>
           change ("/HyperionPlanning/rest/" +:+ "") with "/HyperionPlanning/rest/" in Hfail;
           congruence
       end.
Qed.

(** X22.  In the FastMCP gateway every tool call reads the environment
    anew.  Without a usable [PBCS_BASE_URL] the call raises the
    RuntimeError of [cfg] and makes no remote call.  With one it makes
    exactly one remote call, a GET or a POST to the base address followed
    by a path under [/HyperionPlanning/rest/], with the two JSON headers
    and a timeout of 30 seconds; and a failure of the transport leaves the
    tool as the exception of the transport: no tool of this gateway turns
    it into a result. *)
Theorem fastmcp_tools_call_once getenv i t :
  (forall e, FastMCP.cfg getenv = inl e -> run (invoke getenv i) t = (inl e, [])) /\
  (forall c, FastMCP.cfg getenv = inr c ->
     exists rq rest,
       snd (run (invoke getenv i) t) = [rq] /\
       url rq = FastMCP.base_url c +:+ "/HyperionPlanning/rest/" +:+ rest /\
       (method rq = "GET" \/ method rq = "POST") /\
       req_headers rq = [("Accept", "application/json"); ("Content-Type", "application/json")] /\
       timeout rq = 30 /\
       (forall e, t rq = Failed e -> fst (run (invoke getenv i) t) = inl e)).
Proof.
  split.
  - intros e Hcfg.
    destruct i; cbn [invoke];
      unfold FastMCP.planning_discover_versions, FastMCP.planning_list_job_definitions,
        FastMCP.planning_execute_job, FastMCP.planning_get_job_status,
        FastMCP.planning_get_job_details, FastMCP.req, run, mbind, io_bind, lift;
      by rewrite Hcfg.
  - intros c Hcfg.
    destruct (invoke_anatomy getenv c i t Hcfg)
      as (m & rest & ps & b & Hcalls & Hm & Hfail).
    eexists _, rest. split; [exact Hcalls |]. cbn.
    split; [done |]. split; [done |]. split; [done |]. split; [done |]. exact Hfail.
Qed.

Lemma fastmcp_tools_call_once_witness :
  fst (run (invoke Samples.local_env (GetJobStatus "1767268800000" None None))
         (fun _ => Failed (Exn "ConnectionError" "Connection refused")))
    = inl (Exn "ConnectionError" "Connection refused").
Proof.
  destruct (fastmcp_tools_call_once Samples.local_env
              (GetJobStatus "1767268800000" None None)
              (fun _ => Failed (Exn "ConnectionError" "Connection refused")))
    as [_ Hloaded].
  destruct (Hloaded _ eq_refl) as (rq & rest & _ & _ & _ & _ & _ & Hfail).
  by apply (Hfail (Exn "ConnectionError" "Connection refused")).
Defined.

End Configuration.

(** ** Edges of the credential check and of the submission handler *)

Module Edges.
Import Http Gateway Simulator Spec.

Ltac open_tool :=
  unfold tool_discover_versions, tool_list_job_definitions, tool_execute_job,
    tool_get_job_status, tool_get_job_details, mbind, io_bind, lift, mret, io_ret.

Ltac split_step :=
  match goal with
  | |- context [pbcs_request ?c ?m ?p ?ps ?b ?t ?calls] =>
      rewrite (Tools.pbcs_request_answer c m p ps b t calls)
  | |- context [match ?x with _ => _ end] =>
      lazymatch x with
      | context [pbcs_request] => fail
      | _ => destruct x eqn:?
      end
  end.

Lemma answer_is_no_refusal cfg path o : Anatomy.answer_of cfg path o <> unauthorized_client.
Proof. unfold Anatomy.answer_of. by repeat case_match. Qed.

Section WithRuntime.
Context `{PyRuntime}.

(** Past the check, no tool returns the refusal of the check. *)
Lemma no_refusal_past_the_check cfg args name fn t calls :
  In (name, fn) TOOLS ->
  check_client_key cfg args = inr None ->
  fst (fn cfg args t calls) <> inr unauthorized_client.
Proof.
  intros Hin Hcheck. cbn in Hin.
  repeat (destruct Hin as [[= <- <-] | Hin]); [.. | done]; open_tool;
    rewrite Hcheck; repeat split_step; cbn [fst]; try done;
    intros [= Hres]; by apply answer_is_no_refusal in Hres.
Qed.

(** X23.  Two edges of the credential check of the stdio gateway.  When
    the configured credential is unset or the empty text, the check is
    off: every tool runs as in a gateway without credential and never
    returns UNAUTHORIZED_CLIENT, whatever the arguments.  When a
    credential is configured and the arguments are not a dictionary, every
    tool raises the AttributeError of [args.get] and makes no remote
    call. *)
Theorem credential_check_edges cfg args name fn t :
  In (name, fn) TOOLS ->
  (present (client_api_key cfg) = None ->
     run (fn cfg args) t = run (fn (without_key cfg) args) t /\
     fst (run (fn cfg args) t) <> inr unauthorized_client) /\
  (is_Some (present (client_api_key cfg)) ->
   (forall kv, args <> JObj kv) ->
     run (fn cfg args) t = (inl (no_get args), [])).
Proof.
  intros Hin. split.
  - intros Hoff.
    assert (check_client_key cfg args = inr None) as Hcheck
      by (unfold check_client_key; by rewrite Hoff).
    split; [by apply (Credential.accepted_tool _ _ name) |].
    by apply (no_refusal_past_the_check _ _ name).
  - intros [key Hkey] Hargs.
    assert (check_client_key cfg args = inl (no_get args)) as Hcheck.
    { unfold check_client_key. rewrite Hkey.
      destruct args; try done. by destruct (Hargs fields). }
    unfold run. cbn in Hin.
    repeat (destruct Hin as [[= <- <-] | Hin]); [.. | done]; open_tool;
      by rewrite Hcheck.
Qed.

(** X24.  The submission handler on the shapes a JSON body can have, past
    the authorization gate: a body that fails the truth test ([null],
    [false], [0], the empty text, list or object) is read as the empty
    object and answered 400; a body that passes it and is no object makes
    [body.get] raise AttributeError.  Neither changes the store. *)
Theorem submission_body_shapes st now h app body :
  require_auth h = None ->
  (truthy body = false ->
     execute_job st now h app body
       = (st, Reply (Message "jobType and jobName are required") 400)) /\
  (truthy body = true -> (forall kv, body <> JObj kv) ->
     execute_job st now h app body = (st, Raise (no_get body))).
Proof.
  intros Hauth. unfold execute_job, py_or. rewrite Hauth. split.
  - by intros ->.
  - intros -> Hbody. destruct body; try done. by destruct (Hbody fields).
Qed.

(** One request that carries no failure signal makes no job FAILED. *)
Lemma handle_without_signal st now h r :
  fail_job h = false ->
  (forall id job, JOBS st !! id = Some job -> status job <> "FAILED") ->
  forall id job, JOBS (fst (handle st now h r)) !! id = Some job -> status job <> "FAILED".
Proof.
  intros Hfail Hnone id job.
  destruct r; cbn [handle fst]; try apply Hnone.
  - unfold execute_job. repeat case_match; cbn [fst JOBS]; try apply Hnone.
    rewrite lookup_insert. case_decide; [| apply Hnone]. by intros [= <-].
  - unfold job_status, append_log. rewrite Hfail. cbn [andb].
    repeat case_match; cbn [fst JOBS]; try apply Hnone;
      (rewrite lookup_insert; case_decide; [| apply Hnone]); intros [= <-]; cbn; try done;
      match goal with
      | Heq : String.eqb (status ?j) "RUNNING" = true |- _ =>
          apply String.eqb_eq in Heq; rewrite Heq; discriminate
      end.
Qed.

(** X25.  A job never fails by itself: in every store the server reaches
    from its empty start through requests none of which carries the
    failure signal, no job is FAILED. *)
Theorem no_failure_without_signal rs id job :
  Forall (fun a => fail_job (with_headers a) = false) rs ->
  JOBS (fst (serve empty_store rs)) !! id = Some job ->
  status job <> "FAILED".
Proof.
  intros Hall.
  assert (forall st,
            (forall id job, JOBS st !! id = Some job -> status job <> "FAILED") ->
            forall id job, JOBS (fst (serve st rs)) !! id = Some job ->
                           status job <> "FAILED") as Hgen.
  { induction Hall as [| a rest Ha Hrest IH]; intros st Hnone; [done |].
    cbn [serve].
    destruct (handle st (at_clock a) (with_headers a) (route a)) as [st1 r1] eqn:Hstep.
    destruct (serve st1 rest) as [st2 replies] eqn:Hrest2. cbn [fst].
    change st2 with (fst (st2, replies)). rewrite <- Hrest2. apply IH.
    change st1 with (fst (st1, r1)). rewrite <- Hstep.
    by apply handle_without_signal. }
  apply Hgen. intros id' job'. cbn. by rewrite lookup_empty.
Qed.

End WithRuntime.

Lemma credential_check_edges_witness :
  run (tool_discover_versions Samples.local_cfg (JArr [JStr "secret"]))
    (Samples.answering 201 Samples.created)
  = (inl (Exn "AttributeError" "'list' object has no attribute 'get'"), []).
Proof.
  destruct (credential_check_edges (H := plain_runtime) Samples.local_cfg
              (JArr [JStr "secret"]) "planning_discover_versions"
              tool_discover_versions (Samples.answering 201 Samples.created))
    as [_ Hgarbage]; [by left |].
  apply Hgarbage; [by eexists | discriminate].
Defined.

Lemma submission_body_shapes_witness :
  execute_job (H := plain_runtime) empty_store Samples.noon Samples.no_signals "Vision"
    (JArr [JStr "RULES"])
  = (empty_store, Raise (Exn "AttributeError" "'list' object has no attribute 'get'")).
Proof.
  destruct (submission_body_shapes (H := plain_runtime) empty_store Samples.noon
              Samples.no_signals "Vision" (JArr [JStr "RULES"]) eq_refl) as [_ Hraise].
  apply Hraise; [reflexivity | discriminate].
Defined.

Lemma no_failure_without_signal_witness :
  status (finish (set_progress Samples.first_job 100) "SUCCEEDED" Samples.noon) <> "FAILED".
Proof.
  apply (no_failure_without_signal (H := plain_runtime)
           (map Samples.arriving [Samples.submit; Samples.poll; Samples.poll; Samples.poll])
           Samples.first_id).
  - by repeat constructor.
  - reflexivity.
Defined.

End Edges.
